(* ===== verification/_CoqProject ===== *)
-Q . S2P
Prelude.v
PyStr.v
PyFloat.v
FloatRound.v
FloatRepr.v
FloatOrder.v
PyValue.v
ParseNumber.v
RandomSource.v
Rasa.v
Catalog.v
ActionRecomendar.v
ActionConfirmacion.v
ActionImc.v
Conversation.v
Gui.v
GuiLayout.v
