(* ===== verification/Prelude.v ===== *)
(** * VitaKids: a verification development of the chatbot's action server

    The repository is a Rasa chatbot for children ("VitaKids").  Its
    program logic lives in two Python files:

    - [src/Chat_Bot_Deber/actions/actions.py]: the custom actions that the
      Rasa dialogue engine calls.  [parse_number] extracts a number from a
      slot value; [ActionCalcularIMC.run] computes and classifies the body
      mass index; [ActionRecomendarPlato.run] proposes a dish for a meal
      time, read from a text file of dishes; [ActionManejarConfirmacionPlato.run]
      handles the user's "yes"/"no" to the proposal and proposes another dish.
    - [src/Interfaz Grafica Vitakids/gui_vita_kids.py]: a Qt window that posts
      the user's text to the Rasa REST webhook and shows the replies.

    The Rasa engine (intent classification, slot filling, the tracker store),
    the dish files under [data/datasets/], Qt and the HTTP stack are outside
    [src/]; they are the environment of the model (see "Not modelled").

    ** Files, in dependency order

    - [Prelude]: this file.  Python exceptions ([exn]), the error monad
      [res] ([Ok]/[Raise], notation [x <-? c ;; k] in [py_scope]), the
      tactics [invc] and [res_inv], the hint databases [pyrt] and [pyrw],
      [count_at] and the list lemmas the components share.
    - [PyStr]: Python [str] as a list of code points; [str.lower] (Latin-1),
      [str.strip] with Python's whitespace set, [str.replace] (structural,
      with its reference [replace_ref] by well-founded recursion in
      Equations), [\d], and the strict UTF-8 decoder of
      [open(..., encoding="utf-8")].
    - [PyFloat]: Python [float] as IEEE binary64 ([SpecFloat], precision
      53, [emax] 1024): correctly rounded [float("...")] and [float(int)],
      [/] and [** 2] with their [ZeroDivisionError] and [OverflowError],
      comparisons, [f"{x:.2f}"] and [repr] (shortest round-trip digits).
    - [FloatRound]: bounds on [SpecFloat]'s rounding step: every computed
      float has a 53-bit mantissa ([float_wf]), and the square of a number
      between [2^-500] and [2^400] is finite and non-zero.
    - [FloatRepr]: the decimal exponent [repr] computes is exact on every
      binary64 number: the search's start is above it and its fuel enough
      (a check by evaluation over the 2098 binary exponents).
    - [FloatOrder]: [<] and [<=] on floats are transitive (also mixed),
      by case analysis of [SFcompare].
    - [PyValue]: the slot values ([None], [bool], [int], [float], [str]),
      truth value, [x or d], [str(x)], and [pyval_wf] (a JSON value).
    - [ParseNumber] (Module [ParseNumber]): [parse_number], lines 16-30,
      with the regular expression [(\d+(\.\d+)?)] as a leftmost-match
      search.
    - [RandomSource]: [random.choice] over an injectable random source, a
      typeclass [RandomSource] with its contract [RandomSourceOk]; the
      instance [stream_source] replays pre-drawn indices.
    - [Rasa]: the tracker (slots as a [gmap], latest intent), [SlotSet]
      events, an action's [outcome] (utterances and events).
    - [Catalog] (Module [Catalog]): the meal-time table [archivos], the two
      normalisations of the meal time (lines 101-109 and 172), and reading
      a dish file ([load_platos], lines 124-130 and 187-192) from a file
      system given as a parameter.
    - [ActionRecomendar] (Module [ActionRecomendarPlato]), [ActionConfirmacion]
      (Module [ActionManejarConfirmacionPlato]), [ActionImc] (Module
      [ActionCalcularIMC]): each action's [run] as a function of the
      tracker (and the random state) to [res outcome], every branch, early
      return and raised exception of the source included.
    - [Conversation] (Module [Conversation]): the engine's loop as a step
      relation on (tracker, random state): intents, slot filling, one action
      per turn; an action that raises leaves the tracker unchanged.  The
      generic [reachable_inv] carries the invariants.  The actions'
      [name()] strings and the registry that finds an action by name;
      the specification's recommendation cycle ([fase], [paso_abstracto],
      labelled by action and intent) and the phase [fase_de] read from
      the slots.
    - [Gui] (Module [Gui]): [enviar_mensaje_a_rasa], [agregar_mensaje] and
      [enviar_mensaje] of [gui_vita_kids.py] on a window state (chat
      paragraphs, input text), the HTTP post being a parameter.
    - [GuiLayout] (Module [GuiLayout]): [ChatGUI.__init__] (lines 24-117)
      as a widget tree with the two signal connections and the read-only
      chat area, and the user's events (typing, editing the chat, Enter,
      click) acting on the window through the tree; [sesion] is the main
      block's event loop.

    ** What is proved

    - Contracts: each dish action refines an inductive contract
      ([propose_spec], [feedback_spec]) taken from the specification's
      section 4.4; the propose action is total under [RandomSourceOk].
      Until a dish is confirmed, every dish action either writes no dish
      or makes one step of the specification's recommendation cycle,
      labelled by the action and the user's intent ([accion_simula]).
    - Liveness: from any state of a conversation, naming a meal time with
      a readable, non-empty dish file, the proposal, an "afirmar" and the
      confirmation reach the phase [Confirmado] of a dish of that file
      ([ciclo_completable]); in the window, a non-blank message always
      gets its reply appended ([enviar_respondido]).
    - Invariants: every reachable [plato_recomendado] is a line of a dish
      file (rule induction on the reachability relation); once set, the
      confirmation flag stays set in every later state; every reachable
      tracker is well typed (binary64 floats, string and boolean slots);
      dishes read are stripped and non-empty; the chat history of the
      window is exactly the greeting and one reply per message sent.
    - Bounds: in a reachable conversation, a height between 1e-100 and
      1e100 never makes the BMI action raise.
    - Equivalence: the two normalisations of the meal time agree
      wherever the rejection handler's one finds a file.
    - Functional behaviour of the BMI action on every branch (success,
      clarification, refusal, [ZeroDivisionError] if and only if the
      square underflows, [OverflowError] for huge [int] slots, NaN), the
      monotone bands; [parse_number] on its branches, two round trips
      ([str(int)] and ["%.2f"]) and the cut exponent of [str(x)] for
      [x >= 1e16]; the reply the window shows for every outcome of the
      HTTP post.
    - Lemmas on the model of the Python runtime, not claims about the
      program: [str.replace] equals its reference ([replace_equiv]); the
      decimal-exponent search of [repr] is exact on every binary64 number
      ([decpt_exact]); 17 steps of fuel suffice for [strip_zeros].
    - Selection: the proposal is uniform over the file's lines, and a
      rejection excludes exactly the last dish (counted over all draws).
    - Behaviours the specification does not expect, as theorems: the
      underflow crash, the uncaught file error, the flag of a confirmed
      dish that survives every later step or is set with no proposal, the
      rejection that fails on every accented meal time, the ignored minus
      sign, the unescaped HTML of every message.

    ** Bounds and fuel

    The float printing functions recurse on fuel.  [decpt_go] steps the
    decimal exponent down from an estimate at most 2 above the true one;
    its 700 steps are proved enough ([FloatRepr.decpt_exact]: the start is
    above [2^n] for each binary exponent [n] of a binary64, and every
    binary64 is above [10^-324]).  [strip_zeros] removes at most 17
    trailing zeros ([strip_zeros_enough] proves its fuel suffices).
    [shortest_go] tries 1 to 17 digits; that 17 significant digits always
    read back as the same binary64 is the known property of IEEE double
    precision, not proved here (it needs the correctness of the decimal
    rounding of [of_sci], which the model computes but does not
    characterise); were it to run out, the model prints the 17-digit
    rounding.  The bounds theorem's range
    [1e-100 .. 1e100] keeps the squared exponent inside [-1074 .. 971].  The datasets hold a handful of
    short lines; nothing else is bounded.

    ** Not modelled

    The Rasa engine's NLU (which intent and which entities a message
    yields), the slot mapping of the domain file (assumed: the user's
    messages fill [peso], [altura], [nombre], [tiempo_comida] only),
    logging ([logger.info] lines are output the program never reads
    back), the rendering of the Qt widgets (pixels, fonts,
    images: the widget tree records only the properties the code sets),
    the HTTP transport.  [str.lower] beyond Latin-1, [\d] beyond ASCII
    digits and list or dict slot values are outside the model; [pow(x, 2)]
    is taken as the correctly rounded square. *)

From stdpp Require Import base list.
From Stdlib Require Import ZArith.

Declare Scope py_scope.
Delimit Scope py_scope with py.

(** ** Python exceptions raised by the modelled code *)

Inductive exn :=
  | ZeroDivisionError      (** [x / 0.0] on floats *)
  | OverflowError          (** [x ** 2] overflowing, [float(n)] of a huge int *)
  | IndexError             (** [random.choice([])] *)
  | OSError                (** [open()] failing: missing file, permissions *)
  | UnicodeDecodeError     (** a dish file that is not valid UTF-8 *)
  | RequestException.      (** [requests.post] failing in the GUI *)

#[export] Instance exn_eq_dec : EqDecision exn.
Proof. solve_decision. Defined.

(** A computation that returns a value or raises. *)
Inductive res (A : Type) : Type :=
  | Ok (a : A)
  | Raise (e : exn).
Arguments Ok {A} a.
Arguments Raise {A} e.

#[export] Instance res_eq_dec {A} `{EqDecision A} : EqDecision (res A).
Proof. solve_decision. Defined.

Definition res_bind {A B} (c : res A) (k : A -> res B) : res B :=
  match c with Ok a => k a | Raise e => Raise e end.

Definition res_map {A B} (f : A -> B) (c : res A) : res B :=
  match c with Ok a => Ok (f a) | Raise e => Raise e end.

Notation "x <-? c ;; k" := (res_bind c (fun x => k))
  (at level 60, c at next level, right associativity) : py_scope.

Open Scope py_scope.

(** ** Shared tactics *)

Ltac invc H := inversion H; subst; clear H.

(** Clear the equations between [Ok]/[Raise] values left by case analysis. *)
Ltac res_inv :=
  repeat match goal with
  | H : Ok _ = Ok _ |- _ => injection H; clear H; intros; subst
  | H : Ok _ = Raise _ |- _ => discriminate H
  | H : Raise _ = Ok _ |- _ => discriminate H
  | H : Raise _ = Raise _ |- _ => injection H; clear H; intros; subst
  | H : Some _ = Some _ |- _ => injection H; clear H; intros; subst
  | H : Some _ = None |- _ => discriminate H
  | H : None = Some _ |- _ => discriminate H
  end.

Create HintDb pyrt discriminated.
Create Rewrite HintDb pyrw.

(** Number of indices below [length l] at which [l] holds [x]: the count of
    [x] in [l].  This is what makes an index drawn uniformly a draw of each
    element with probability proportional to its multiplicity. *)
Fixpoint count_at {A} `{EqDecision A} (x : A) (l : list A) : nat :=
  match l with
  | [] => 0
  | y :: l' => (if decide (x = y) then 1 else 0) + count_at x l'
  end.

(** ** Generic lemmas *)

Lemma res_bind_Ok {A B} (c : res A) (k : A -> res B) b :
  res_bind c k = Ok b <-> exists a, c = Ok a /\ k a = Ok b.
Proof.
  destruct c as [a|e]; simpl; split.
  - eauto.
  - intros (a' & [= ->] & H). exact H.
  - discriminate.
  - intros (a' & ? & _). discriminate.
Qed.

Lemma res_bind_Raise {A B} (c : res A) (k : A -> res B) e :
  c = Raise e -> res_bind c k = Raise e.
Proof. intros ->. reflexivity. Qed.

Lemma res_bind_ret {A B} (a : A) (k : A -> res B) :
  res_bind (Ok a) k = k a.
Proof. reflexivity. Qed.

#[export] Hint Rewrite @res_bind_ret : pyrw.

(** Elements kept by a boolean filter. *)
Lemma In_filter_iff {A} (f : A -> bool) (l : list A) x :
  In x (List.filter f l) <-> In x l /\ f x = true.
Proof. apply filter_In. Qed.

Lemma nth_error_In_some {A} (l : list A) n x :
  nth_error l n = Some x -> In x l.
Proof. apply nth_error_In. Qed.

#[export] Hint Resolve nth_error_In_some : pyrt.

Lemma count_indices {A} `{EqDecision A} (x : A) (l : list A) :
  length (List.filter (fun i => bool_decide (nth_error l i = Some x))
                      (seq 0 (length l))) = count_at x l.
Proof.
  induction l as [|y l IH]; [reflexivity|].
  simpl. rewrite <- seq_shift, filter_map_swap. simpl.
  destruct (decide (x = y)) as [->|Hne].
  - rewrite bool_decide_eq_true_2 by reflexivity. simpl.
    rewrite length_map, IH. reflexivity.
  - rewrite bool_decide_eq_false_2 by congruence.
    rewrite length_map, IH. reflexivity.
Qed.
