(* ===== verification/PyStr.v ===== *)
(** * Python [str] values and the string methods the actions call

    A Python 3 [str] is a sequence of Unicode code points; it is modelled as
    [list N].  This file gives the methods [actions.py] uses:
    [str.lower], [str.strip], [str.replace], [==], the digit test of the
    regular expression [\d], and the strict UTF-8 decoder behind
    [open(path, encoding="utf-8")] (also used to write the source's literals,
    which are UTF-8 in the Python file). *)

From Stdlib Require Import Ascii String.
From stdpp Require Import base list.
From Stdlib Require Import NArith.
From Equations Require Import Equations.
From S2P Require Import Prelude.

Definition pychar := N.
Definition pystr := list pychar.

Local Open Scope N_scope.

(** ** Strict UTF-8 decoding (Python's ["utf-8"] codec, errors="strict")

    Overlong forms, surrogates and code points above U+10FFFF are refused,
    as CPython's decoder refuses them.  A byte-order mark is kept as U+FEFF. *)

Definition is_cont (b : N) : bool := (0x80 <=? b) && (b <? 0xC0).

Definition in_range (lo hi b : N) : bool := (lo <=? b) && (b <=? hi).

(** Admissible range of the second byte of a three- or four-byte sequence. *)
Definition second_ok (b0 b1 : N) : bool :=
  if b0 =? 0xE0 then in_range 0xA0 0xBF b1
  else if b0 =? 0xED then in_range 0x80 0x9F b1
  else if b0 =? 0xF0 then in_range 0x90 0xBF b1
  else if b0 =? 0xF4 then in_range 0x80 0x8F b1
  else is_cont b1.

Fixpoint utf8_decode (bs : list N) : option pystr :=
  match bs with
  | [] => Some []
  | b0 :: r0 =>
      if b0 <? 0x80 then cons b0 <$> utf8_decode r0
      else if in_range 0xC2 0xDF b0 then
        match r0 with
        | b1 :: r1 =>
            if is_cont b1
            then cons ((b0 - 0xC0) * 64 + (b1 - 0x80)) <$> utf8_decode r1
            else None
        | [] => None
        end
      else if in_range 0xE0 0xEF b0 then
        match r0 with
        | b1 :: b2 :: r2 =>
            if second_ok b0 b1 && is_cont b2
            then cons ((b0 - 0xE0) * 4096 + (b1 - 0x80) * 64 + (b2 - 0x80))
                   <$> utf8_decode r2
            else None
        | _ => None
        end
      else if in_range 0xF0 0xF4 b0 then
        match r0 with
        | b1 :: b2 :: b3 :: r3 =>
            if second_ok b0 b1 && is_cont b2 && is_cont b3
            then cons ((b0 - 0xF0) * 262144 + (b1 - 0x80) * 4096
                       + (b2 - 0x80) * 64 + (b3 - 0x80)) <$> utf8_decode r3
            else None
        | _ => None
        end
      else None
  end.

(** The bytes of a Rocq string (its UTF-8 encoding). *)
Definition bytes_of (s : string) : list N := map N_of_ascii (list_ascii_of_string s).

(** A Python string literal of the source file: the UTF-8 bytes of the
    Rocq string, decoded. *)
Definition lit (s : string) : pystr := default [] (utf8_decode (bytes_of s)).

(** ** [str.lower]

    Python lowercases by the Unicode case tables.  The model gives the
    mapping on Latin-1 (U+0000 to U+00FF): A-Z and the accented capitals
    U+00C0 to U+00DE except the multiplication sign U+00D7.  Code points
    above U+00FF are left unchanged (see the root header). *)
Definition lower_char (c : pychar) : pychar :=
  if in_range 65 90 c || (in_range 192 222 c && negb (c =? 215))
  then c + 32 else c.

Definition lower (s : pystr) : pystr := map lower_char s.

(** ** [str.strip] with no argument: Unicode white space ([str.isspace]) *)
Definition isspace (c : pychar) : bool :=
  in_range 9 13 c || in_range 28 32 c || (c =? 133) || (c =? 160)
  || (c =? 5760) || in_range 8192 8202 c || (c =? 8232) || (c =? 8233)
  || (c =? 8239) || (c =? 8287) || (c =? 12288).

Fixpoint lstrip (s : pystr) : pystr :=
  match s with
  | c :: s' => if isspace c then lstrip s' else s
  | [] => []
  end.

Definition rstrip (s : pystr) : pystr := rev (lstrip (rev s)).

Definition strip (s : pystr) : pystr := rstrip (lstrip s).

(** ** [str.replace(old, new)]: every non-overlapping occurrence, scanning
    left to right.  [skip] counts the characters of a replaced occurrence
    still to be passed over, which keeps the recursion structural. *)
Fixpoint starts_with (p s : pystr) : bool :=
  match p, s with
  | [], _ => true
  | c :: p', d :: s' => (c =? d) && starts_with p' s'
  | _ :: _, [] => false
  end.

Fixpoint replace_go (old new : pystr) (skip : nat) (s : pystr) : pystr :=
  match s with
  | [] => []
  | c :: s' =>
      match skip with
      | S k => replace_go old new k s'
      | O =>
          if starts_with old s
          then new ++ replace_go old new (Nat.pred (length old)) s'
          else c :: replace_go old new 0 s'
      end
  end.

(** [s.replace(old, new)]; with an empty [old] Python inserts [new] before
    every character and at the end. *)
Definition replace (s old new : pystr) : pystr :=
  match old with
  | [] => new ++ List.concat (map (fun c => c :: new) s)
  | _ :: _ => replace_go old new 0 s
  end.

(** The reference reading of [s.replace(old, new)] for a non-empty [old]
    ([o :: os]): at each position, an occurrence of [old] is replaced and
    scanning resumes after it, otherwise the character is kept.  The
    recursion is on the length of the rest, by well-founded recursion. *)
Equations replace_ref (o : pychar) (os new s : pystr) : pystr by wf (length s) lt :=
  replace_ref o os new [] := [];
  replace_ref o os new (c :: s') :=
    if starts_with (o :: os) (c :: s') then new ++ replace_ref o os new (drop (length os) s')
    else c :: replace_ref o os new s'.
Next Obligation. rewrite length_drop. simpl. lia. Qed.

(** [\d] of Python's [re] on ASCII input; see the root header for the
    other Unicode decimal digits. *)
Definition is_digit (c : pychar) : bool := in_range 48 57 c.

Definition pystr_eqb (s t : pystr) : bool := bool_decide (s = t).

(** ** Lemmas *)

Lemma lstrip_map (f : pychar -> pychar) (s : pystr) :
  (forall c, isspace (f c) = isspace c) -> lstrip (map f s) = map f (lstrip s).
Proof.
  intros Hf. induction s as [|c s IH]; [reflexivity|].
  simpl. rewrite Hf. destruct (isspace c); [exact IH|reflexivity].
Qed.

(** Stripping commutes with a character map that preserves white space. *)
Lemma strip_map (f : pychar -> pychar) (s : pystr) :
  (forall c, isspace (f c) = isspace c) -> strip (map f s) = map f (strip s).
Proof.
  intros Hf. unfold strip, rstrip.
  rewrite lstrip_map by exact Hf. rewrite <- map_rev, lstrip_map by exact Hf.
  rewrite map_rev. reflexivity.
Qed.

(** Turn a boolean test on code points into arithmetic facts for [lia]. *)
Ltac reflect_N H :=
  unfold in_range, is_digit in H;
  rewrite ?orb_true_iff, ?orb_false_iff, ?andb_true_iff, ?andb_false_iff,
    ?negb_true_iff, ?negb_false_iff, ?N.leb_le, ?N.leb_gt, ?N.ltb_lt, ?N.ltb_ge,
    ?N.eqb_eq, ?N.eqb_neq in H.

Lemma isspace_range c :
  isspace c = true -> c <= 32 \/ c = 133 \/ c = 160 \/ 5760 <= c.
Proof. intros H. unfold isspace in H. reflect_N H. lia. Qed.

Lemma isspace_lower_char c : isspace (lower_char c) = isspace c.
Proof.
  unfold lower_char. destruct (in_range 65 90 c || _) eqn:E; [|reflexivity].
  reflect_N E.
  destruct (isspace (c + 32)) eqn:E1, (isspace c) eqn:E2; try reflexivity;
    first [apply isspace_range in E1 | apply isspace_range in E2]; lia.
Qed.

Lemma lower_char_idem c : lower_char (lower_char c) = lower_char c.
Proof.
  unfold lower_char.
  destruct (in_range 65 90 c || _) eqn:E; reflect_N E;
    destruct (in_range 65 90 _ || _) eqn:E'; reflect_N E';
    reflexivity || lia.
Qed.

Lemma lower_idem s : lower (lower s) = lower s.
Proof. unfold lower. rewrite map_map. apply map_ext, lower_char_idem. Qed.

Lemma strip_lower s : strip (lower s) = lower (strip s).
Proof. apply strip_map, isspace_lower_char. Qed.

(** Replacing a one-character string is a character map. *)
Lemma replace_char (s : pystr) (a b : pychar) :
  replace s [a] [b] = map (fun c => if c =? a then b else c) s.
Proof.
  unfold replace. induction s as [|c s IH]; [reflexivity|].
  simpl. destruct (N.eqb_spec a c) as [->|Hne].
  - rewrite N.eqb_refl. simpl. f_equal. exact IH.
  - destruct (N.eqb_spec c a); [congruence|]. simpl. f_equal. exact IH.
Qed.

#[export] Hint Rewrite replace_char strip_lower lower_idem : pyrw.

(** ** [replace] against its reference *)

Lemma replace_go_skip (old new : pystr) (k : nat) (s : pystr) :
  replace_go old new k s = replace_go old new 0 (drop k s).
Proof.
  revert k. induction s as [|c s IH]; intros [|k]; try reflexivity.
  cbn [replace_go drop]. apply IH.
Qed.

(** Equivalence: the structural [replace] (a skip counter passes over
    a replaced occurrence) computes Python's leftmost, non-overlapping
    replacement, defined by well-founded recursion. *)
Theorem replace_equiv (s : pystr) (o : pychar) (os new : pystr) :
  replace s (o :: os) new = replace_ref o os new s.
Proof.
  unfold replace. funelim (replace_ref o os new s); [reflexivity|].
  cbn [replace_go]. destruct (starts_with (o :: os) (c :: s')) eqn:E.
  - cbn [length Nat.pred]. rewrite replace_go_skip, H. reflexivity.
  - rewrite H0. reflexivity.
Qed.

Lemma starts_with_app (p s : pystr) : starts_with p s = true -> s = p ++ drop (length p) s.
Proof.
  revert s. induction p as [|c p IH]; intros [|d s]; cbn; try discriminate; try reflexivity.
  intros H. apply andb_prop in H as [Hc H]. apply N.eqb_eq in Hc as ->. f_equal. apply IH, H.
Qed.

(** A character that is not in [old] survives the replacement. *)
Lemma In_replace_ref (o : pychar) (os new s : pystr) (x : pychar) :
  In x s -> ~ In x (o :: os) -> In x (replace_ref o os new s).
Proof.
  funelim (replace_ref o os new s); intros Hx Hn; [destruct Hx|].
  destruct (starts_with (o :: os) (c :: s')) eqn:E.
  - apply in_or_app. right. apply H; [|exact Hn].
    apply starts_with_app in E. rewrite E in Hx. apply in_app_or in Hx as [Hx|Hx];
      [contradiction|exact Hx].
  - destruct Hx as [<-|Hx]; [left; reflexivity|right; auto].
Qed.
