(* ===== verification/PyFloat.v ===== *)
(** * Python [float]: IEEE 754 binary64

    A Python float is a C double.  It is modelled by Corelib's [SpecFloat]
    (the Flocq specification of binary floating point) at precision 53 and
    maximal exponent 1024, so sums, quotients, overflow to infinity,
    underflow to zero and NaN behave as in CPython.  On top of it, this file
    gives the Python operations [actions.py] applies to floats:
    - [float(s)] of a digit string [ddd] or [ddd.fff] (correctly rounded,
      as CPython's [dtoa] is): [of_decimal];
    - [float(n)] of an [int] (correctly rounded, [OverflowError] when the
      result is infinite): [of_int];
    - [a / b] ([ZeroDivisionError] when [b] is a zero): [py_div];
    - [a ** 2] (CPython's [float_pow]: special cases, then C [pow], and
      [OverflowError] when the result overflows): [py_sq];
    - [<], [<=], [>] (IEEE comparisons, false on NaN);
    - [f"{x:.2f}"] (exact value rounded half to even): [format_2f]. *)

From Stdlib Require Import String.
From stdpp Require Import base list.
From Stdlib Require Import ZArith NArith SpecFloat DecimalN.
From S2P Require Import Prelude PyStr.

Definition prec : Z := 53.
Definition emax : Z := 1024.

Definition float := spec_float.

#[export] Instance float_eq_dec : EqDecision float.
Proof. solve_decision. Defined.

(** ** Conversions *)

(** [float(s)] for [s] the digit string of [m] followed by a dot and [k]
    fraction digits (so [s] denotes [m / 10^k]), rounded to nearest even. *)
Definition of_decimal (m : N) (k : nat) : float :=
  match m with
  | N0 => S754_zero false
  | Npos _ =>
      let '(q, e, l) := SFdiv_core_binary prec emax (Z.of_N m) 0
                          (10 ^ Z.of_nat k) 0 in
      binary_round_aux prec emax false q e l
  end.

(** [float(n)] for a Python [int] [n]. *)
Definition of_int (n : Z) : res float :=
  match binary_normalize prec emax n 0 false with
  | S754_infinity _ => Raise OverflowError
  | f => Ok f
  end.

(** Literals of the source. *)
Definition f_zero : float := S754_zero false.
Definition f_three : float := of_decimal 3 0.
Definition f_hundred : float := of_decimal 100 0.
Definition f_18_5 : float := of_decimal 185 1.
Definition f_25 : float := of_decimal 25 0.
Definition f_one : float := of_decimal 1 0.

(** ** Arithmetic *)

Definition is_zero (x : float) : bool :=
  match x with S754_zero _ => true | _ => false end.

(** [a / b]: CPython's [float_div] raises on a zero divisor (either sign),
    otherwise divides in IEEE arithmetic. *)
Definition py_div (a b : float) : res float :=
  if is_zero b then Raise ZeroDivisionError else Ok (SFdiv prec emax a b).

(** [x ** 2]: CPython's [float_pow] returns NaN for NaN, [inf] for an
    infinity, [0.0] for a zero; otherwise it calls [pow(|x|, 2.0)], which
    is the rounded square, and raises [OverflowError] when that is
    infinite.  An underflow to zero is not an error. *)
Definition py_sq (x : float) : res float :=
  match x with
  | S754_nan => Ok S754_nan
  | S754_infinity _ => Ok (S754_infinity false)
  | S754_zero _ => Ok (S754_zero false)
  | S754_finite _ _ _ =>
      match SFmul prec emax x x with
      | S754_infinity _ => Raise OverflowError
      | r => Ok r
      end
  end.

(** Python's comparison operators on floats (and on an int literal that is
    exactly representable). *)
Definition lt (x y : float) : bool := SFltb x y.
Definition le (x y : float) : bool := SFleb x y.
Definition gt (x y : float) : bool := SFltb y x.

(** ** Formatting with [f"{x:.2f}"] *)

(** [num / den] rounded to nearest, ties to even ([den > 0]). *)
Definition round_half_even (num den : Z) : Z :=
  let '(q, r) := Z.div_eucl num den in
  match Z.compare (2 * r) den with
  | Lt => q
  | Gt => q + 1
  | Eq => if Z.even q then q else q + 1
  end.

(** [100 * m * 2^e] rounded to an integer. *)
Definition scaled_100 (m : positive) (e : Z) : Z :=
  if (0 <=? e)%Z then Zpos m * 2 ^ e * 100
  else round_half_even (Zpos m * 100) (2 ^ (- e)).

Fixpoint uint_digits (d : Decimal.uint) : pystr :=
  match d with
  | Decimal.Nil => []
  | Decimal.D0 d => 48 :: uint_digits d
  | Decimal.D1 d => 49 :: uint_digits d
  | Decimal.D2 d => 50 :: uint_digits d
  | Decimal.D3 d => 51 :: uint_digits d
  | Decimal.D4 d => 52 :: uint_digits d
  | Decimal.D5 d => 53 :: uint_digits d
  | Decimal.D6 d => 54 :: uint_digits d
  | Decimal.D7 d => 55 :: uint_digits d
  | Decimal.D8 d => 56 :: uint_digits d
  | Decimal.D9 d => 57 :: uint_digits d
  end%N.

(** Decimal digits of a natural number, without leading zeros. *)
Definition digits_N (n : N) : pystr := uint_digits (N.to_uint n).

Definition format_2f (x : float) : pystr :=
  let sign (s : bool) : pystr := if s then [45%N] else [] in
  match x with
  | S754_nan => lit "nan"
  | S754_infinity s => sign s ++ lit "inf"
  | S754_zero s => sign s ++ lit "0.00"
  | S754_finite s m e =>
      let n := scaled_100 m e in
      let c := Z.to_N (n mod 100) in
      sign s ++ digits_N (Z.to_N (n / 100)) ++ [46%N]
        ++ [(48 + c / 10)%N; (48 + c mod 10)%N]
  end.

Local Open Scope Z_scope.

(** ** [float(s)] of a number in scientific form, and [repr(x)]

    [str(x)] of a float is [repr(x)]: the shortest decimal string that reads
    back as [x] (CPython's [dtoa] mode 0), written in positional form when
    the decimal exponent [decpt] satisfies [-4 < decpt <= 16], in
    exponential form otherwise, with [".0"] added to integral values. *)

(** [d * 10^p] rounded to nearest even. *)
Definition of_sci (d : N) (p : Z) : float :=
  if (0 <=? p)%Z then binary_normalize prec emax (Z.of_N d * 10 ^ p) 0 false
  else of_decimal d (Z.to_nat (- p)).

(** The exact value [m * 2^e] as [num / den]. *)
Definition to_frac (m : positive) (e : Z) : Z * Z :=
  if (0 <=? e)%Z then (Zpos m * 2 ^ e, 1%Z) else (Zpos m, 2 ^ (- e)).

(** [num / den < 10^k]. *)
Definition below_pow10 (num den k : Z) : bool :=
  if (0 <=? k)%Z then (num <? 10 ^ k * den)%Z else (num * 10 ^ (- k) <? den)%Z.

(** The decimal exponent: the least [k] with [num / den < 10^k], searched
    downwards from [k]. *)
Fixpoint decpt_go (fuel : nat) (num den k : Z) : Z :=
  match fuel with
  | O => k
  | S fuel' => if below_pow10 num den (k - 1) then decpt_go fuel' num den (k - 1) else k
  end.

(** The search starts above the decimal exponent of [m * 2^e]: with [d]
    the number of bits of [m], the value is below [2^(d+e)], whose decimal
    exponent is at most [(d+e) * 0.30103 + 1].  700 steps cover the whole
    binary64 range ([10^-324 < x < 10^309]). *)
Definition decpt (m : positive) (e : Z) (num den : Z) : Z :=
  decpt_go 700 num den (((Zpos (digits2_pos m) + e) * 30103) / 100000 + 2).

(** The [n]-digit rounding of [num / den] whose decimal exponent is [k]:
    digits [d] with [num / den ~ d * 10^(k - n)]. *)
Definition round_digits (num den k : Z) (n : Z) : Z :=
  if (0 <=? n - k)%Z then round_half_even (num * 10 ^ (n - k)) den
  else round_half_even num (den * 10 ^ (k - n)).

(** Shortest digits that read back as [S754_finite false m e]: the result
    is [(digits, decpt)]; at most 17 digits are ever needed. *)
Fixpoint shortest_go (fuel : nat) (n : Z) (m : positive) (e num den k : Z) : Z * Z :=
  match fuel with
  | O => (round_digits num den k 17, k)
  | S fuel' =>
      let d := round_digits num den k n in
      let '(d, k) := if (d =? 10 ^ n)%Z then (10 ^ (n - 1), k + 1)%Z else (d, k) in
      if bool_decide (of_sci (Z.to_N d) (k - n) = S754_finite false m e)
      then (d, k)
      else shortest_go fuel' (n + 1) m e num den k
  end.

Definition shortest (m : positive) (e : Z) : Z * Z :=
  let '(num, den) := to_frac m e in
  shortest_go 17 1 m e num den (decpt m e num den).

(** Drop trailing zero digits, as [dtoa] returns them (at most 17). *)
Fixpoint strip_zeros (fuel : nat) (d : Z) : Z :=
  match fuel with
  | O => d
  | S fuel' => if ((d mod 10 =? 0) && (0 <? d))%Z then strip_zeros fuel' (d / 10) else d
  end.

Definition zeros (n : Z) : pystr := repeat 48%N (Z.to_nat n).

(** Python's [format_float_short] for repr: digits [ds] and exponent [k]. *)
Definition layout (ds : pystr) (k : Z) : pystr :=
  let n := Z.of_nat (length ds) in
  if ((k <=? -4) || (16 <? k))%Z then
    let x := (k - 1)%Z in
    let mant := match ds with
                | [] => []
                | [d] => [d]
                | d :: r => d :: 46%N :: r
                end in
    let ex := digits_N (Z.to_N (Z.abs x)) in
    mant ++ [101%N; if (x <? 0)%Z then 45%N else 43%N]
         ++ (if (Z.abs x <? 10)%Z then [48%N] else []) ++ ex
  else if (k <=? 0)%Z then lit "0." ++ zeros (- k) ++ ds
  else if (n <=? k)%Z then ds ++ zeros (k - n) ++ lit ".0"
  else List.firstn (Z.to_nat k) ds ++ [46%N] ++ List.skipn (Z.to_nat k) ds.

Definition repr (x : float) : pystr :=
  let sign (s : bool) : pystr := if s then [45%N] else [] in
  match x with
  | S754_nan => lit "nan"
  | S754_infinity s => sign s ++ lit "inf"
  | S754_zero s => sign s ++ lit "0.0"
  | S754_finite s m e =>
      let '(d, k) := shortest m e in
      sign s ++ layout (digits_N (Z.to_N (strip_zeros 17 d))) k
  end.

(** ** Lemmas *)

Lemma py_sq_raises x e : py_sq x = Raise e -> e = OverflowError.
Proof.
  unfold py_sq. destruct x; try discriminate.
  destruct (SFmul _ _ _ _); intros H; res_inv; reflexivity.
Qed.

Lemma py_div_raises a b e : py_div a b = Raise e -> e = ZeroDivisionError.
Proof. unfold py_div. destruct (is_zero b); intros H; res_inv; reflexivity. Qed.

(** Termination of the trailing-zero loop: 17 steps of fuel are
    enough for [strip_zeros] on any digit string of at most 17 digits (the
    longest [repr] needs): the loop stops with a number that has no
    trailing zero (or is 0), and the input is that number times a power of
    ten. *)
Theorem strip_zeros_enough (fuel : nat) (d : Z) :
  0 <= d < 10 ^ Z.of_nat fuel ->
  (strip_zeros fuel d = 0 \/ strip_zeros fuel d mod 10 <> 0) /\
  exists j, 0 <= j /\ d = strip_zeros fuel d * 10 ^ j.
Proof.
  revert d. induction fuel as [|fuel IH]; intros d Hd; cbn [strip_zeros].
  - cbn in Hd. split; [left; lia | exists 0; split; [lia | rewrite Z.mul_1_r; reflexivity]].
  - destruct ((d mod 10 =? 0) && (0 <? d)) eqn:E.
    + apply andb_prop in E as [E1 E2]. apply Z.eqb_eq in E1. apply Z.ltb_lt in E2.
      rewrite Nat2Z.inj_succ, Z.pow_succ_r in Hd by lia.
      destruct (IH (d / 10)) as [Hr (j & Hj & Hdj)]; [split; [apply Z.div_pos|apply Z.div_lt_upper_bound]; lia|].
      split; [exact Hr|]. exists (j + 1). split; [lia|].
      rewrite Z.pow_add_r, Z.mul_assoc, <- Hdj by lia.
      rewrite (Z.div_mod d 10) at 1 by lia. lia.
    + split; [|exists 0; split; [lia | rewrite Z.mul_1_r; reflexivity]].
      apply andb_false_iff in E as [E|E]; [apply Z.eqb_neq in E; right; exact E|].
      apply Z.ltb_ge in E. left. lia.
Qed.

Lemma strip_zeros_enough_witness :
  (strip_zeros 17 1500 = 0 \/ strip_zeros 17 1500 mod 10 <> 0) /\
  exists j, 0 <= j /\ 1500 = strip_zeros 17 1500 * 10 ^ j.
Proof. apply strip_zeros_enough. split; [lia | apply Z.ltb_lt; vm_compute; reflexivity]. Defined.
