(* ===== verification/FloatRound.v ===== *)
(** * Rounding bounds for binary64 results

    [SpecFloat.binary_round_aux] is the rounding step shared by [SFmul],
    [SFdiv] and the conversions of [PyFloat].  This file proves two facts
    about it: a finite result has a mantissa below [2^53] (every float the
    program computes is a genuine binary64 number, [float_wf]), and a
    positive mantissa whose magnitude is far from both ends of the
    exponent range rounds to a finite, non-zero float.  From them: the
    square [altura ** 2] of a binary64 number between [2^-500] and [2^400]
    neither underflows nor overflows, and a number between two positive
    floats has its exponent between theirs. *)

From stdpp Require Import base.
From Stdlib Require Import ZArith SpecFloat Lia.
From S2P Require Import Prelude PyFloat.

Local Open Scope Z_scope.

(** A binary64 number: a finite float's mantissa fits in 53 bits. *)
Definition float_wf (x : float) : Prop :=
  match x with S754_finite _ m _ => Zpos m < 2 ^ prec | _ => True end.

(** ** Digits and shifts *)

Lemma Zdigits2_log2 (m : Z) : 0 < m -> Zdigits2 m = Z.log2 m + 1.
Proof.
  destruct m as [|p|p]; try lia. intros _. cbn [Zdigits2].
  assert (Hd : forall q, digits2_pos q = Pos.size q) by (induction q; simpl; congruence).
  rewrite Hd. destruct p; simpl; lia.
Qed.

Lemma shiftr_pos (a n : Z) : 0 < a -> 0 <= n <= Z.log2 a -> 0 < Z.shiftr a n.
Proof.
  intros Ha Hn. rewrite Z.shiftr_div_pow2 by lia. apply Z.div_str_pos. split.
  - apply Z.pow_pos_nonneg; lia.
  - transitivity (2 ^ Z.log2 a); [apply Z.pow_le_mono_r; lia | apply Z.log2_spec; lia].
Qed.

Lemma shiftr_lt_pow2 (a n k : Z) : 0 <= a -> 0 <= n -> 0 <= k -> Z.log2 a + 1 - n <= k ->
  Z.shiftr a n < 2 ^ k.
Proof.
  intros Ha Hn Hk0 Hk. destruct (Z.eq_dec (Z.shiftr a n) 0) as [-> | Hne].
  { apply Z.pow_pos_nonneg; lia. }
  assert (Hp : 0 < Z.shiftr a n) by (pose proof (proj2 (Z.shiftr_nonneg a n) Ha); lia).
  assert (Ha' : 0 < a) by (destruct (Z.eq_dec a 0) as [->|]; [rewrite Z.shiftr_0_l in Hne|]; lia).
  assert (n <= Z.log2 a)
    by (destruct (Z.le_gt_cases n (Z.log2 a)); [|rewrite Z.shiftr_eq_0 in Hne]; lia).
  apply Z.log2_lt_pow2; [exact Hp|]. rewrite Z.log2_shiftr by exact Ha'. lia.
Qed.

Lemma iter_shr_1 (p : positive) (r : shr_record) :
  0 <= shr_m r -> shr_m (iter_pos shr_1 p r) = Z.shiftr (shr_m r) (Zpos p).
Proof.
  assert (H1 : forall r, 0 <= shr_m r -> shr_m (shr_1 r) = Z.shiftr (shr_m r) 1).
  { intros [[|[q|q|]|q] ? ?]; cbn; intros; try lia; rewrite <- Z.div2_spec; reflexivity. }
  revert r. induction p as [p IH|p IH|]; intros r Hr; cbn [iter_pos].
  - assert (H0 : 0 <= shr_m (shr_1 r)) by (rewrite H1 by exact Hr; apply Z.shiftr_nonneg; lia).
    assert (H2 : 0 <= shr_m (iter_pos shr_1 p (shr_1 r)))
      by (rewrite IH by exact H0; apply Z.shiftr_nonneg; lia).
    rewrite (IH _ H2), (IH _ H0), (H1 _ Hr), !Z.shiftr_shiftr by lia. f_equal. lia.
  - assert (H2 : 0 <= shr_m (iter_pos shr_1 p r))
      by (rewrite IH by exact Hr; apply Z.shiftr_nonneg; lia).
    rewrite (IH _ H2), (IH _ Hr), Z.shiftr_shiftr by lia. f_equal. lia.
  - apply H1, Hr.
Qed.

(** [shr_fexp] moves the mantissa to the exponent [fexp] gives. *)
Lemma shr_fexp_spec (m e : Z) (l : location) : 0 <= m ->
  shr_m (fst (shr_fexp prec emax m e l)) = Z.shiftr m (snd (shr_fexp prec emax m e l) - e) /\
  snd (shr_fexp prec emax m e l) = Z.max e (fexp prec emax (Zdigits2 m + e)).
Proof.
  intros Hm. unfold shr_fexp, shr.
  assert (Hl : shr_m (shr_record_of_loc m l) = m) by (destruct l as [|[]]; reflexivity).
  destruct (fexp prec emax (Zdigits2 m + e) - e) as [|p|p] eqn:E; cbn [fst snd].
  - rewrite Hl, Z.sub_diag, Z.shiftr_0_r. split; [reflexivity | lia].
  - rewrite iter_shr_1 by lia. rewrite Hl. split; [f_equal; lia | lia].
  - rewrite Hl, Z.sub_diag, Z.shiftr_0_r. split; [reflexivity | lia].
Qed.

Lemma round_nearest_even_bounds (m : Z) (l : location) :
  m <= round_nearest_even m l <= m + 1.
Proof. destruct l as [|[]]; cbn; try destruct (Z.even m); lia. Qed.

Lemma fexp_unfold (e : Z) : fexp prec emax e = Z.max (e - 53) (-1074).
Proof. reflexivity. Qed.

(** ** The two facts on [binary_round_aux] *)

Lemma binary_round_aux_wf (s : bool) (mx ex : Z) (l : location) :
  0 <= mx -> float_wf (binary_round_aux prec emax s mx ex l).
Proof.
  intros Hm. unfold binary_round_aux.
  destruct (shr_fexp prec emax mx ex l) as [r1 e1] eqn:E1.
  pose proof (shr_fexp_spec mx ex l Hm) as [Hr1 He1]. rewrite E1 in Hr1, He1. cbn in Hr1, He1.
  set (m1 := round_nearest_even (shr_m r1) (loc_of_shr_record r1)).
  assert (Hm1 : 0 <= m1).
  { pose proof (round_nearest_even_bounds (shr_m r1) (loc_of_shr_record r1)).
    pose proof (proj2 (Z.shiftr_nonneg mx (e1 - ex)) Hm). subst m1. lia. }
  destruct (shr_fexp prec emax m1 e1 loc_Exact) as [r2 e2] eqn:E2.
  pose proof (shr_fexp_spec m1 e1 loc_Exact Hm1) as [Hr2 He2]. rewrite E2 in Hr2, He2. cbn in Hr2, He2.
  destruct (shr_m r2) as [|m|] eqn:Em; [exact I| |exact I].
  destruct (e2 <=? emax - prec); [|exact I]. cbn [float_wf]. rewrite Hr2.
  destruct (Z.eq_dec m1 0) as [-> | Hne]; [rewrite Z.shiftr_0_l; reflexivity|].
  rewrite Zdigits2_log2 in He2 by lia. rewrite fexp_unfold in He2.
  apply shiftr_lt_pow2; unfold prec; lia.
Qed.

(** A positive mantissa whose magnitude [2^(digits + ex)] is above the
    subnormal range and whose rounded exponent stays below the overflow
    threshold rounds to a finite float of the same sign. *)
Lemma binary_round_aux_finite (s : bool) (mx ex : Z) (l : location) :
  0 < mx -> -1074 < Zdigits2 mx + ex -> Z.max ex (Zdigits2 mx + ex - 53) + 1 <= 971 ->
  exists m e, binary_round_aux prec emax s mx ex l = S754_finite s m e.
Proof.
  intros Hm Hlo Hhi. unfold binary_round_aux.
  destruct (shr_fexp prec emax mx ex l) as [r1 e1] eqn:E1.
  pose proof (shr_fexp_spec mx ex l ltac:(lia)) as [Hr1 He1]. rewrite E1 in Hr1, He1. cbn in Hr1, He1.
  rewrite Zdigits2_log2 in He1, Hlo, Hhi by lia. rewrite fexp_unfold in He1.
  pose proof (Z.log2_nonneg mx).
  assert (Hs1 : 0 < shr_m r1) by (rewrite Hr1; apply shiftr_pos; lia).
  assert (Hs1' : shr_m r1 < 2 ^ 53) by (rewrite Hr1; apply shiftr_lt_pow2; lia).
  set (m1 := round_nearest_even (shr_m r1) (loc_of_shr_record r1)).
  pose proof (round_nearest_even_bounds (shr_m r1) (loc_of_shr_record r1)) as Hb.
  fold m1 in Hb.
  assert (Hlog : Z.log2 m1 <= 53)
    by (rewrite <- (Z.log2_pow2 53) by lia; apply Z.log2_le_mono; lia).
  destruct (shr_fexp prec emax m1 e1 loc_Exact) as [r2 e2] eqn:E2.
  pose proof (shr_fexp_spec m1 e1 loc_Exact ltac:(lia)) as [Hr2 He2]. rewrite E2 in Hr2, He2. cbn in Hr2, He2.
  rewrite Zdigits2_log2 in He2 by lia. rewrite fexp_unfold in He2.
  pose proof (Z.log2_nonneg m1).
  assert (Hs2 : 0 < shr_m r2) by (rewrite Hr2; apply shiftr_pos; lia).
  destruct (shr_m r2) as [|m|] eqn:Em; try lia.
  replace (e2 <=? emax - prec) with true by (symmetry; apply Z.leb_le; unfold emax, prec; lia).
  eauto.
Qed.

(** A positive mantissa whose exponent after rounding exceeds [971]
    (the value is at least [2^1024]) rounds to an infinity. *)
Lemma binary_round_aux_overflow (s : bool) (mx ex : Z) (l : location) :
  0 < mx -> 971 < Z.max ex (Zdigits2 mx + ex - 53) ->
  binary_round_aux prec emax s mx ex l = S754_infinity s.
Proof.
  intros Hm Hhi. unfold binary_round_aux.
  destruct (shr_fexp prec emax mx ex l) as [r1 e1] eqn:E1.
  pose proof (shr_fexp_spec mx ex l ltac:(lia)) as [Hr1 He1]. rewrite E1 in Hr1, He1. cbn in Hr1, He1.
  rewrite Zdigits2_log2 in He1, Hhi by lia. rewrite fexp_unfold in He1.
  pose proof (Z.log2_nonneg mx).
  assert (Hs1 : 0 < shr_m r1) by (rewrite Hr1; apply shiftr_pos; lia).
  set (m1 := round_nearest_even (shr_m r1) (loc_of_shr_record r1)).
  pose proof (round_nearest_even_bounds (shr_m r1) (loc_of_shr_record r1)) as Hb.
  fold m1 in Hb.
  destruct (shr_fexp prec emax m1 e1 loc_Exact) as [r2 e2] eqn:E2.
  pose proof (shr_fexp_spec m1 e1 loc_Exact ltac:(lia)) as [Hr2 He2]. rewrite E2 in Hr2, He2. cbn in Hr2, He2.
  rewrite Zdigits2_log2 in He2 by lia. rewrite fexp_unfold in He2.
  pose proof (Z.log2_nonneg m1).
  assert (Hs2 : 0 < shr_m r2) by (rewrite Hr2; apply shiftr_pos; lia).
  destruct (shr_m r2) as [|m|] eqn:Em; try lia.
  replace (e2 <=? emax - prec) with false by (symmetry; apply Z.leb_gt; unfold emax, prec; lia).
  reflexivity.
Qed.

Lemma shl_align_noop (mx : positive) (ex ex' : Z) : ex <= ex' -> shl_align mx ex ex' = (mx, ex).
Proof. unfold shl_align. intros H. destruct (ex' - ex) eqn:E; [reflexivity | reflexivity | lia]. Qed.

(** [float(n)] raises [OverflowError] for every [int] of magnitude at
    least [2^1024]. *)
Lemma of_int_overflow (n : Z) : 2 ^ 1024 <= Z.abs n -> of_int n = Raise OverflowError.
Proof.
  intros Hn. unfold of_int, binary_normalize, binary_round.
  assert (Hd : forall p : positive, 2 ^ 1024 <= Zpos p -> 1025 <= Zdigits2 (Zpos p)).
  { intros p Hp. rewrite Zdigits2_log2 by lia.
    apply (Z.log2_le_mono _ _) in Hp. rewrite Z.log2_pow2 in Hp by lia. lia. }
  destruct n as [|p|p]; [cbn in Hn; lia| |];
    (pose proof (Hd p ltac:(cbn in Hn; lia)) as Hp;
     change (Zpos (digits2_pos p)) with (Zdigits2 (Zpos p));
     rewrite shl_align_noop by (rewrite fexp_unfold; lia);
     rewrite binary_round_aux_overflow by lia; reflexivity).
Qed.

(** ** Every float the program computes is a binary64 number *)

Lemma SFmul_wf (x y : float) : float_wf (SFmul prec emax x y).
Proof.
  destruct x as [sx|sx| |sx mx ex], y as [sy|sy| |sy my ey]; try exact I;
    apply binary_round_aux_wf; lia.
Qed.

Lemma SFdiv_core_binary_nonneg (m1 e1 m2 e2 : Z) :
  0 <= m1 -> 0 < m2 -> 0 <= fst (fst (SFdiv_core_binary prec emax m1 e1 m2 e2)).
Proof.
  intros H1 H2. unfold SFdiv_core_binary. cbv zeta.
  match goal with |- context [Z.div_eucl ?a m2] =>
    assert (Ha : 0 <= a) by (destruct (_ - _); try apply Z.shiftl_nonneg; lia);
    destruct (Z.div_eucl a m2) as [q r] eqn:E;
    assert (Hq : q = a / m2) by (unfold Z.div; rewrite E; reflexivity) end.
  cbn. rewrite Hq. apply Z.div_pos; lia.
Qed.

Lemma SFdiv_wf (x y : float) : float_wf (SFdiv prec emax x y).
Proof.
  destruct x as [sx|sx| |sx mx ex], y as [sy|sy| |sy my ey]; try exact I. cbn [SFdiv].
  pose proof (SFdiv_core_binary_nonneg (Zpos mx) ex (Zpos my) ey ltac:(lia) ltac:(lia)) as Hq.
  destruct (SFdiv_core_binary _ _ _ _ _ _) as [[q e] l]. apply binary_round_aux_wf, Hq.
Qed.

Lemma of_decimal_wf (m : N) (k : nat) : float_wf (of_decimal m k).
Proof.
  unfold of_decimal. destruct m as [|p]; [exact I|].
  pose proof (SFdiv_core_binary_nonneg (Z.of_N (Npos p)) 0 (10 ^ Z.of_nat k) 0
                ltac:(lia) ltac:(apply Z.pow_pos_nonneg; lia)) as Hq.
  destruct (SFdiv_core_binary _ _ _ _ _ _) as [[q e] l]. apply binary_round_aux_wf, Hq.
Qed.

Lemma of_int_wf (n : Z) (f : float) : of_int n = Ok f -> float_wf f.
Proof.
  unfold of_int. intros H.
  assert (Hb : float_wf (binary_normalize prec emax n 0 false)).
  { unfold binary_normalize, binary_round.
    destruct n as [|p|p]; [exact I| |];
      destruct (shl_align _ _ _) as [mz ez]; apply binary_round_aux_wf; lia. }
  destruct (binary_normalize _ _ _ _ _); res_inv; exact Hb.
Qed.

Lemma py_div_wf (a b r : float) : py_div a b = Ok r -> float_wf r.
Proof. unfold py_div. destruct (is_zero b); intros H; res_inv. apply SFdiv_wf. Qed.

(** ** No underflow nor overflow in the square of a moderate number *)

Lemma py_sq_finite (s : bool) (m : positive) (e : Z) :
  float_wf (S754_finite s m e) -> -500 <= e <= 400 ->
  exists m' e', py_sq (S754_finite s m e) = Ok (S754_finite false m' e').
Proof.
  cbn [float_wf]. intros Hm He. unfold py_sq, SFmul.
  assert (Hmm : Zpos (m * m) < 2 ^ 106).
  { rewrite Pos2Z.inj_mul. change (2 ^ 106) with (2 ^ 53 * 2 ^ 53). unfold prec in Hm.
    apply Z.mul_lt_mono_nonneg; lia. }
  assert (Hl : Z.log2 (Zpos (m * m)) < 106) by (apply Z.log2_lt_pow2; lia).
  pose proof (Z.log2_nonneg (Zpos (m * m))).
  destruct (binary_round_aux_finite (xorb s s) (Zpos (m * m)) (e + e) loc_Exact)
    as (m' & e' & ->); [lia | rewrite Zdigits2_log2; lia | rewrite Zdigits2_log2; lia |].
  rewrite Bool.xorb_nilpotent. eauto.
Qed.

(** A float between two positive floats is a positive finite float whose
    exponent lies between theirs. *)
Lemma le_between (x : float) (mc md : positive) (ec ed : Z) :
  le (S754_finite false mc ec) x = true -> le x (S754_finite false md ed) = true ->
  exists m e, x = S754_finite false m e /\ ec <= e <= ed.
Proof.
  unfold le, SFleb, SFcompare.
  destruct x as [[]|[]| |[] m e]; try discriminate. intros H1 H2.
  exists m, e. split; [reflexivity|].
  destruct (Z.compare_spec ec e); destruct (Z.compare_spec e ed); try discriminate; lia.
Qed.
