(* ===== verification/FloatRepr.v ===== *)
(** * The decimal exponent [repr] computes

    [PyFloat.repr] first finds the decimal exponent of a positive float
    [m * 2^e]: the integer [k] with [10^(k-1) <= m * 2^e < 10^k].
    [PyFloat.decpt] searches for it downwards from an estimate made from
    the bit length of [m], with 700 steps of fuel.  This file proves that
    the estimate is always above the exponent and the fuel always enough:
    on every binary64 number ([SpecFloat.valid_binary]) [decpt] returns the
    exact exponent, never the value it is left with when the fuel runs
    out.

    The estimate is checked against [2^n] for each of the 2098 binary
    exponents [n] a binary64 number can have, by evaluation; the lower end
    follows from [2^-1074 > 10^-324]. *)

From stdpp Require Import base list.
From Stdlib Require Import ZArith SpecFloat Lia.
From S2P Require Import Prelude PyFloat FloatRound.

Local Open Scope Z_scope.

(** The starting point of [decpt] for a value below [2^n]. *)
Definition decpt_start (n : Z) : Z := (n * 30103) / 100000 + 2.

Definition pos_part (z : Z) : Z := Z.max 0 z.
Definition neg_part (z : Z) : Z := Z.max 0 (- z).

(** [2^n <= 10^k], both sides multiplied by the denominators. *)
Definition pow2_le_pow10 (n k : Z) : bool :=
  2 ^ pos_part n * 10 ^ neg_part k <=? 10 ^ pos_part k * 2 ^ neg_part n.

(** The binary exponents of binary64 numbers: [Zdigits2 m + e] ranges
    from [1 - 1074] to [53 + 971]. *)
Definition binary_exponents : list Z := map (fun i => Z.of_nat i - 1073) (seq 0 2098).

(** ** The search loop *)

Lemma decpt_go_spec (fuel : nat) (num den k : Z) :
  below_pow10 num den k = true ->
  below_pow10 num den (k - Z.of_nat fuel) = false ->
  below_pow10 num den (decpt_go fuel num den k) = true /\
  below_pow10 num den (decpt_go fuel num den k - 1) = false.
Proof.
  revert k. induction fuel as [|fuel IH]; intros k Hk Hlow; cbn [decpt_go].
  - rewrite Z.sub_0_r in Hlow. congruence.
  - destruct (below_pow10 num den (k - 1)) eqn:E; [|auto].
    apply IH; [exact E|]. by replace (k - 1 - Z.of_nat fuel) with (k - Z.of_nat (S fuel)) by lia.
Qed.

(** ** Comparisons of fractions with powers *)

Lemma below_pow10_cross (num den k : Z) :
  below_pow10 num den k = (num * 10 ^ neg_part k <? 10 ^ pos_part k * den).
Proof.
  unfold below_pow10, pos_part, neg_part.
  destruct (Z.leb_spec 0 k).
  - rewrite (Z.max_l 0 (- k)), (Z.max_r 0 k) by lia. by rewrite Z.mul_1_r.
  - rewrite (Z.max_r 0 (- k)), (Z.max_l 0 k) by lia. by rewrite Z.mul_1_l.
Qed.

Lemma to_frac_cross (m : positive) (e num den : Z) :
  to_frac m e = (num, den) ->
  num * 2 ^ neg_part e = Zpos m * 2 ^ pos_part e * den /\ 0 < den.
Proof.
  unfold to_frac, pos_part, neg_part. destruct (Z.leb_spec 0 e); intros [= <- <-].
  - rewrite (Z.max_l 0 (- e)), (Z.max_r 0 e) by lia. lia.
  - rewrite (Z.max_r 0 (- e)), (Z.max_l 0 e) by lia.
    split; [lia | apply Z.pow_pos_nonneg; lia].
Qed.

Lemma pow_parts_pos (b z : Z) : 0 < b -> 0 < b ^ pos_part z /\ 0 < b ^ neg_part z.
Proof. unfold pos_part, neg_part. split; apply Z.pow_pos_nonneg; lia. Qed.

(** [x < D * 2^e], [D * 2^e = 2^n <= 10^k] give [x < 10^k], written
    with the denominators multiplied out. *)
Lemma frac_chain (num den m Ep Em D A B P T : Z) :
  0 < den -> 0 < Em -> 0 < B -> 0 < Ep -> 0 < T ->
  num * Em = m * Ep * den -> m < D -> D * Ep * B = A * Em -> A * T <= P * B ->
  num * T < P * den.
Proof.
  intros Hden HEm HB HEp HT Hx HmD Hid Hk.
  apply (Z.mul_lt_mono_pos_r (Em * B)); [lia|].
  assert (Hl : num * T * (Em * B) = m * (Ep * den * T * B)) by (transitivity (m * Ep * den * (T * B)); [rewrite <- Hx |]; ring).
  assert (Hr : D * (Ep * den * T * B) = (A * T) * (Em * den)) by (transitivity (D * Ep * B * (den * T)); [|rewrite Hid]; ring).
  rewrite Hl. apply Z.lt_le_trans with (D * (Ep * den * T * B)); [apply Z.mul_lt_mono_pos_r; nia|].
  rewrite Hr. apply Z.le_trans with (P * B * (Em * den)); [apply Z.mul_le_mono_nonneg_r; nia|].
  apply Z.eq_le_incl. ring.
Qed.

(** ** Binary64 numbers *)

(** A binary64 number has at most 53 significant bits and an exponent
    between [-1074] and [971]. *)
Lemma bounded_range (m : positive) (e : Z) :
  bounded prec emax m e = true -> Zpos (digits2_pos m) <= 53 /\ -1074 <= e <= 971.
Proof.
  unfold bounded, canonical_mantissa. intros [Hc He]%andb_prop.
  apply Z.eqb_eq in Hc. apply Zle_bool_imp_le in He.
  rewrite fexp_unfold in Hc. unfold prec, emax in *. lia.
Qed.

Lemma digits2_pos_bounds (m : positive) :
  2 ^ (Zpos (digits2_pos m) - 1) <= Zpos m < 2 ^ Zpos (digits2_pos m).
Proof.
  change (Zpos (digits2_pos m)) with (Zdigits2 (Zpos m)).
  rewrite Zdigits2_log2 by lia. replace (Z.log2 (Zpos m) + 1 - 1) with (Z.log2 (Zpos m)) by lia.
  rewrite Z.add_1_r. apply Z.log2_spec. lia.
Qed.

Lemma binary_exponents_In (n : Z) : -1073 <= n <= 1024 -> In n binary_exponents.
Proof.
  intros Hn. apply in_map_iff. exists (Z.to_nat (n + 1073)).
  split; [lia | apply in_seq; lia].
Qed.

(** The estimate is above [2^n] for every binary exponent, by evaluation. *)
Lemma decpt_start_check :
  forallb (fun n => pow2_le_pow10 n (decpt_start n)) binary_exponents = true.
Proof. vm_compute. reflexivity. Qed.

Lemma pow2_le_pow10_start (n : Z) :
  -1073 <= n <= 1024 -> pow2_le_pow10 n (decpt_start n) = true.
Proof.
  intros Hn. exact (proj1 (forallb_forall _ _) decpt_start_check n (binary_exponents_In n Hn)).
Qed.

(** ** The two ends of the search *)

Lemma below_start (m : positive) (e num den : Z) :
  to_frac m e = (num, den) ->
  -1073 <= Zpos (digits2_pos m) + e <= 1024 ->
  below_pow10 num den (decpt_start (Zpos (digits2_pos m) + e)) = true.
Proof.
  intros Hf Hn. set (d := Zpos (digits2_pos m)) in *. set (n := d + e) in *.
  pose proof (pow2_le_pow10_start n Hn) as Hk. apply Z.leb_le in Hk.
  destruct (to_frac_cross m e num den Hf) as [Hx Hden].
  rewrite below_pow10_cross. apply Z.ltb_lt.
  destruct (pow_parts_pos 2 e), (pow_parts_pos 2 n), (pow_parts_pos 10 (decpt_start n)); try lia.
  apply (frac_chain num den (Zpos m) (2 ^ pos_part e) (2 ^ neg_part e) (2 ^ d)
           (2 ^ pos_part n) (2 ^ neg_part n)); try assumption; [apply digits2_pos_bounds|].
  unfold pos_part, neg_part. rewrite <- !Z.pow_add_r by lia. f_equal. lia.
Qed.

Lemma below_low (m : positive) (e num den k : Z) :
  to_frac m e = (num, den) -> -1074 <= e -> k <= -324 -> below_pow10 num den k = false.
Proof.
  unfold to_frac, below_pow10. intros Hf He Hk.
  destruct (Z.leb_spec 0 k); [lia|]. apply Z.ltb_ge.
  assert (H10 : 10 ^ 324 <= 10 ^ (- k)) by (apply Z.pow_le_mono_r; lia).
  destruct (Z.leb_spec 0 e); injection Hf as <- <-.
  - pose proof (Z.pow_pos_nonneg 2 e). nia.
  - assert (H2 : 2 ^ (- e) <= 2 ^ 1074) by (apply Z.pow_le_mono_r; lia).
    assert (Hc : 2 ^ 1074 < 10 ^ 324) by (apply Z.ltb_lt; vm_compute; reflexivity).
    nia.
Qed.

(** ** Monotonicity of the comparison, and the exponent [shortest] keeps *)

Lemma below_pow10_succ (num den k : Z) :
  0 <= num -> 0 < den -> below_pow10 num den k = true -> below_pow10 num den (k + 1) = true.
Proof.
  intros Hn Hd. unfold below_pow10.
  destruct (Z.leb_spec 0 k), (Z.leb_spec 0 (k + 1)); try lia; rewrite !Z.ltb_lt.
  - rewrite Z.pow_add_r by lia. pose proof (Z.pow_nonneg 10 k). nia.
  - replace k with (-1) by lia. cbn. lia.
  - replace (- k) with (- (k + 1) + 1) by lia. rewrite Z.pow_add_r by lia.
    pose proof (Z.pow_nonneg 10 (- (k + 1))). nia.
Qed.

Lemma below_pow10_mono (num den k k' : Z) :
  0 <= num -> 0 < den -> k <= k' -> below_pow10 num den k = true -> below_pow10 num den k' = true.
Proof.
  intros Hn Hd Hk. replace k' with (k + Z.of_nat (Z.to_nat (k' - k))) by lia.
  induction (Z.to_nat (k' - k)) as [|j IH]; intros Hb; [by rewrite Z.add_0_r|].
  rewrite Nat2Z.inj_succ, Z.add_succ_r, <- Z.add_1_r. apply below_pow10_succ; auto.
Qed.

Lemma to_frac_nonneg (m : positive) (e num den : Z) :
  to_frac m e = (num, den) -> 0 <= num /\ 0 < den.
Proof.
  unfold to_frac. destruct (Z.leb_spec 0 e); intros [= <- <-].
  - pose proof (Z.pow_pos_nonneg 2 e). lia.
  - pose proof (Z.pow_pos_nonneg 2 (- e)). lia.
Qed.

(** The digit search never lowers the decimal exponent it starts from: it
    only raises it by one when the rounding carries into a new digit. *)
Lemma shortest_go_exp (fuel : nat) (n : Z) (m : positive) (e num den k d k' : Z) :
  shortest_go fuel n m e num den k = (d, k') -> k <= k'.
Proof.
  revert n k. induction fuel as [|fuel IH]; intros n k; cbn [shortest_go].
  - intros [= _ <-]. lia.
  - destruct (round_digits num den k n =? 10 ^ n); cbn;
      (case_bool_decide; [intros [= _ <-]; lia | intros Hs; apply IH in Hs; lia]).
Qed.

(** ** Exactness of [decpt] *)

(** The decimal exponent of [repr] is exact on every binary64
    number: for the fraction [num / den] of [m * 2^e] ([to_frac]), the
    [k] that [decpt] returns satisfies [10^(k-1) <= num / den < 10^k]
    ([below_pow10 num den k] is [num / den < 10^k]).  The search starts
    above the exponent and reaches it within its 700 steps of fuel. *)
Theorem decpt_exact (s : bool) (m : positive) (e num den : Z) :
  valid_binary prec emax (S754_finite s m e) = true ->
  to_frac m e = (num, den) ->
  below_pow10 num den (decpt m e num den) = true /\
  below_pow10 num den (decpt m e num den - 1) = false.
Proof.
  intros Hv Hf. destruct (bounded_range m e Hv) as [Hd He].
  pose proof (digits2_pos_bounds m).
  assert (Hq : (Zpos (digits2_pos m) + e) * 30103 / 100000 <= 308)
    by (change 308 with (1024 * 30103 / 100000); apply Z.div_le_mono; lia).
  apply decpt_go_spec.
  - apply below_start; [exact Hf | lia].
  - apply (below_low m e); [exact Hf | lia | unfold decpt_start in *; lia].
Qed.

(** [0.1] is [7205759403792794 * 2^-56]; its decimal exponent is [0]. *)
Lemma decpt_exact_witness :
  below_pow10 7205759403792794 (2 ^ 56)
    (decpt 7205759403792794 (-56) 7205759403792794 (2 ^ 56)) = true /\
  below_pow10 7205759403792794 (2 ^ 56)
    (decpt 7205759403792794 (-56) 7205759403792794 (2 ^ 56) - 1) = false.
Proof. apply (decpt_exact false); vm_compute; reflexivity. Defined.
