(* ===== verification/FloatOrder.v ===== *)
(** * The order of Python's float comparisons

    [<] and [<=] on floats are [SFltb] and [SFleb], which compare two
    floats by sign, then exponent, then mantissa, and are false when a
    NaN is involved.  This file proves that they are transitive, also
    mixed ([x <= y < z] gives [x < z]), by case analysis on the two
    comparisons of exponents and mantissas.  The BMI bands are monotone
    because of it. *)

From stdpp Require Import base.
From Stdlib Require Import ZArith SpecFloat Lia.
From S2P Require Import Prelude PyFloat.

Local Open Scope Z_scope.

(** Case analysis on the [Z.compare] and [Pos.compare] that [SFcompare]
    performs, closing the contradictory cases. *)
Ltac cmp_cases :=
  repeat match goal with
  | H : context [Pos.compare_cont Eq ?a ?b] |- _ =>
      change (Pos.compare_cont Eq a b) with (Pos.compare a b) in H
  | |- context [Pos.compare_cont Eq ?a ?b] => change (Pos.compare_cont Eq a b) with (Pos.compare a b)
  | H : context [Z.compare ?a ?b] |- _ => destruct (Z.compare_spec a b); subst
  | H : context [Pos.compare ?a ?b] |- _ => destruct (Pos.compare_spec a b); subst
  | |- context [Z.compare ?a ?b] => destruct (Z.compare_spec a b); subst
  | |- context [Pos.compare ?a ?b] => destruct (Pos.compare_spec a b); subst
  end; cbn in *; try discriminate; try reflexivity; try lia.

(** Splits three floats into their shapes and signs. *)
Ltac float_cases x y z :=
  unfold le, lt, SFleb, SFltb, SFcompare;
  destruct x as [[]|[]| |[] ? ?], y as [[]|[]| |[] ? ?], z as [[]|[]| |[] ? ?];
  cbn; intros ? ?; try discriminate; try reflexivity; cmp_cases.

Lemma le_lt_trans (x y z : float) : le x y = true -> lt y z = true -> lt x z = true.
Proof. float_cases x y z. Qed.

Lemma lt_le_trans (x y z : float) : lt x y = true -> le y z = true -> lt x z = true.
Proof. float_cases x y z. Qed.

Lemma le_trans (x y z : float) : le x y = true -> le y z = true -> le x z = true.
Proof. float_cases x y z. Qed.

#[export] Instance le_Transitive : Transitive (fun x y : float => le x y = true).
Proof. intros x y z. apply le_trans. Qed.
