(* ===== verification/PyValue.v ===== *)
(** * Slot values: the Python objects a Rasa slot can hold

    The tracker hands the actions Python objects decoded from JSON.  The
    model covers [None], [bool], [int], [float] and [str]; list and dict
    slot values are not modelled (the actions' slots are text, float and
    bool slots).  This file gives Python's truth value ([if not x],
    [x or d]), [str(x)] (also used by f-strings) and the [==] test. *)

From Stdlib Require Import String.
From stdpp Require Import base list.
From Stdlib Require Import ZArith NArith SpecFloat.
From S2P Require Import Prelude PyStr PyFloat FloatRound.

Inductive pyval :=
  | VNone
  | VBool (b : bool)
  | VInt (n : Z)
  | VFloat (x : float)
  | VStr (s : pystr).

#[export] Instance pyval_eq_dec : EqDecision pyval.
Proof. solve_decision. Defined.

(** [bool(v)]: [None], [False], [0], [0.0], [-0.0] and [""] are false;
    NaN is true. *)
Definition truthy (v : pyval) : bool :=
  match v with
  | VNone => false
  | VBool b => b
  | VInt n => negb (n =? 0)%Z
  | VFloat x => negb (is_zero x)
  | VStr s => negb (bool_decide (s = []))
  end.

(** [v or d] *)
Definition py_or (v d : pyval) : pyval := if truthy v then v else d.

(** [str(n)] of an [int]. *)
Definition int_str (n : Z) : pystr :=
  match n with
  | Zneg p => 45%N :: digits_N (Npos p)
  | _ => digits_N (Z.to_N n)
  end.

(** [str(v)] *)
Definition py_str (v : pyval) : pystr :=
  match v with
  | VNone => lit "None"
  | VBool true => lit "True"
  | VBool false => lit "False"
  | VInt n => int_str n
  | VFloat x => repr x
  | VStr s => s
  end.

(** A slot value decoded from JSON: its float, if any, is a binary64
    number. *)
Definition pyval_wf (v : pyval) : Prop :=
  match v with VFloat x => float_wf x | _ => True end.

(** Lemmas *)

Lemma py_or_truthy v d : truthy v = true -> py_or v d = v.
Proof. unfold py_or. intros ->. reflexivity. Qed.

Lemma py_or_falsy v d : truthy v = false -> py_or v d = d.
Proof. unfold py_or. intros ->. reflexivity. Qed.

#[export] Hint Rewrite py_or_truthy py_or_falsy using reflexivity : pyrw.
