(* ===== verification/ParseNumber.v ===== *)
(** * [parse_number]: the number inside a loosely written slot value

    [actions.py] lines 16-30.  [None] gives [None]; an [int] or [float]
    (and a [bool], which is an [int] in Python) is converted with
    [float()]; any other value is turned into a string, its commas are
    replaced by dots, and the first match of the regular expression
    [(\d+(\.\d+)?)] is converted with [float()].  No match gives [None].

    The conversion [float(n)] of an [int] lies outside the [try] block, so
    an [int] too large for a double raises [OverflowError] out of
    [parse_number]: the result is a [res (option float)]. *)

From Stdlib Require Import String.
From stdpp Require Import base list.
From Stdlib Require Import ZArith NArith SpecFloat Decimal DecimalPos DecimalN.
From S2P Require Import Prelude PyStr PyFloat FloatRound FloatRepr PyValue.

Module ParseNumber.

(** ** The regular expression [(\d+(\.\d+)?)] *)

(** The longest prefix of digits, and the rest. *)
Fixpoint take_digits (s : pystr) : pystr * pystr :=
  match s with
  | c :: s' =>
      if is_digit c then let '(d, r) := take_digits s' in (c :: d, r)
      else ([], s)
  | [] => ([], [])
  end.

(** A match anchored at the start of [s]: the digits of [\d+] and the digits
    after the dot of the optional group (empty when the group does not
    take part).  [\d+] is greedy, and the group follows only a maximal run
    of digits, so no backtracking can change the match. *)
Definition match_at (s : pystr) : option (pystr * pystr) :=
  match take_digits s with
  | ([], _) => None
  | (ds, rest) =>
      Some (ds, match rest with
                | c :: rest' => if (c =? 46)%N then fst (take_digits rest') else []
                | [] => []
                end)
  end.

(** [re.search]: the leftmost position where the pattern matches. *)
Fixpoint re_search (s : pystr) : option (pystr * pystr) :=
  match s with
  | [] => None
  | _ :: s' =>
      match match_at s with
      | Some m => Some m
      | None => re_search s'
      end
  end.

(** Value of a string of ASCII digits. *)
Definition digits_value (ds : pystr) : N :=
  fold_left (fun acc c => acc * 10 + (c - 48))%N ds 0%N.

(** [float(m.group(1))]: the group is [ds] or [ds.fs]. *)
Definition float_of_match (m : pystr * pystr) : float :=
  let '(ds, fs) := m in of_decimal (digits_value (ds ++ fs)) (length fs).

(** ** [parse_number] *)
Definition parse_number (value : pyval) : res (option float) :=
  match value with
  | VNone => Ok None
  | VBool b => Ok (Some (if b then f_one else f_zero))
  | VInt n => res_map Some (of_int n)
  | VFloat x => Ok (Some x)
  | VStr _ =>
      let s := replace (py_str value) (lit ",") (lit ".") in
      Ok (option_map float_of_match (re_search s))
  end.

(** ** Auxiliary definitions *)

Definition comma_to_dot (c : pychar) : pychar := if (c =? 44)%N then 46%N else c.

Definition nondigit (c : pychar) : Prop := is_digit c = false.
Definition digit (c : pychar) : Prop := is_digit c = true.

(** A string that does not start with a digit. *)
Definition no_leading_digit (r : pystr) : Prop :=
  match r with c :: _ => is_digit c = false | [] => True end.

(** A string after the digits that does not continue the number: neither a
    digit, nor a comma or dot followed by a digit. *)
Definition ends_number (r : pystr) : Prop :=
  match r with
  | c :: r' => is_digit c = false /\ ((c = 44 \/ c = 46)%N -> no_leading_digit r')
  | [] => True
  end.

Definition digit_step (acc : N) (c : pychar) : N := (acc * 10 + (c - 48))%N.

(** ** Lemmas on the scanner *)

Lemma replace_comma (s : pystr) :
  replace s (lit ",") (lit ".") = map comma_to_dot s.
Proof. apply replace_char. Qed.

Lemma is_digit_comma_to_dot c : is_digit (comma_to_dot c) = is_digit c.
Proof. unfold comma_to_dot. destruct (N.eqb_spec c 44); subst; reflexivity. Qed.

Lemma take_digits_app (ds r : pystr) :
  Forall digit ds -> no_leading_digit r -> take_digits (ds ++ r) = (ds, r).
Proof.
  intros Hds Hr. induction Hds as [|c ds Hc Hds IH]; simpl.
  - destruct r as [|c r]; simpl in *; [reflexivity|]. rewrite Hr. reflexivity.
  - unfold digit in Hc. rewrite Hc, IH. reflexivity.
Qed.

Lemma match_at_nondigit c s : is_digit c = false -> match_at (c :: s) = None.
Proof. intros H. unfold match_at. simpl. rewrite H. reflexivity. Qed.

(** A prefix without digits is skipped by the search. *)
Lemma re_search_skip (p s : pystr) :
  Forall nondigit p -> re_search (p ++ s) = re_search s.
Proof.
  intros Hp. induction Hp as [|c p Hc Hp IH]; [reflexivity|].
  simpl. rewrite match_at_nondigit by exact Hc. exact IH.
Qed.

Lemma re_search_None (s : pystr) : re_search s = None <-> Forall nondigit s.
Proof.
  split.
  - induction s as [|c s IH]; intros H; [constructor|].
    simpl in H. destruct (is_digit c) eqn:Hc.
    + unfold match_at in H. simpl in H. rewrite Hc in H.
      destruct (take_digits s). discriminate.
    + rewrite match_at_nondigit in H by exact Hc. constructor; auto.
  - intros Hs. rewrite <- (app_nil_r s), re_search_skip by exact Hs. reflexivity.
Qed.

Lemma Forall_nondigit_map (s : pystr) :
  Forall nondigit (map comma_to_dot s) <-> Forall nondigit s.
Proof.
  rewrite Forall_map. apply Forall_iff. intros c.
  unfold nondigit. rewrite is_digit_comma_to_dot. reflexivity.
Qed.

Lemma map_comma_to_dot_digits (ds : pystr) :
  Forall digit ds -> map comma_to_dot ds = ds.
Proof.
  intros H. induction H as [|c ds Hc _ IH]; [reflexivity|].
  simpl. rewrite IH. unfold comma_to_dot.
  destruct (N.eqb_spec c 44); [subst; discriminate Hc | reflexivity].
Qed.

#[export] Hint Resolve map_comma_to_dot_digits : pyrt.

Lemma no_leading_digit_map (r : pystr) :
  no_leading_digit r -> no_leading_digit (map comma_to_dot r).
Proof. destruct r as [|c r]; simpl; [trivial|]. now rewrite is_digit_comma_to_dot. Qed.

Lemma match_at_Some (s : pystr) m : match_at s = Some m -> re_search s = Some m.
Proof. destruct s as [|c s]; [discriminate|]. simpl. intros ->. reflexivity. Qed.

(** The match of [ddd.fff...]. *)
Lemma match_at_fraction (ds fs r : pystr) :
  ds <> [] -> Forall digit ds -> Forall digit fs -> no_leading_digit r ->
  match_at (ds ++ 46%N :: fs ++ r) = Some (ds, fs).
Proof.
  intros Hne Hds Hfs Hr. unfold match_at.
  rewrite take_digits_app by (simpl; auto).
  destruct ds as [|d ds]; [congruence|]. simpl.
  rewrite take_digits_app by assumption. reflexivity.
Qed.

Lemma match_at_integer (ds r : pystr) :
  ds <> [] -> Forall digit ds -> ends_number r ->
  match_at (ds ++ map comma_to_dot r) = Some (ds, []).
Proof.
  intros Hne Hds Hr. unfold match_at.
  rewrite take_digits_app.
  2: exact Hds.
  2: { destruct r as [|c r]; simpl; [trivial|]. rewrite is_digit_comma_to_dot. apply Hr. }
  destruct ds as [|d ds]; [congruence|].
  destruct r as [|c r]; [reflexivity|]. destruct Hr as [_ Hr]. simpl.
  unfold comma_to_dot at 1.
  destruct (N.eqb_spec c 44) as [->|Hc44]; [simpl|].
  - specialize (Hr (or_introl eq_refl)).
    destruct r as [|c' r]; [reflexivity|]. simpl in Hr |- *.
    rewrite is_digit_comma_to_dot, Hr. reflexivity.
  - destruct (N.eqb_spec c 46) as [->|Hc46]; [|reflexivity].
    specialize (Hr (or_intror eq_refl)).
    destruct r as [|c' r]; [reflexivity|]. simpl in Hr |- *.
    rewrite is_digit_comma_to_dot, Hr. reflexivity.
Qed.

(** ** Decimal digits read back *)

Lemma digits_value_app (l1 l2 : pystr) :
  digits_value (l1 ++ l2) = fold_left digit_step l2 (digits_value l1).
Proof. unfold digits_value. apply fold_left_app. Qed.

Lemma uint_digits_fold (d : uint) (acc : N) :
  fold_left digit_step (uint_digits d) acc
  = (Unsigned.of_lu (Decimal.rev d) + acc * 10 ^ Unsigned.usize d)%N.
Proof.
  revert acc; induction d as [|d IH|d IH|d IH|d IH|d IH|d IH|d IH|d IH|d IH|d IH];
    intros acc; [simpl; lia|..];
    cbn [uint_digits fold_left]; rewrite IH; unfold Decimal.rev; cbn [revapp];
    rewrite Unsigned.of_lu_revapp; cbn [Unsigned.of_lu Unsigned.usize];
    unfold digit_step; rewrite N.pow_succ_r', (Unsigned.of_lu_revapp d);
    cbn [Unsigned.of_lu]; nia.
Qed.

Lemma digits_value_digits_N (n : N) : digits_value (digits_N n) = n.
Proof.
  unfold digits_value, digits_N. fold digit_step.
  rewrite uint_digits_fold, N.mul_0_l, N.add_0_r, <- DecimalPos.Unsigned.of_uint_alt.
  apply DecimalN.Unsigned.of_to.
Qed.

Lemma uint_digits_all_digits (d : uint) : Forall digit (uint_digits d).
Proof. induction d; simpl; constructor; auto; reflexivity. Qed.

Lemma digits_N_nonempty (n : N) : digits_N n <> [].
Proof.
  unfold digits_N. destruct n as [|p]; [discriminate|].
  simpl. pose proof (DecimalPos.Unsigned.to_uint_nonnil p) as H.
  destruct (Pos.to_uint p); simpl; congruence.
Qed.

Lemma digits_N_all_digits (n : N) : Forall digit (digits_N n).
Proof. apply uint_digits_all_digits. Qed.

#[export] Hint Resolve digits_N_all_digits digits_N_nonempty : pyrt.

Lemma digit_lt10 (d : N) : (d < 10)%N -> digit (48 + d)%N.
Proof.
  intros H. unfold digit, is_digit, in_range.
  apply andb_true_iff; split; apply N.leb_le; lia.
Qed.

Lemma scaled_100_nonneg m e : (0 <= scaled_100 m e)%Z.
Proof.
  unfold scaled_100, round_half_even.
  destruct (0 <=? e)%Z eqn:He; [lia|].
  pose proof (Z.pow_pos_nonneg 2 (- e) ltac:(lia) ltac:(lia)) as Hp.
  pose proof (Z_div_mod (Zpos m * 100) (2 ^ (- e)) ltac:(lia)) as Hdm.
  destruct (Z.div_eucl _ _) as [q r]. destruct Hdm as [Heq Hr].
  assert (0 <= q)%Z by nia.
  destruct (_ ?= _)%Z; [destruct (Z.even q)|..]; lia.
Qed.

(** ** Properties of [parse_number] *)

(** [parse_number] on a string [p ++ ds ++ sep :: fs ++ r]: a prefix [p]
    without digits, the digits [ds], a comma or a dot, the digits [fs] and
    a rest [r] that does not start with a digit, returns the float of the
    decimal number [ds.fs]; a comma counts as a decimal point. *)
Theorem parse_number_fraction (p ds fs r : pystr) (sep : pychar) :
  Forall nondigit p -> ds <> [] -> Forall digit ds -> Forall digit fs ->
  (sep = 44 \/ sep = 46)%N -> no_leading_digit r ->
  parse_number (VStr (p ++ ds ++ sep :: fs ++ r))
  = Ok (Some (of_decimal (digits_value (ds ++ fs)) (length fs))).
Proof.
  intros Hp Hne Hds Hfs Hsep Hr. cbn [parse_number py_str].
  rewrite replace_comma, !map_app. cbn [map].
  rewrite map_app, re_search_skip by (apply Forall_nondigit_map; exact Hp).
  rewrite !map_comma_to_dot_digits by assumption.
  replace (comma_to_dot sep) with 46%N by (destruct Hsep as [-> | ->]; reflexivity).
  rewrite (match_at_Some _ (ds, fs)); [reflexivity|].
  apply match_at_fraction; auto using no_leading_digit_map.
Qed.

(** An integer [ds] followed by text that does not continue the number
    reads as the float of [ds]. *)
Theorem parse_number_integer (p ds r : pystr) :
  Forall nondigit p -> ds <> [] -> Forall digit ds -> ends_number r ->
  parse_number (VStr (p ++ ds ++ r)) = Ok (Some (of_decimal (digits_value ds) 0)).
Proof.
  intros Hp Hne Hds Hr. cbn [parse_number py_str].
  rewrite replace_comma, !map_app.
  rewrite re_search_skip by (apply Forall_nondigit_map; exact Hp).
  rewrite map_comma_to_dot_digits by assumption.
  rewrite (match_at_Some _ (ds, [])) by (apply match_at_integer; assumption).
  simpl. rewrite app_nil_r. reflexivity.
Qed.

(** A prefix without digits, a minus sign in particular, does not change
    the result: [parse_number("-58") = parse_number("58")]. *)
Theorem parse_number_skip_prefix (p s : pystr) :
  Forall nondigit p -> parse_number (VStr (p ++ s)) = parse_number (VStr s).
Proof.
  intros Hp. cbn [parse_number py_str]. rewrite !replace_comma, map_app.
  rewrite re_search_skip by (apply Forall_nondigit_map; exact Hp). reflexivity.
Qed.

(** C22. [parse_number] gives [None] exactly for [None] and for strings without
    an ASCII digit. *)
Theorem parse_number_None (v : pyval) :
  parse_number v = Ok None <-> v = VNone \/ exists s, v = VStr s /\ Forall nondigit s.
Proof.
  split.
  - destruct v as [| b | n | x | s]; cbn [parse_number]; intros H; auto.
    + discriminate.
    + destruct (of_int n); discriminate.
    + discriminate.
    + right. exists s. split; [reflexivity|].
      rewrite replace_comma in H. simpl in H.
      destruct (re_search (map comma_to_dot s)) eqn:E; [discriminate|].
      apply Forall_nondigit_map, re_search_None, E.
  - intros [-> | (s & -> & Hs)]; [reflexivity|]. cbn [parse_number py_str].
    rewrite replace_comma. apply Forall_nondigit_map, re_search_None in Hs.
    rewrite Hs. reflexivity.
Qed.

(** The only exception that leaves [parse_number] is the [OverflowError]
    of [float(n)] for an [int] too large for a double. *)
Theorem parse_number_raises (v : pyval) e :
  parse_number v = Raise e -> e = OverflowError /\ exists n, v = VInt n.
Proof.
  destruct v as [| b | n | x | s]; cbn [parse_number]; try discriminate.
  unfold res_map, of_int. destruct (binary_normalize _ _ _ _ _) as [| [] | |];
    intros H; res_inv; eauto.
Qed.

(** C23. Round trip: [parse_number(str(n))] is [float(abs(n))]: the digits of an
    [int] read back, its sign is dropped. *)
Theorem parse_number_int_str (n : Z) :
  parse_number (VStr (int_str n)) = Ok (Some (of_decimal (Z.to_N (Z.abs n)) 0)).
Proof.
  assert (Hd : forall k : N, parse_number (VStr (digits_N k)) = Ok (Some (of_decimal k 0))).
  { intros k. rewrite <- (app_nil_r (digits_N k)), <- (app_nil_l (digits_N k ++ [])).
    rewrite parse_number_integer.
    - rewrite digits_value_digits_N. reflexivity.
    - constructor.
    - apply digits_N_nonempty.
    - apply digits_N_all_digits.
    - exact I. }
  destruct n as [|q|q]; simpl int_str.
  - apply Hd.
  - apply Hd.
  - change (45%N :: digits_N (N.pos q)) with ([45%N] ++ digits_N (N.pos q)).
    rewrite parse_number_skip_prefix by (repeat constructor). apply Hd.
Qed.

(** C24. Round trip of the BMI string: the text [f"{x:.2f}"] that
    [ActionCalcularIMC] stores reads back through [parse_number] as [x]
    rounded to two decimals (the float of [round(100 x) / 100]). *)
Theorem parse_number_format_2f (m : positive) (e : Z) :
  parse_number (VStr (format_2f (S754_finite false m e)))
  = Ok (Some (of_decimal (Z.to_N (scaled_100 m e)) 2)).
Proof.
  pose proof (scaled_100_nonneg m e) as Hn.
  set (n := scaled_100 m e) in *.
  cbn [format_2f]. fold n.
  change (?x ++ [46%N] ++ ?y) with (x ++ 46%N :: y ++ []).
  pose proof (Z.mod_pos_bound n 100 ltac:(lia)) as Hc.
  rewrite (parse_number_fraction [] _ [_; _] [] 46%N);
    try solve [auto with pyrt | exact I | right; reflexivity | constructor].
  2:{ repeat constructor; apply digit_lt10;
      [apply N.Div0.div_lt_upper_bound | apply N.mod_lt]; lia. }
  rewrite digits_value_app, digits_value_digits_N. unfold fold_left, digit_step.
  do 3 f_equal.
  pose proof (Z.mod_pos_bound n 100 ltac:(lia)).
  pose proof (Z.div_mod n 100 ltac:(lia)).
  pose proof (Z.div_pos n 100 ltac:(lia) ltac:(lia)).
  pose proof (N.div_mod (Z.to_N (n mod 100)) 10 ltac:(lia)).
  pose proof (N.mod_lt (Z.to_N (n mod 100)) 10 ltac:(lia)).
  simpl length.
  set (c := Z.to_N (n mod 100)) in *.
  set (q := (c / 10)%N) in *. set (r := (c mod 10)%N) in *.
  rewrite !(N.add_comm 48), !N.add_sub.
  assert (Z.to_N n = Z.to_N (n / 100) * 100 + c)%N by lia.
  lia.
Qed.

(** The number read from a well-formed slot value is a binary64 number. *)
Lemma parse_number_wf (v : pyval) (x : float) :
  pyval_wf v -> parse_number v = Ok (Some x) -> float_wf x.
Proof.
  intros Hv. destruct v as [|b|n|y|s]; cbn [parse_number]; intros H.
  - discriminate.
  - res_inv. destruct b; [apply of_decimal_wf | exact I].
  - destruct (of_int n) as [f|e] eqn:E; cbn in H; res_inv. eapply of_int_wf; eauto.
  - res_inv. exact Hv.
  - destruct (re_search _) as [[ds fs]|]; cbn in H; res_inv. apply of_decimal_wf.
Qed.



(** ** Witnesses *)

(** ["58,5 kg"] reads as 58.5. *)
Lemma parse_number_fraction_witness :
  parse_number (VStr ([] ++ lit "58" ++ 44%N :: lit "5" ++ lit " kg"))
  = Ok (Some (of_decimal (digits_value (lit "58" ++ lit "5")) (length (lit "5")))).
Proof.
  apply parse_number_fraction;
    first [apply (bool_decide_unpack _); vm_compute; reflexivity | left; reflexivity].
Defined.

(** ["mido 164 cm"] reads as 164. *)
Lemma parse_number_integer_witness :
  parse_number (VStr (lit "mido " ++ lit "164" ++ lit " cm"))
  = Ok (Some (of_decimal (digits_value (lit "164")) 0)).
Proof.
  apply parse_number_integer;
    first [apply (bool_decide_unpack _); vm_compute; reflexivity | split; [reflexivity | discriminate]].
Defined.

(** ["-58"] reads as ["58"]. *)
Lemma parse_number_skip_prefix_witness :
  parse_number (VStr (lit "-" ++ lit "58")) = parse_number (VStr (lit "58")).
Proof. apply parse_number_skip_prefix. apply (bool_decide_unpack _). vm_compute. reflexivity. Defined.

(** [parse_number(10**400)] raises [OverflowError]. *)
Lemma parse_number_raises_witness :
  parse_number (VInt (10 ^ 400)) = Raise OverflowError /\
  OverflowError = OverflowError /\ exists n, VInt (10 ^ 400) = VInt n.
Proof.
  assert (H : parse_number (VInt (10 ^ 400)) = Raise OverflowError) by (vm_compute; reflexivity).
  split; [exact H|]. exact (parse_number_raises _ _ H).
Defined.


End ParseNumber.
