(* ===== verification/RandomSource.v ===== *)
(** * [random.choice] over an injectable random source

    [actions.py] picks dishes with [random.choice(seq)], which CPython
    implements as [seq[self._randbelow(len(seq))]] after raising
    [IndexError] on an empty sequence.  The generator is an interface: a
    [RandomSource] draws an index below [n] and returns the next generator
    state, and [RandomSourceOk] is its contract (the index is below [n]).
    The actions' theorems hold for every source meeting the contract; the
    instance [stream_source] (a list of pre-drawn numbers) is used to run
    them on concrete inputs. *)

From stdpp Require Import base list.
From S2P Require Import Prelude.

Class RandomSource (R : Type) := randbelow : nat -> R -> nat * R.

Class RandomSourceOk (R : Type) `{RandomSource R} :=
  randbelow_lt : forall n r, 0 < n -> fst (randbelow n r) < n.

(** A source of pre-drawn numbers: [randbelow n] takes the next one modulo
    [n]. *)
#[export] Instance stream_source : RandomSource (list nat) :=
  fun n r => match r with k :: r' => (k mod n, r') | [] => (0, []) end.

#[export] Instance stream_source_ok : RandomSourceOk (list nat).
Proof.
  intros n r Hn. destruct r as [|k r]; simpl; [lia|].
  apply Nat.mod_upper_bound. lia.
Qed.

Section Choice.
Context {R : Type} `{RandomSource R}.

(** [seq[i]] *)
Definition choice_at {A} (l : list A) (i : nat) : option A := nth_error l i.

(** [random.choice(l)] *)
Definition choice {A} (l : list A) (r : R) : res (A * R) :=
  match l with
  | [] => Raise IndexError
  | _ :: _ =>
      let '(i, r') := randbelow (length l) r in
      match choice_at l i with
      | Some x => Ok (x, r')
      | None => Raise IndexError
      end
  end.

Lemma choice_In {A} (l : list A) r x r' : choice l r = Ok (x, r') -> In x l.
Proof.
  unfold choice, choice_at. destruct l as [|y l]; [discriminate|].
  destruct (randbelow _ r) as [i r0].
  destruct (nth_error _ i) eqn:E; intros Hc; res_inv; eauto with pyrt.
Qed.

Lemma choice_nil {A} r : @choice A [] r = Raise IndexError.
Proof. reflexivity. Qed.

(** Under the contract, [random.choice] of a non-empty list succeeds. *)
Lemma choice_Ok `{!RandomSourceOk R} {A} (l : list A) r :
  l <> [] -> exists x r', choice l r = Ok (x, r').
Proof.
  intros Hne. unfold choice, choice_at. destruct l as [|y l]; [congruence|].
  pose proof (randbelow_lt (length (y :: l)) r ltac:(simpl; lia)) as Hlt.
  destruct (randbelow _ r) as [i r0]. simpl in Hlt.
  destruct (nth_error (y :: l) i) eqn:E; [eauto|].
  apply nth_error_None in E. simpl in E. lia.
Qed.

(** The pick is the element at the drawn index. *)
Lemma choice_spec {A} (l : list A) r x r' :
  choice l r = Ok (x, r') ->
  choice_at l (fst (randbelow (length l) r)) = Some x
  /\ r' = snd (randbelow (length l) r).
Proof.
  unfold choice. destruct l as [|y l]; [discriminate|].
  destruct (randbelow _ r) as [i r0]. simpl.
  destruct (choice_at _ i) eqn:E; intros Hc; res_inv; auto.
Qed.
End Choice.
