(* ===== verification/Rasa.v ===== *)
(** * The Rasa SDK boundary: tracker, events, dispatcher

    The actions receive a [Tracker] (the conversation's slots and the
    latest user message) and a [CollectingDispatcher], and return a list of
    events.  The model's [tracker] holds the slot store as a finite map
    from slot names to values and the name of the latest intent.  An
    action's outcome is the list of messages it sent with
    [dispatcher.utter_message(text=...)], in order, and the events it
    returned; the only event the actions build is [SlotSet]. *)

From Stdlib Require Import String.
From stdpp Require Import base list gmap strings.
From S2P Require Import Prelude PyStr PyValue.

Inductive event :=
  | SlotSet (key : string) (value : pyval).

#[export] Instance event_eq_dec : EqDecision event.
Proof. solve_decision. Defined.

Record tracker := {
  slots : gmap string pyval;
  (** [tracker.latest_message.get("intent", {}).get("name")] *)
  latest_intent : option pystr
}.

(** [tracker.get_slot(key)]: [None] for an unset slot. *)
Definition get_slot (t : tracker) (key : string) : pyval :=
  default VNone (slots t !! key).

(** What [run] produced: the uttered texts and the returned events. *)
Record outcome := {
  utterances : list pystr;
  events : list event
}.

Definition say (msg : pystr) (evs : list event) : outcome :=
  {| utterances := [msg]; events := evs |}.

(** The dish an outcome proposes: the value of its [SlotSet
    "plato_recomendado"] event. *)
Definition propuesto (o : outcome) : option pystr :=
  match events o with
  | [SlotSet k (VStr p)] => if String.eqb k "plato_recomendado" then Some p else None
  | _ => None
  end.

(** The engine applies [SlotSet] events in order. *)
Definition apply_event (t : tracker) (e : event) : tracker :=
  match e with
  | SlotSet k v => {| slots := <[k := v]> (slots t); latest_intent := latest_intent t |}
  end.

Definition apply_events (t : tracker) (evs : list event) : tracker :=
  fold_left apply_event evs t.

(** [nombre = tracker.get_slot("nombre") or "amigo"] *)
Definition nombre_de (t : tracker) : pyval :=
  py_or (get_slot t "nombre") (VStr (lit "amigo")).

(** A tracker with the given slots and latest intent. *)
Definition tracker_of (l : list (string * pyval)) (i : option pystr) : tracker :=
  {| slots := list_to_map l; latest_intent := i |}.

Definition event_key (e : event) : string := match e with SlotSet k _ => k end.

(** ** Lemmas *)

Lemma get_slot_apply_other (t : tracker) k k' v :
  k <> k' -> get_slot (apply_event t (SlotSet k v)) k' = get_slot t k'.
Proof. intros Hne. unfold get_slot. simpl. rewrite lookup_insert_ne; auto. Qed.

Lemma get_slot_apply_same (t : tracker) k v :
  get_slot (apply_event t (SlotSet k v)) k = v.
Proof. unfold get_slot. simpl. rewrite lookup_insert_eq. reflexivity. Qed.

Lemma apply_events_nil t : apply_events t [] = t.
Proof. reflexivity. Qed.

Lemma apply_events_one t e : apply_events t [e] = apply_event t e.
Proof. reflexivity. Qed.

Lemma latest_intent_apply_events t evs :
  latest_intent (apply_events t evs) = latest_intent t.
Proof.
  unfold apply_events. revert t. induction evs as [|[k v] evs IH]; intros t; [reflexivity|].
  simpl. rewrite IH. reflexivity.
Qed.

(** Events on other slots leave a slot unchanged. *)
Lemma get_slot_apply_events_other (t : tracker) evs k :
  Forall (fun e => event_key e <> k) evs ->
  get_slot (apply_events t evs) k = get_slot t k.
Proof.
  unfold apply_events. intros Hall. revert t.
  induction Hall as [|[k' v] evs Hk _ IH]; intros t; [reflexivity|].
  simpl. rewrite IH. apply get_slot_apply_other. exact Hk.
Qed.

#[export] Hint Rewrite get_slot_apply_same apply_events_nil apply_events_one
  latest_intent_apply_events : pyrw.
#[export] Hint Rewrite get_slot_apply_other using congruence : pyrw.
