(* ===== verification/Catalog.v ===== *)
(** * Meal times and dish files

    [actions.py] maps a meal time to a dish file with the dictionary
    [archivos] (lines 111-117, repeated at 174-180), after normalising the
    slot's text.  The two actions normalise differently:
    [ActionRecomendarPlato] lowercases, strips, folds the five accented
    vowels and spells "mañana" as "manana" (lines 101-109);
    [ActionManejarConfirmacionPlato] lowercases, strips and only rewrites
    "mañana" (line 172).  The dish list is read from the file: each line,
    stripped, non-blank lines kept (lines 128-130 and 191-192).

    The files under [data/datasets/] are not part of [src/]: the model
    takes them as a [files] map from file name to its bytes, [None] when
    [open()] fails.  Python opens them in text mode as UTF-8, so the bytes
    are decoded strictly and [\r\n] and [\r] read as [\n] (universal
    newlines) before the file is split into lines. *)

From Stdlib Require Import String.
From stdpp Require Import base list gmap.
From Stdlib Require Import NArith.
From S2P Require Import Prelude PyStr PyValue.

Module Catalog.

(** ** The table [archivos] *)

Definition archivos_list : list (pystr * pystr) :=
  [(lit "desayuno", lit "desayuno.txt");
   (lit "almuerzo", lit "almuerzo.txt");
   (lit "cena", lit "cena.txt");
   (lit "media manana", lit "media_manana.txt");
   (lit "media tarde", lit "media_tarde.txt")].

Definition archivos : gmap pystr pystr := list_to_map archivos_list.

(** [archivos.get(tiempo_norm)] *)
Definition archivos_get (k : pystr) : option pystr := archivos !! k.

(** The keys of the table. *)
Definition claves : list pystr := map fst archivos_list.

(** ** Normalisation of the meal time *)

Definition fold_accent (c : pychar) : pychar :=
  if (c =? 225)%N then 97%N        (* á -> a *)
  else if (c =? 233)%N then 101%N  (* é -> e *)
  else if (c =? 237)%N then 105%N  (* í -> i *)
  else if (c =? 243)%N then 111%N  (* ó -> o *)
  else if (c =? 250)%N then 117%N  (* ú -> u *)
  else c.

(** Lines 101-109 of [ActionRecomendarPlato.run]. *)
Definition normalizar_recomendar (tiempo : pyval) : pystr :=
  let t := strip (lower (py_str tiempo)) in
  let t := replace t (lit "á") (lit "a") in
  let t := replace t (lit "é") (lit "e") in
  let t := replace t (lit "í") (lit "i") in
  let t := replace t (lit "ó") (lit "o") in
  let t := replace t (lit "ú") (lit "u") in
  replace t (lit "mañana") (lit "manana").

(** Line 172 of [ActionManejarConfirmacionPlato.run]. *)
Definition normalizar_confirmacion (tiempo : pyval) : pystr :=
  replace (strip (lower (py_str tiempo))) (lit "mañana") (lit "manana").

(** ** Reading a dish file *)

Definition files := pystr -> option (list N).

(** Universal newlines: [\r\n] and a lone [\r] read as [\n]. *)
Fixpoint universal_newlines (s : pystr) : pystr :=
  match s with
  | [] => []
  | c :: r =>
      if (c =? 13)%N then
        match r with
        | d :: r' => if (d =? 10)%N then 10%N :: universal_newlines r'
                     else 10%N :: universal_newlines r
        | [] => [10%N]
        end
      else c :: universal_newlines r
  end.

(** The lines of a text file as [for line in f] yields them: each keeps
    its [\n]; the last one has none when the file does not end in [\n].
    [cur] is the current line, reversed. *)
Fixpoint split_lines_go (cur : pystr) (s : pystr) : list pystr :=
  match s with
  | [] => match cur with [] => [] | _ => [rev cur] end
  | c :: r =>
      if (c =? 10)%N then rev (c :: cur) :: split_lines_go [] r
      else split_lines_go (c :: cur) r
  end.

Definition split_lines (s : pystr) : list pystr := split_lines_go [] s.

(** [[line.strip() for line in f if line.strip()]] *)
Definition platos_of_text (text : pystr) : list pystr :=
  List.filter (fun l => negb (bool_decide (l = []))) (map strip (split_lines (universal_newlines text))).

(** [with open(ruta, "r", encoding="utf-8") as f: platos = [...]] *)
Definition load_platos (fs : files) (archivo : pystr) : res (list pystr) :=
  match fs archivo with
  | None => Raise OSError
  | Some bytes =>
      match utf8_decode bytes with
      | None => Raise UnicodeDecodeError
      | Some text => Ok (platos_of_text text)
      end
  end.

(** A dish as the file gives it: stripped and not empty. *)
Definition dish_wf (p : pystr) : Prop := p <> [] /\ strip p = p.

(** ** Example files, for running the model on concrete inputs *)

(** [cena.txt] with two dishes, [desayuno.txt] with Windows line ends, a
    blank line and padding, [media_manana.txt] with one dish; the other
    files are missing. *)
Definition fs_ejemplo : files := fun archivo =>
  if bool_decide (archivo = lit "cena.txt") then
    Some (bytes_of "Sopa de verduras
Arroz con pollo
")
  else if bool_decide (archivo = lit "desayuno.txt") then
    Some (bytes_of "Avena con frutas" ++ [13; 10; 13; 10]%N ++ bytes_of "  Pan integral  ")
  else if bool_decide (archivo = lit "media_manana.txt") then
    Some (bytes_of "Fruta picada")
  else None.

(** Text without the five accented vowels. *)
Definition unaccented (s : pystr) : Prop := Forall (fun c => fold_accent c = c) s.

(** ** Lemmas on normalisation *)

Lemma isspace_fold_accent c : isspace (fold_accent c) = isspace c.
Proof.
  unfold fold_accent.
  repeat match goal with |- context [(c =? ?k)%N] => destruct (N.eqb_spec c k) as [->|] end;
    reflexivity.
Qed.

Lemma fold_lower_fold_lower c :
  fold_accent (lower_char (fold_accent (lower_char c))) = fold_accent (lower_char c).
Proof.
  set (x := lower_char c).
  assert (Hx : lower_char x = x) by apply lower_char_idem.
  clearbody x. unfold fold_accent at 2.
  repeat match goal with |- context [(x =? ?k)%N] => destruct (N.eqb_spec x k) as [->|] end;
    try reflexivity.
  rewrite Hx. reflexivity.
Qed.

(** The five vowel replacements of lines 103-107 are one character map. *)
Lemma normalizar_recomendar_fold (tiempo : pyval) :
  normalizar_recomendar tiempo
  = replace (map fold_accent (strip (lower (py_str tiempo)))) (lit "mañana") (lit "manana").
Proof.
  unfold normalizar_recomendar.
  change (lit "á") with [225%N]; change (lit "a") with [97%N];
  change (lit "é") with [233%N]; change (lit "e") with [101%N];
  change (lit "í") with [237%N]; change (lit "i") with [105%N];
  change (lit "ó") with [243%N]; change (lit "o") with [111%N];
  change (lit "ú") with [250%N]; change (lit "u") with [117%N].
  rewrite !replace_char, !map_map. f_equal. apply map_ext. intros c.
  unfold fold_accent.
  repeat match goal with |- context [(c =? ?k)%N] => destruct (N.eqb_spec c k) as [->|] end;
    reflexivity.
Qed.

(** C26. The meal time of [ActionRecomendarPlato] is case- and
    accent-insensitive: lowercasing the slot's text and folding its
    accented vowels does not change the key it selects. *)
Theorem normalizar_recomendar_insensible (s : pystr) :
  normalizar_recomendar (VStr (map fold_accent (lower s))) = normalizar_recomendar (VStr s).
Proof.
  rewrite !normalizar_recomendar_fold. cbn [py_str]. f_equal.
  rewrite !strip_lower, strip_map by apply isspace_fold_accent.
  rewrite strip_lower. unfold lower. rewrite !map_map.
  apply map_ext. intros c. apply fold_lower_fold_lower.
Qed.

(** ** Reading a file: every dish is stripped and not blank *)

Lemma lstrip_snoc (xs : pystr) c :
  isspace c = false -> exists ys, lstrip (xs ++ [c]) = ys ++ [c].
Proof.
  intros Hc. induction xs as [|x xs IH]; simpl.
  - rewrite Hc. exists []. reflexivity.
  - destruct (isspace x); [exact IH|]. exists (x :: xs). reflexivity.
Qed.

Lemma lstrip_nonspace (s : pystr) :
  match s with c :: _ => isspace c = false | [] => True end -> lstrip s = s.
Proof. destruct s as [|c s]; simpl; [reflexivity|]. intros ->. reflexivity. Qed.

Lemma lstrip_head (s : pystr) :
  match lstrip s with c :: _ => isspace c = false | [] => True end.
Proof.
  induction s as [|c s IH]; simpl; [exact I|].
  destruct (isspace c) eqn:E; [exact IH|exact E].
Qed.

Lemma strip_idem (s : pystr) : strip (strip s) = strip s.
Proof.
  unfold strip, rstrip.
  pose proof (lstrip_head s) as Hu. destruct (lstrip s) as [|c u] eqn:Eu.
  - reflexivity.
  - simpl. destruct (lstrip_snoc (rev u) c Hu) as [ys Hys]. rewrite Hys.
    rewrite rev_app_distr. simpl. rewrite Hu.
    change (rev (c :: rev ys)) with (rev (rev ys) ++ [c]). rewrite rev_involutive.
    pose proof (lstrip_head (rev u ++ [c])) as Hv. rewrite Hys in Hv.
    rewrite (lstrip_nonspace (ys ++ [c])) by exact Hv.
    rewrite rev_app_distr. reflexivity.
Qed.

#[export] Hint Rewrite strip_idem : pyrw.

Lemma platos_of_text_wf (text : pystr) : Forall dish_wf (platos_of_text text).
Proof.
  unfold platos_of_text. apply List.Forall_forall. intros p Hp.
  apply filter_In in Hp as [Hin Hne]. apply in_map_iff in Hin as (l & <- & _).
  split.
  - intros E. rewrite E in Hne. discriminate.
  - apply strip_idem.
Qed.

(** C27. Every dish read from a file is non-empty and has no surrounding
    whitespace: the list comprehension keeps [line.strip()] of the lines
    whose strip is not empty. *)
Theorem load_platos_wf fs archivo platos :
  load_platos fs archivo = Ok platos -> Forall dish_wf platos.
Proof.
  unfold load_platos. destruct (fs archivo); [|discriminate].
  destruct (utf8_decode _); intros H; res_inv; apply platos_of_text_wf.
Qed.

(** ** The table *)

Lemma archivos_get_claves k : is_Some (archivos_get k) <-> In k claves.
Proof.
  unfold archivos_get, archivos, claves. split.
  - intros [a Ha]. apply elem_of_list_to_map_2 in Ha.
    apply list_elem_of_In in Ha. apply in_map_iff. exists (k, a). auto.
  - intros Hk. apply in_map_iff in Hk as ([k' a] & <- & Hin). exists a.
    apply elem_of_list_to_map_1; [apply (bool_decide_unpack _); vm_compute; reflexivity|].
    apply list_elem_of_In. exact Hin.
Qed.

(** ** The two normalisations *)

Lemma claves_unaccented k f : archivos_get k = Some f -> unaccented k.
Proof.
  intros H. assert (Hk : In k claves) by (apply archivos_get_claves; rewrite H; eexists; reflexivity).
  assert (Hall : forallb (forallb (fun c => N.eqb (fold_accent c) c)) claves = true)
    by (vm_compute; reflexivity).
  rewrite forallb_forall in Hall. specialize (Hall k Hk). rewrite forallb_forall in Hall.
  apply List.Forall_forall. intros c Hc. apply N.eqb_eq, Hall, Hc.
Qed.

(** Replacing "mañana" keeps every character that is not folded. *)
Lemma replace_manana_unaccented t :
  unaccented (replace t (lit "mañana") (lit "manana")) -> unaccented t.
Proof.
  unfold unaccented. intros H. apply List.Forall_forall. intros x Hx.
  change (lit "mañana") with [109%N; 97%N; 241%N; 97%N; 110%N; 97%N] in H.
  rewrite replace_equiv, List.Forall_forall in H.
  destruct (in_dec N.eq_dec x [109%N; 97%N; 241%N; 97%N; 110%N; 97%N]) as [Hm|Hm].
  - cbn in Hm. repeat destruct Hm as [<-|Hm]; try contradiction; reflexivity.
  - apply H, In_replace_ref; assumption.
Qed.

(** A meal time whose lowercased, stripped text keeps an accented vowel
    is not resolved by the rejection handler's normalisation. *)
Lemma normalizar_confirmacion_acento (s : pystr) :
  ~ unaccented (strip (lower s)) -> archivos_get (normalizar_confirmacion (VStr s)) = None.
Proof.
  intros Hs. destruct (archivos_get _) as [f|] eqn:E; [|reflexivity].
  exfalso. apply Hs. exact (replace_manana_unaccented _ (claves_unaccented _ f E)).
Qed.

Lemma unaccented_forallb (s : pystr) :
  unaccented s <-> forallb (fun c => N.eqb (fold_accent c) c) s = true.
Proof.
  unfold unaccented. rewrite List.Forall_forall, forallb_forall.
  split; intros H c Hc; apply N.eqb_eq || apply N.eqb_eq in H; auto; apply N.eqb_eq, H, Hc.
Qed.

(** C16. The two normalisations agree wherever the rejection handler's
    one resolves: when line 172 finds a dish file for the meal time, the
    key of lines 101-109 is the same, so the two handlers diverge only on
    meal times that the rejection handler cannot resolve. *)
Theorem normalizaciones_coinciden (tiempo : pyval) (archivo : pystr) :
  archivos_get (normalizar_confirmacion tiempo) = Some archivo ->
  normalizar_recomendar tiempo = normalizar_confirmacion tiempo.
Proof.
  intros Ha. apply claves_unaccented, replace_manana_unaccented in Ha.
  rewrite normalizar_recomendar_fold. unfold normalizar_confirmacion. f_equal.
  rewrite <- (map_id (strip (lower (py_str tiempo)))) at 2.
  apply map_ext_in. intros c Hc. exact (proj1 (List.Forall_forall _ _) Ha c Hc).
Qed.

(** ** Witnesses *)

Lemma load_platos_wf_witness :
  Forall dish_wf [lit "Avena con frutas"; lit "Pan integral"].
Proof. apply (load_platos_wf fs_ejemplo (lit "desayuno.txt")). vm_compute. reflexivity. Defined.

Lemma normalizaciones_coinciden_witness :
  normalizar_recomendar (VStr (lit " Media MAÑANA ")) = normalizar_confirmacion (VStr (lit " Media MAÑANA ")).
Proof.
  apply (normalizaciones_coinciden _ (lit "media_manana.txt")). vm_compute. reflexivity.
Defined.

End Catalog.
