(* ===== verification/ActionRecomendar.v ===== *)
(** * [ActionRecomendarPlato]: propose a dish for a meal time

    [actions.py] lines 88-145.  [run] reads the slots [tiempo_comida] and
    [nombre]; asks for the meal time when it is missing; normalises it and
    looks the dish file up in [archivos]; reports an unknown meal time, a
    file that cannot be read (any exception, caught by the bare [except]),
    or an empty file; otherwise draws a dish with [random.choice], utters
    the proposal and sets the slot [plato_recomendado].

    [propose_spec] is the contract of the operation as the specification
    states it (one constructor per outcome); [propose_refines] shows that
    [run] implements it and [run_total] that it always answers. *)

From Stdlib Require Import String.
From stdpp Require Import base list gmap strings.
From Stdlib Require Import NArith.
From S2P Require Import Prelude PyStr PyValue RandomSource Rasa Catalog.
Import Catalog.

Module ActionRecomendarPlato.

(** [name()]: the name the engine calls the action by. *)
Definition name : string := "action_recomendar_plato".

Definition nl : pystr := [10%N].

Definition msg_pedir_tiempo : pystr :=
  lit "¿Para qué tiempo de comida deseas la recomendación?".
Definition msg_no_existe : pystr := lit "Ese tiempo de comida no existe.".
Definition msg_error_menu : pystr := lit "Error cargando el menú.".
Definition msg_sin_platos : pystr := lit "No tengo platos disponibles ahora mismo.".

(** [f"¡{nombre}! Te recomiendo esta combinación para {tiempo}:\n\n🍽️ {plato}\n\n¿Te gusta esta combinación?"] *)
Definition msg_recomendacion (nombre tiempo : pyval) (plato : pystr) : pystr :=
  lit "¡" ++ py_str nombre ++ lit "! Te recomiendo esta combinación para "
  ++ py_str tiempo ++ lit ":" ++ nl ++ nl ++ lit "🍽️ " ++ plato ++ nl ++ nl
  ++ lit "¿Te gusta esta combinación?".

(** A tracker asking for dinner, written with a capital and a trailing
    space, for concrete runs. *)
Definition t_cena : tracker := tracker_of [("tiempo_comida", VStr (lit "Cena "))] None.

Section Run.
Context (fs : files) {R : Type} `{RandomSource R}.

Definition run (t : tracker) (r : R) : res (outcome * R) :=
  let tiempo := get_slot t "tiempo_comida" in
  let nombre := nombre_de t in
  if negb (truthy tiempo) then Ok (say msg_pedir_tiempo [], r)
  else
    match archivos_get (normalizar_recomendar tiempo) with
    | None => Ok (say msg_no_existe [], r)
    | Some archivo =>
        match load_platos fs archivo with
        | Raise _ => Ok (say msg_error_menu [], r)
        | Ok [] => Ok (say msg_sin_platos [], r)
        | Ok platos =>
            pr <-? choice platos r ;;
            let '(plato, r') := pr in
            Ok (say (msg_recomendacion nombre tiempo plato)
                    [SlotSet "plato_recomendado" (VStr plato)], r')
        end
    end.

(** ** The contract of [propose] (specification, section 4.4) *)
Inductive propose_spec (t : tracker) : outcome -> Prop :=
  | propose_ask :
      truthy (get_slot t "tiempo_comida") = false ->
      propose_spec t (say msg_pedir_tiempo [])
  | propose_not_found :
      truthy (get_slot t "tiempo_comida") = true ->
      archivos_get (normalizar_recomendar (get_slot t "tiempo_comida")) = None ->
      propose_spec t (say msg_no_existe [])
  | propose_load_error archivo e :
      truthy (get_slot t "tiempo_comida") = true ->
      archivos_get (normalizar_recomendar (get_slot t "tiempo_comida")) = Some archivo ->
      load_platos fs archivo = Raise e ->
      propose_spec t (say msg_error_menu [])
  | propose_empty archivo :
      truthy (get_slot t "tiempo_comida") = true ->
      archivos_get (normalizar_recomendar (get_slot t "tiempo_comida")) = Some archivo ->
      load_platos fs archivo = Ok [] ->
      propose_spec t (say msg_sin_platos [])
  | propose_dish archivo platos plato :
      truthy (get_slot t "tiempo_comida") = true ->
      archivos_get (normalizar_recomendar (get_slot t "tiempo_comida")) = Some archivo ->
      load_platos fs archivo = Ok platos ->
      In plato platos ->
      propose_spec t
        (say (msg_recomendacion (nombre_de t) (get_slot t "tiempo_comida") plato)
             [SlotSet "plato_recomendado" (VStr plato)]).

(** ** Theorems *)

Lemma run_sound t r o r' : run t r = Ok (o, r') -> propose_spec t o.
Proof.
  unfold run. destruct (truthy (get_slot t "tiempo_comida")) eqn:Ht; simpl.
  2: { intros Hr; res_inv. now constructor. }
  destruct (archivos_get _) as [archivo|] eqn:Ea.
  2: { intros Hr; res_inv. now constructor. }
  destruct (load_platos fs archivo) as [platos|e] eqn:El.
  2: { intros Hr; res_inv. econstructor; eauto. }
  destruct platos as [|p ps]; [intros Hr; res_inv; econstructor; eauto|].
  destruct (choice (p :: ps) r) as [[plato r0]|e] eqn:Ec; simpl; intros Hr; res_inv.
  eapply propose_dish; eauto. eapply choice_In; eauto.
Qed.

Lemma run_total `{!RandomSourceOk R} t r : exists o r', run t r = Ok (o, r').
Proof.
  unfold run. destruct (truthy _); simpl; [|eauto].
  destruct (archivos_get _) as [archivo|]; [|eauto].
  destruct (load_platos fs archivo) as [[|p ps]|e]; eauto.
  destruct (choice_Ok (p :: ps) r) as (x & r' & ->); [discriminate|]. simpl. eauto.
Qed.

(** C2. [propose] meets its contract: with a random source that draws below
    the bound it asks, the action always returns (it never raises, the
    file errors being caught) and its answer is the one the contract gives
    for the tracker's meal time and dish file. *)
Theorem propose_refines `{!RandomSourceOk R} t r :
  exists o r', run t r = Ok (o, r') /\ propose_spec t o.
Proof.
  destruct (run_total t r) as (o & r' & Hr). exists o, r'. split; [exact Hr|].
  eapply run_sound; eauto.
Qed.

(** [ActionRecomendarPlato] never writes [plato_confirmado]: a new
    proposal does not reset the flag of a dish confirmed earlier. *)
Theorem run_keeps_confirmado t r o r' :
  run t r = Ok (o, r') ->
  get_slot (apply_events t (events o)) "plato_confirmado" = get_slot t "plato_confirmado".
Proof.
  intros Hr. apply run_sound in Hr. inversion Hr; subst; [reflexivity ..|].
  unfold say. cbn [events]. rewrite apply_events_one. apply get_slot_apply_other. discriminate.
Qed.

End Run.

(** With the pre-drawn source [[i]], [run] proposes the [i]-th dish. *)
Lemma propose_stream fs t archivo platos i :
  truthy (get_slot t "tiempo_comida") = true ->
  archivos_get (normalizar_recomendar (get_slot t "tiempo_comida")) = Some archivo ->
  load_platos fs archivo = Ok platos -> i < length platos ->
  exists plato, nth_error platos i = Some plato /\
    run fs t [i] = Ok (say (msg_recomendacion (nombre_de t) (get_slot t "tiempo_comida") plato)
                        [SlotSet "plato_recomendado" (VStr plato)], []).
Proof.
  intros Ht Ea El Hi. unfold run. rewrite Ht, Ea, El. simpl.
  destruct (nth_error platos i) as [plato|] eqn:E;
    [|apply nth_error_None in E; lia].
  exists plato. split; [reflexivity|].
  destruct platos as [|p ps]; [simpl in Hi; lia|].
  unfold choice, choice_at, randbelow, stream_source.
  rewrite Nat.mod_small by exact Hi. rewrite E. reflexivity.
Qed.

(** C20. Uniform choice: drawing the index uniformly below the number of dishes,
    the number of draws that propose [plato] is its number of occurrences
    in the file; every dish of the file is proposed by some draw. *)
Theorem propose_uniform fs t archivo platos plato :
  truthy (get_slot t "tiempo_comida") = true ->
  archivos_get (normalizar_recomendar (get_slot t "tiempo_comida")) = Some archivo ->
  load_platos fs archivo = Ok platos ->
  length (List.filter
            (fun i => bool_decide (res_map (fun x => propuesto (fst x)) (run fs t [i])
                                   = Ok (Some plato)))
            (seq 0 (length platos)))
  = count_at plato platos.
Proof.
  intros Ht Ea El. rewrite <- count_indices. f_equal.
  apply filter_ext_in. intros i Hi. apply in_seq in Hi.
  destruct (propose_stream fs t archivo platos i Ht Ea El ltac:(lia)) as (p & Hp & ->).
  rewrite Hp. simpl. unfold propuesto. simpl.
  apply bool_decide_ext. split; congruence.
Qed.

(** ** Witnesses *)

Lemma propose_refines_witness :
  exists o r', run fs_ejemplo t_cena [1] = Ok (o, r') /\ propose_spec fs_ejemplo t_cena o.
Proof. apply (propose_refines fs_ejemplo (R := list nat)). Defined.

Lemma propose_uniform_witness :
  length (List.filter
            (fun i => bool_decide (res_map (fun x => propuesto (fst x)) (run fs_ejemplo t_cena [i])
                                   = Ok (Some (lit "Arroz con pollo"))))
            (seq 0 (length [lit "Sopa de verduras"; lit "Arroz con pollo"])))
  = count_at (lit "Arroz con pollo") [lit "Sopa de verduras"; lit "Arroz con pollo"].
Proof.
  apply (propose_uniform fs_ejemplo t_cena (lit "cena.txt")); vm_compute; reflexivity.
Defined.

Lemma run_keeps_confirmado_witness :
  let t := {| slots := <["plato_confirmado" := VBool true]> (slots t_cena);
              latest_intent := None |} in
  let o := match run fs_ejemplo t [0] with Ok (o, _) => o | Raise _ => say [] [] end in
  get_slot (apply_events t (events o)) "plato_confirmado" = get_slot t "plato_confirmado".
Proof.
  intros t o. apply (run_keeps_confirmado fs_ejemplo t [0] o []). vm_compute. reflexivity.
Defined.

End ActionRecomendarPlato.
