(* ===== verification/ActionConfirmacion.v ===== *)
(** * [ActionManejarConfirmacionPlato]: the user's answer to a proposal

    [actions.py] lines 151-213.  [run] branches on the latest intent:
    "afirmar" closes with a message and sets [plato_confirmado] to [True];
    "negar" normalises the meal time (without folding accents), looks the
    dish file up, reads it (with no [try]: a missing or undecodable file
    raises out of the action), removes the dish proposed last
    ([plato_recomendado]) and proposes another one, or reports that all
    options were shown; any other intent asks for a yes or no.

    [feedback_spec] is the contract of this operation (one constructor per
    outcome, raising included); [feedback_refines] shows that [run] implements
    it.  The theorems after it are the properties of the rejection cycle. *)

From Stdlib Require Import String.
From stdpp Require Import base list gmap strings.
From Stdlib Require Import NArith.
From S2P Require Import Prelude PyStr PyValue RandomSource Rasa Catalog.
Import Catalog.

Module ActionManejarConfirmacionPlato.

(** [name()]: the name the engine calls the action by. *)
Definition name : string := "action_manejar_confirmacion_plato".

Definition nl : pystr := [10%N].

(** [f"¡Perfecto {nombre}! Me alegra que te guste. ¡Disfruta tu comida!"] *)
Definition msg_perfecto (nombre : pyval) : pystr :=
  lit "¡Perfecto " ++ py_str nombre ++ lit "! Me alegra que te guste. ¡Disfruta tu comida!".
Definition msg_no_se_menu : pystr := lit "No sé qué menú usar.".
Definition msg_todas_mostradas : pystr :=
  lit "Ya te mostré todas las opciones  ¿Quieres repetir la misma o elegir otro tiempo de comida?".
(** [f"Ok {nombre}, te propongo esta otra opción:\n\n {nuevo}\n\n¿Te gusta esta combinación?"] *)
Definition msg_otra_opcion (nombre : pyval) (nuevo : pystr) : pystr :=
  lit "Ok " ++ py_str nombre ++ lit ", te propongo esta otra opción:" ++ nl ++ nl
  ++ lit " " ++ nuevo ++ nl ++ nl ++ lit "¿Te gusta esta combinación?".
Definition msg_no_entendi : pystr :=
  lit "No entendí, ¿te gusta esta combinación? Responde sí o no.".

(** [p != anterior] for a dish [p] (a [str]) and the slot value [anterior]:
    a [str] equals only a [str] with the same characters. *)
Definition distinto (anterior : pyval) (p : pystr) : bool :=
  negb (bool_decide (VStr p = anterior)).

(** [[p for p in platos if p != anterior]] *)
Definition opciones (anterior : pyval) (platos : list pystr) : list pystr :=
  List.filter (distinto anterior) platos.

(** Trackers of a rejection, for concrete runs: of the dinner dish "Sopa
    de verduras", of the only mid-morning dish, and of a lunch (whose file
    [fs_ejemplo] lacks). *)
Definition t_negar (tiempo plato : pystr) : tracker :=
  tracker_of [("tiempo_comida", VStr tiempo); ("plato_recomendado", VStr plato)]
    (Some (lit "negar")).
Definition t_negar_cena : tracker := t_negar (lit "cena") (lit "Sopa de verduras").
Definition t_negar_media : tracker := t_negar (lit "Media Mañana") (lit "Fruta picada").
Definition t_negar_almuerzo : tracker := t_negar (lit "almuerzo") (lit "Sopa de verduras").

Section Run.
Context (fs : files) {R : Type} `{RandomSource R}.

Definition run (t : tracker) (r : R) : res (outcome * R) :=
  let intent := latest_intent t in
  let tiempo := get_slot t "tiempo_comida" in
  let nombre := nombre_de t in
  let anterior := get_slot t "plato_recomendado" in
  if bool_decide (intent = Some (lit "afirmar")) then
    Ok (say (msg_perfecto nombre) [SlotSet "plato_confirmado" (VBool true)], r)
  else if bool_decide (intent = Some (lit "negar")) then
    match archivos_get (normalizar_confirmacion tiempo) with
    | None => Ok (say msg_no_se_menu [], r)
    | Some archivo =>
        platos <-? load_platos fs archivo ;;
        match opciones anterior platos with
        | [] => Ok (say msg_todas_mostradas [], r)
        | ops =>
            pr <-? choice ops r ;;
            let '(nuevo, r') := pr in
            Ok (say (msg_otra_opcion nombre nuevo)
                    [SlotSet "plato_recomendado" (VStr nuevo)], r')
        end
    end
  else Ok (say msg_no_entendi [], r).

(** ** The contract of [handle_feedback] (specification, section 4.4),
    with the code's raising of a file error *)
Inductive feedback_spec (t : tracker) : res outcome -> Prop :=
  | feedback_affirm :
      latest_intent t = Some (lit "afirmar") ->
      feedback_spec t (Ok (say (msg_perfecto (nombre_de t))
                               [SlotSet "plato_confirmado" (VBool true)]))
  | feedback_unknown_time :
      latest_intent t = Some (lit "negar") ->
      archivos_get (normalizar_confirmacion (get_slot t "tiempo_comida")) = None ->
      feedback_spec t (Ok (say msg_no_se_menu []))
  | feedback_file_error archivo e :
      latest_intent t = Some (lit "negar") ->
      archivos_get (normalizar_confirmacion (get_slot t "tiempo_comida")) = Some archivo ->
      load_platos fs archivo = Raise e ->
      feedback_spec t (Raise e)
  | feedback_exhausted archivo platos :
      latest_intent t = Some (lit "negar") ->
      archivos_get (normalizar_confirmacion (get_slot t "tiempo_comida")) = Some archivo ->
      load_platos fs archivo = Ok platos ->
      (forall p, In p platos -> VStr p = get_slot t "plato_recomendado") ->
      feedback_spec t (Ok (say msg_todas_mostradas []))
  | feedback_other_dish archivo platos nuevo :
      latest_intent t = Some (lit "negar") ->
      archivos_get (normalizar_confirmacion (get_slot t "tiempo_comida")) = Some archivo ->
      load_platos fs archivo = Ok platos ->
      In nuevo platos -> VStr nuevo <> get_slot t "plato_recomendado" ->
      feedback_spec t (Ok (say (msg_otra_opcion (nombre_de t) nuevo)
                               [SlotSet "plato_recomendado" (VStr nuevo)]))
  | feedback_other_intent :
      latest_intent t <> Some (lit "afirmar") ->
      latest_intent t <> Some (lit "negar") ->
      feedback_spec t (Ok (say msg_no_entendi [])).

(** ** Theorems *)

Lemma In_opciones anterior platos p :
In p (opciones anterior platos) <-> In p platos /\ VStr p <> anterior.
Proof.
unfold opciones, distinto. rewrite filter_In, negb_true_iff, bool_decide_eq_false.
reflexivity.
Qed.

Lemma opciones_nil anterior platos :
opciones anterior platos = [] <-> forall p, In p platos -> VStr p = anterior.
Proof.
split.
- intros E p Hp. destruct (decide (VStr p = anterior)) as [|Hne]; [assumption|].
  assert (Hin : In p (opciones anterior platos)) by (apply In_opciones; auto).
  rewrite E in Hin. destruct Hin.
- intros Hall. destruct (opciones anterior platos) as [|q qs] eqn:E; [reflexivity|].
  assert (Hq : In q (opciones anterior platos)) by (rewrite E; left; reflexivity).
  apply In_opciones in Hq as [Hq Hne]. exfalso. exact (Hne (Hall q Hq)).
Qed.

(** Counting in the options: the dish proposed last has no occurrence
    left, every other dish keeps all of its occurrences in the file. *)
Lemma count_at_opciones anterior platos p :
  count_at p (opciones anterior platos)
  = if bool_decide (VStr p = anterior) then 0 else count_at p platos.
Proof.
  unfold opciones, distinto. induction platos as [|y ps IH]; [by case_bool_decide|].
  cbn [List.filter count_at].
  destruct (decide (p = y)) as [->|Hne];
    destruct (bool_decide_reflect (VStr y = anterior)) as [Hy|Hy];
    cbn [negb count_at]; rewrite IH; repeat case_bool_decide; try congruence;
    repeat destruct (decide _); try congruence; lia.
Qed.

Lemma run_Ok_spec t r o r' : run t r = Ok (o, r') -> feedback_spec t (Ok o).
Proof.
  unfold run.
  destruct (bool_decide_reflect (latest_intent t = Some (lit "afirmar"))) as [Ha|Ha].
  { intros Hr; res_inv. now constructor. }
  destruct (bool_decide_reflect (latest_intent t = Some (lit "negar"))) as [Hn|Hn].
  2: { intros Hr; res_inv. now constructor. }
  destruct (archivos_get _) as [archivo|] eqn:Ea; [|intros Hr; res_inv; now constructor].
  destruct (load_platos fs archivo) as [platos|e] eqn:El; cbn [res_bind];
    [|discriminate].
  destruct (opciones _ platos) as [|q qs] eqn:Eo.
  { intros Hr; res_inv. eapply feedback_exhausted; eauto. apply opciones_nil, Eo. }
  destruct (choice (q :: qs) r) as [[nuevo r0]|e] eqn:Ec; cbn [res_bind]; [|discriminate].
  intros Hr; res_inv.
  apply choice_In in Ec. rewrite <- Eo in Ec. apply In_opciones in Ec as [Hin Hne].
  eapply feedback_other_dish; eauto.
Qed.

(** C3. [handle_feedback] meets its contract: with a random source that draws
    below the bound it asks, the action's result (an answer and its
    events, or the exception of an unreadable dish file) is one the
    contract allows for the tracker's intent, meal time, dish file and
    last proposal. *)
Theorem feedback_refines `{!RandomSourceOk R} t r :
  feedback_spec t (res_map fst (run t r)).
Proof.
  destruct (run t r) as [[o r']|e] eqn:E; [eapply run_Ok_spec; eauto|].
  revert E. unfold run.
  destruct (bool_decide_reflect (latest_intent t = Some (lit "afirmar"))); [discriminate|].
  destruct (bool_decide_reflect (latest_intent t = Some (lit "negar"))) as [Hn|];
    [|discriminate].
  destruct (archivos_get _) as [archivo|] eqn:Ea; [|discriminate].
  destruct (load_platos fs archivo) as [platos|e'] eqn:El; cbn [res_bind].
  2: { intros Hr; res_inv. econstructor; eauto. }
  destruct (opciones _ platos) as [|q qs]; [discriminate|].
  destruct (choice_Ok (q :: qs) r) as (nuevo & r' & ->); [discriminate|].
  discriminate.
Qed.

(** C10. A rejection never proposes again the dish proposed last, and what it
    proposes is a dish of the file of the slot's meal time. *)
Theorem run_no_repeat t r o r' nuevo :
  run t r = Ok (o, r') -> propuesto o = Some nuevo ->
  VStr nuevo <> get_slot t "plato_recomendado" /\
  exists archivo platos,
    archivos_get (normalizar_confirmacion (get_slot t "tiempo_comida")) = Some archivo /\
    load_platos fs archivo = Ok platos /\ In nuevo platos.
Proof.
  intros Hr Hp. apply run_Ok_spec in Hr. inversion Hr; subst; try discriminate.
  unfold propuesto in Hp. simpl in Hp. res_inv. eauto 8.
Qed.

(** C19. Exhaustion: when every dish of the file is the one proposed last (a
    file of one dish, for instance), a rejection proposes nothing and
    offers to repeat or change the meal time. *)
Theorem run_exhausted t r archivo platos :
  latest_intent t = Some (lit "negar") ->
  archivos_get (normalizar_confirmacion (get_slot t "tiempo_comida")) = Some archivo ->
  load_platos fs archivo = Ok platos ->
  (forall p, In p platos -> VStr p = get_slot t "plato_recomendado") ->
  run t r = Ok (say msg_todas_mostradas [], r).
Proof.
  intros Hn Ea El Hall. unfold run.
  rewrite bool_decide_eq_false_2 by (rewrite Hn; intros [=]).
  rewrite bool_decide_eq_true_2 by exact Hn.
  rewrite Ea, El. cbn [res_bind].
  apply opciones_nil in Hall. rewrite Hall. reflexivity.
Qed.

(** C12. A dish file that cannot be read makes the rejection handler raise:
    the exception leaves the action (there is no [try] around [open]),
    where [ActionRecomendarPlato] reports "Error cargando el menú.". *)
Theorem run_file_error t r archivo e :
  latest_intent t = Some (lit "negar") ->
  archivos_get (normalizar_confirmacion (get_slot t "tiempo_comida")) = Some archivo ->
  load_platos fs archivo = Raise e ->
  run t r = Raise e.
Proof.
  intros Hn Ea El. unfold run.
  rewrite bool_decide_eq_false_2 by (rewrite Hn; intros [=]).
  rewrite bool_decide_eq_true_2 by exact Hn.
  rewrite Ea, El. reflexivity.
Qed.

End Run.

(** With the pre-drawn source [[i]], a rejection proposes the [i]-th
    remaining option. *)
Lemma feedback_stream fs t archivo platos i :
  latest_intent t = Some (lit "negar") ->
  archivos_get (normalizar_confirmacion (get_slot t "tiempo_comida")) = Some archivo ->
  load_platos fs archivo = Ok platos ->
  i < length (opciones (get_slot t "plato_recomendado") platos) ->
  exists nuevo, nth_error (opciones (get_slot t "plato_recomendado") platos) i = Some nuevo /\
    run fs t [i] = Ok (say (msg_otra_opcion (nombre_de t) nuevo)
                        [SlotSet "plato_recomendado" (VStr nuevo)], []).
Proof.
  intros Hn Ea El Hi. unfold run.
  rewrite bool_decide_eq_false_2 by (rewrite Hn; intros [=]).
  rewrite bool_decide_eq_true_2 by exact Hn.
  rewrite Ea, El. cbn [res_bind].
  destruct (nth_error (opciones _ platos) i) as [nuevo|] eqn:E;
    [|apply nth_error_None in E; lia].
  exists nuevo. split; [reflexivity|].
  destruct (opciones _ platos) as [|p ps]; [simpl in Hi; lia|].
  unfold choice, choice_at, randbelow, stream_source.
  rewrite Nat.mod_small by exact Hi. rewrite E. reflexivity.
Qed.

(** C21. Only the dish proposed last is excluded, and the new dish is drawn
    uniformly from the others: over the draws below the number of
    remaining options, the dish proposed last is never proposed, and every
    other dish [p] is proposed by as many draws as it has lines in the
    file (a dish rejected earlier, not the last one, is again among the
    options). *)
Theorem feedback_uniform fs t archivo platos p :
  latest_intent t = Some (lit "negar") ->
  archivos_get (normalizar_confirmacion (get_slot t "tiempo_comida")) = Some archivo ->
  load_platos fs archivo = Ok platos ->
  let ops := opciones (get_slot t "plato_recomendado") platos in
  length (List.filter
            (fun i => bool_decide (res_map (fun x => propuesto (fst x)) (run fs t [i])
                                   = Ok (Some p)))
            (seq 0 (length ops)))
  = if bool_decide (VStr p = get_slot t "plato_recomendado") then 0 else count_at p platos.
Proof.
  intros Hn Ea El ops. subst ops. rewrite <- count_at_opciones, <- count_indices. f_equal.
  apply filter_ext_in. intros i Hi. apply in_seq in Hi.
  destruct (feedback_stream fs t archivo platos i Hn Ea El ltac:(lia)) as (q & Hq & ->).
  rewrite Hq. unfold propuesto. simpl.
  apply bool_decide_ext. split; congruence.
Qed.

(** ** Witnesses *)

Lemma feedback_refines_witness :
  feedback_spec fs_ejemplo t_negar_cena (res_map fst (run fs_ejemplo t_negar_cena [0])).
Proof. apply (feedback_refines fs_ejemplo (R := list nat)). Defined.

Lemma run_no_repeat_witness :
  exists o r', run fs_ejemplo t_negar_cena [0] = Ok (o, r') /\
  propuesto o = Some (lit "Arroz con pollo") /\
  (VStr (lit "Arroz con pollo") <> get_slot t_negar_cena "plato_recomendado" /\
   exists archivo platos,
     archivos_get (normalizar_confirmacion (get_slot t_negar_cena "tiempo_comida"))
     = Some archivo /\
     load_platos fs_ejemplo archivo = Ok platos /\ In (lit "Arroz con pollo") platos).
Proof.
  eexists _, _. split; [vm_compute; reflexivity|]. split; [vm_compute; reflexivity|].
  eapply (run_no_repeat fs_ejemplo t_negar_cena [0]); vm_compute; reflexivity.
Defined.

Lemma run_exhausted_witness :
  run fs_ejemplo t_negar_media [3] = Ok (say msg_todas_mostradas [], [3]).
Proof.
  apply (run_exhausted fs_ejemplo t_negar_media [3] (lit "media_manana.txt")
           [lit "Fruta picada"]); [vm_compute; reflexivity ..|].
  intros p [<- | []]. vm_compute. reflexivity.
Defined.

Lemma run_file_error_witness :
  run fs_ejemplo t_negar_almuerzo [0] = Raise OSError.
Proof.
  apply (run_file_error fs_ejemplo t_negar_almuerzo [0] (lit "almuerzo.txt"));
    vm_compute; reflexivity.
Defined.

Lemma feedback_uniform_witness :
  length (List.filter
            (fun i => bool_decide (res_map (fun x => propuesto (fst x))
                                     (run fs_ejemplo t_negar_cena [i])
                                   = Ok (Some (lit "Sopa de verduras"))))
            (seq 0 (length (opciones (VStr (lit "Sopa de verduras"))
                              [lit "Sopa de verduras"; lit "Arroz con pollo"]))))
  = if bool_decide (VStr (lit "Sopa de verduras") = VStr (lit "Sopa de verduras")) then 0
    else count_at (lit "Sopa de verduras") [lit "Sopa de verduras"; lit "Arroz con pollo"].
Proof.
  apply (feedback_uniform fs_ejemplo t_negar_cena (lit "cena.txt")); vm_compute; reflexivity.
Defined.

End ActionManejarConfirmacionPlato.
