(* ===== verification/ActionImc.v ===== *)
(** * [ActionCalcularIMC]: body mass index

    [actions.py] lines 36-82.  [run] parses the slots [peso] and [altura]
    with [parse_number]; asks again when either has no number; reads a
    height above 3 as centimetres and divides it by 100; refuses a
    non-positive weight or height; computes [imc = peso / (altura ** 2)] in
    binary64, formats it with two decimals and picks one of three
    interpretations ([imc < 18.5], [imc < 25], otherwise).  On success it
    utters nothing and returns four [SlotSet] events.

    The float operations can raise: [parse_number] on a huge [int]
    ([OverflowError]), [altura ** 2] when the square overflows
    ([OverflowError]) and the division when the square underflows to zero
    ([ZeroDivisionError]); these leave [run] as [Raise]. *)

From Stdlib Require Import String.
From stdpp Require Import base list gmap strings.
From Stdlib Require Import ZArith NArith SpecFloat.
From S2P Require Import Prelude PyStr PyFloat FloatRound FloatOrder PyValue ParseNumber Rasa.
Import ParseNumber.

Module ActionCalcularIMC.

(** [name()]: the name the engine calls the action by. *)
Definition name : string := "action_calcular_imc".

Definition msg_no_entendi : pystr :=
  lit "No entendí tu peso o tu altura. Dímelos nuevamente ejemplo: 58 kg, 1.64 m".
Definition msg_positivos : pystr := lit "Los valores deben ser positivos.".

Definition interp_bajo : pystr :=
  lit "Tu IMC está bajo. Podrías necesitar comer un poquito más para crecer fuerte.".
Definition interp_saludable : pystr := lit "¡Tu IMC es saludable! Sigue así.".
Definition interp_alto : pystr :=
  lit "Tu IMC está un poco alto. Te recomiendo moverte más y comer saludable.".

(** The three bands of lines 68-73. *)
Inductive banda := Bajo | Saludable | Alto.

#[export] Instance banda_eq_dec : EqDecision banda.
Proof. solve_decision. Defined.

Definition clasificar (imc : float) : banda :=
  if lt imc f_18_5 then Bajo else if lt imc f_25 then Saludable else Alto.

(** The order of the bands, low to high. *)
Definition banda_rank (b : banda) : nat :=
  match b with Bajo => 0 | Saludable => 1 | Alto => 2 end.

Definition interpretacion_de (b : banda) : pystr :=
  match b with
  | Bajo => interp_bajo
  | Saludable => interp_saludable
  | Alto => interp_alto
  end.

(** Lines 57-59: a height above 3 is taken as centimetres. *)
Definition normalizar_altura (altura : float) : res float :=
  if gt altura f_three then py_div altura f_hundred else Ok altura.

(** Lines 65-82 after the checks: the events of a computed index. *)
Definition eventos_imc (peso altura : float) : res (list event) :=
  sq <-? py_sq altura ;;
  imc <-? py_div peso sq ;;
  Ok [SlotSet "peso" (VFloat peso); SlotSet "altura" (VFloat altura);
      SlotSet "imc" (VStr (format_2f imc));
      SlotSet "interpretacion" (VStr (interpretacion_de (clasificar imc)))].

Definition run (t : tracker) : res outcome :=
  peso <-? parse_number (get_slot t "peso") ;;
  altura <-? parse_number (get_slot t "altura") ;;
  match peso, altura with
  | Some peso, Some altura =>
      altura <-? normalizar_altura altura ;;
      if le peso f_zero || le altura f_zero then Ok (say msg_positivos [])
      else
        evs <-? eventos_imc peso altura ;;
        Ok {| utterances := []; events := evs |}
  | _, _ => Ok (say msg_no_entendi [])
  end.

(** Trackers with the given weight and height slots, for concrete runs. *)
Definition t_imc (peso altura : pyval) : tracker :=
  tracker_of [("peso", peso); ("altura", altura)] None.

(** A height of 1e-200 metres typed as a decimal. *)
Definition altura_diminuta : pystr := lit "0." ++ repeat 48%N 199 ++ lit "1".

(** The range [1e-100 .. 1e100] of normalised heights for which the
    action is proved not to raise; every height a person can type, in
    metres or centimetres, lies in it. *)
Definition altura_min : float := of_decimal 1 100.
Definition altura_max : float := of_decimal (10 ^ 100) 0.

(** ** Theorems *)

Lemma msg_distinct : msg_no_entendi <> msg_positivos.
Proof. vm_compute. discriminate. Qed.

(** The events of a successful [run] are none, or those of [eventos_imc]. *)
Lemma run_events t o :
  run t = Ok o -> events o = [] \/
  exists peso altura altura',
    parse_number (get_slot t "peso") = Ok (Some peso) /\
    parse_number (get_slot t "altura") = Ok (Some altura) /\
    normalizar_altura altura = Ok altura' /\ eventos_imc peso altura' = Ok (events o).
Proof.
  unfold run. intros Hr.
  destruct (parse_number (get_slot t "peso")) as [pp|e] eqn:Hp; cbn [res_bind] in Hr;
    [|discriminate].
  destruct (parse_number (get_slot t "altura")) as [pa|e] eqn:Ha; cbn [res_bind] in Hr;
    [|discriminate].
  destruct pp as [peso|], pa as [altura|]; try (res_inv; auto; fail).
  destruct (normalizar_altura altura) as [a'|e] eqn:Hn; cbn [res_bind] in Hr; [|discriminate].
  destruct (le peso f_zero || le a' f_zero); [res_inv; auto|].
  destruct (eventos_imc peso a') as [evs|e] eqn:Ev; cbn [res_bind] in Hr; [|discriminate].
  res_inv. right. eauto 8.
Qed.

(** The four events of a computed index: the two floats, then two
    strings. *)
Lemma eventos_imc_Ok peso altura evs :
  eventos_imc peso altura = Ok evs ->
  exists imc interp, evs = [SlotSet "peso" (VFloat peso); SlotSet "altura" (VFloat altura);
                            SlotSet "imc" (VStr imc); SlotSet "interpretacion" (VStr interp)].
Proof.
  unfold eventos_imc. destruct (py_sq altura) as [sq|e]; cbn [res_bind]; [|discriminate].
  destruct (py_div peso sq) as [imc|e]; cbn [res_bind]; [|discriminate].
  intros Hr; res_inv. eauto.
Qed.

(** [eventos_imc] writes the four slots [peso], [altura], [imc] and
    [interpretacion] and nothing else. *)
Lemma eventos_imc_keys peso altura evs :
  eventos_imc peso altura = Ok evs ->
  Forall (fun e => In (event_key e) ["peso"; "altura"; "imc"; "interpretacion"]) evs.
Proof.
  unfold eventos_imc. destruct (py_sq altura) as [sq|e]; cbn [res_bind]; [|discriminate].
  destruct (py_div peso sq) as [imc|e]; cbn [res_bind]; [|discriminate].
  intros Hr; res_inv. repeat constructor; simpl; tauto.
Qed.

(** C7. Success branch: the action returns slots only when both values parse,
    the weight and the (normalised) height pass the [<= 0] tests, and the
    square and the quotient do not raise; then it stores the weight, the
    normalised height, the index with two decimals and the interpretation
    of its band. *)
Theorem run_success t o :
  run t = Ok o -> events o <> [] ->
  exists peso altura altura' sq imc,
    parse_number (get_slot t "peso") = Ok (Some peso) /\
    parse_number (get_slot t "altura") = Ok (Some altura) /\
    normalizar_altura altura = Ok altura' /\
    le peso f_zero = false /\ le altura' f_zero = false /\
    py_sq altura' = Ok sq /\ py_div peso sq = Ok imc /\
    utterances o = [] /\
    events o = [SlotSet "peso" (VFloat peso); SlotSet "altura" (VFloat altura');
                SlotSet "imc" (VStr (format_2f imc));
                SlotSet "interpretacion" (VStr (interpretacion_de (clasificar imc)))].
Proof.
  unfold run. intros Hr Hne.
  destruct (parse_number (get_slot t "peso")) as [pp|e] eqn:Hpp; cbn [res_bind] in Hr;
    [|discriminate].
  destruct (parse_number (get_slot t "altura")) as [pa|e] eqn:Hpa; cbn [res_bind] in Hr;
    [|discriminate].
  destruct pp as [peso|], pa as [altura|];
    try (res_inv; exfalso; apply Hne; reflexivity).
  destruct (normalizar_altura altura) as [altura'|e] eqn:Hn; cbn [res_bind] in Hr;
    [|discriminate].
  destruct (le peso f_zero || le altura' f_zero) eqn:Hle; [res_inv; exfalso; apply Hne; reflexivity|].
  apply orb_false_iff in Hle as [Hp Ha].
  unfold eventos_imc in Hr.
  destruct (py_sq altura') as [sq|e] eqn:Hs; cbn [res_bind] in Hr; [|discriminate].
  destruct (py_div peso sq) as [imc|e] eqn:Hd; cbn [res_bind] in Hr; [|discriminate].
  res_inv. exists peso, altura, altura', sq, imc. repeat split; assumption.
Qed.

(** C9. The "say it again" branch: exactly when a value has no number. *)
Theorem run_clarify t :
  run t = Ok (say msg_no_entendi []) <->
  exists pp pa, parse_number (get_slot t "peso") = Ok pp /\
                parse_number (get_slot t "altura") = Ok pa /\ (pp = None \/ pa = None).
Proof.
  split.
  - unfold run. intros Hr.
    destruct (parse_number (get_slot t "peso")) as [pp|e]; cbn [res_bind] in Hr; [|discriminate].
    destruct (parse_number (get_slot t "altura")) as [pa|e]; cbn [res_bind] in Hr; [|discriminate].
    exists pp, pa. do 2 (split; [reflexivity|]).
    destruct pp as [peso|]; [|auto]. destruct pa as [altura|]; [|auto].
    exfalso. destruct (normalizar_altura altura) as [a'|e]; cbn [res_bind] in Hr; [|discriminate].
    destruct (le peso f_zero || le a' f_zero).
    + apply (f_equal (fun x => match x with Ok o => hd [] (utterances o) | Raise _ => [] end)) in Hr.
      cbn [utterances hd say] in Hr. apply msg_distinct. symmetry. exact Hr.
    + unfold eventos_imc in Hr.
      destruct (py_sq a'); cbn [res_bind] in Hr; [|discriminate].
      destruct (py_div peso _); cbn [res_bind] in Hr; [|discriminate].
      discriminate.
  - intros (pp & pa & Hp & Ha & Hn). unfold run. rewrite Hp, Ha. cbn [res_bind].
    destruct Hn as [-> | ->]; [reflexivity|]. destruct pp; reflexivity.
Qed.

(** C25. A weight written with a minus sign (or any prefix without digits) is
    read as the number after it: the action computes the index of a
    negative weight as if it were positive, and the message "Los valores
    deben ser positivos." is reached only by a zero. *)
Theorem run_ignores_sign (slots0 : gmap string pyval) i (p s : pystr) :
  Forall nondigit p ->
  run {| slots := <["peso" := VStr (p ++ s)]> slots0; latest_intent := i |}
  = run {| slots := <["peso" := VStr s]> slots0; latest_intent := i |}.
Proof.
  intros Hp. unfold run, get_slot. cbn [slots].
  rewrite !lookup_insert_eq. cbn [default id].
  rewrite parse_number_skip_prefix by exact Hp.
  rewrite !lookup_insert_ne by discriminate. reflexivity.
Qed.

Lemma normalizar_altura_Ok altura : exists a', normalizar_altura altura = Ok a'.
Proof. unfold normalizar_altura, py_div. destruct (gt altura f_three); eauto. Qed.

Lemma normalizar_altura_wf altura altura' :
  float_wf altura -> normalizar_altura altura = Ok altura' -> float_wf altura'.
Proof.
  unfold normalizar_altura. destruct (gt altura f_three); [intros _; apply py_div_wf|].
  intros H E; res_inv; exact H.
Qed.

Lemma altura_bounds_exp altura' :
  le altura_min altura' = true -> le altura' altura_max = true ->
  exists m e, altura' = S754_finite false m e /\ (-385 <= e <= 280)%Z.
Proof.
  replace altura_min with (S754_finite false 7880401239278896 (-385)) by (vm_compute; reflexivity).
  replace altura_max with (S754_finite false 5147557589468029 280) by (vm_compute; reflexivity).
  apply le_between.
Qed.

(** Case analysis on the binds of [run], keeping their equations. *)
Ltac destr_bind H :=
  match type of H with
  | context [res_bind ?c _] =>
      let E := fresh "E" in destruct c eqn:E; cbn [res_bind] in H
  end.

(** C11. A [ZeroDivisionError] leaves the action exactly when the normalised
    height passes the [<= 0] test but its square underflows to zero: a
    height such as 1e-200 (typed as a decimal) crashes the action. *)
Theorem run_zero_division t :
  run t = Raise ZeroDivisionError <->
  exists peso altura altura' sq,
    parse_number (get_slot t "peso") = Ok (Some peso) /\
    parse_number (get_slot t "altura") = Ok (Some altura) /\
    normalizar_altura altura = Ok altura' /\
    le peso f_zero = false /\ le altura' f_zero = false /\
    py_sq altura' = Ok sq /\ is_zero sq = true.
Proof.
  split.
  2: { intros (peso & altura & a' & sq & Hp & Ha & Hn & Hlp & Hla & Hs & Hz).
       unfold run. rewrite Hp, Ha. cbn [res_bind]. rewrite Hn. cbn [res_bind].
       rewrite Hlp, Hla. cbn [orb]. unfold eventos_imc. rewrite Hs. cbn [res_bind].
       unfold py_div. rewrite Hz. reflexivity. }
  unfold run. intros Hr.
  destr_bind Hr; [|match goal with E : parse_number _ = Raise _ |- _ =>
                     apply parse_number_raises in E as [-> _]; discriminate end].
  destr_bind Hr; [|match goal with E : parse_number _ = Raise _ |- _ =>
                     apply parse_number_raises in E as [-> _]; discriminate end].
  match goal with _ : parse_number _ = Ok ?pp, _ : parse_number _ = Ok ?pa |- _ =>
    destruct pp as [peso|]; [|discriminate]; destruct pa as [altura|]; [|discriminate] end.
  destruct (normalizar_altura_Ok altura) as [a' Hn]. rewrite Hn in Hr. cbn [res_bind] in Hr.
  destruct (le peso f_zero || le a' f_zero) eqn:Hle; [discriminate|].
  apply orb_false_iff in Hle as [Hp Ha].
  destruct (eventos_imc peso a') as [evs|e] eqn:Ev; cbn [res_bind] in Hr; [discriminate|].
  res_inv. unfold eventos_imc in Ev.
  destruct (py_sq a') as [sq|e'] eqn:Es; cbn [res_bind] in Ev;
    [|apply py_sq_raises in Es; subst; discriminate].
  unfold py_div in Ev. destruct (is_zero sq) eqn:Hz; [|discriminate].
  eauto 12.
Qed.

(** C32. A NaN height (a [float] slot holding [nan]) passes both [<= 0]
    tests, since every comparison with NaN is false: whatever the
    tracker and the positive weight, the action stores the index "nan" in
    the "high" band instead of refusing the height. *)
Theorem run_nan_alto t peso :
  parse_number (get_slot t "peso") = Ok (Some peso) -> le peso f_zero = false ->
  get_slot t "altura" = VFloat S754_nan ->
  run t = Ok {| utterances := [];
                events := [SlotSet "peso" (VFloat peso); SlotSet "altura" (VFloat S754_nan);
                           SlotSet "imc" (VStr (lit "nan"));
                           SlotSet "interpretacion" (VStr interp_alto)] |}.
Proof.
  intros Hp Hle Ha. unfold run. rewrite Hp, Ha. cbn [res_bind parse_number].
  replace (normalizar_altura S754_nan) with (Ok (S754_nan : float)) by (vm_compute; reflexivity).
  cbn [res_bind]. rewrite Hle.
  replace (le S754_nan f_zero) with false by (vm_compute; reflexivity).
  cbn [orb]. unfold eventos_imc. cbn [py_sq res_bind py_div is_zero].
  replace (SFdiv prec emax peso S754_nan) with S754_nan by (destruct peso; reflexivity).
  reflexivity.
Qed.


(** With a binary64 height slot, a normalised height between
    1e-100 and 1e100 never makes the action raise: its square neither
    overflows nor underflows to zero, and the division by it does not
    raise; the action always answers. *)
Lemma run_total_in_range t peso altura altura' :
  pyval_wf (get_slot t "altura") ->
  parse_number (get_slot t "peso") = Ok (Some peso) ->
  parse_number (get_slot t "altura") = Ok (Some altura) ->
  normalizar_altura altura = Ok altura' ->
  le altura_min altura' = true -> le altura' altura_max = true ->
  exists o, run t = Ok o.
Proof.
  intros Hwf Hp Ha Hn Hlo Hhi.
  pose proof (normalizar_altura_wf altura altura' (parse_number_wf _ _ Hwf Ha) Hn) as Hw.
  destruct (altura_bounds_exp altura' Hlo Hhi) as (m & e & -> & He).
  destruct (py_sq_finite false m e Hw ltac:(lia)) as (m' & e' & Hsq).
  unfold run. rewrite Hp, Ha. cbn [res_bind]. rewrite Hn. cbn [res_bind].
  destruct (le peso f_zero || le _ f_zero); [eauto|].
  unfold eventos_imc. rewrite Hsq. cbn [res_bind py_div is_zero]. eauto.
Qed.

(** C18. The bands are monotone (specification, section 8): a larger
    index never falls in a lower band. *)
Theorem clasificar_monotone (x y : float) :
  le x y = true -> banda_rank (clasificar x) <= banda_rank (clasificar y).
Proof.
  intros Hxy. unfold clasificar.
  destruct (lt y f_18_5) eqn:Hy1.
  { rewrite (le_lt_trans x y f_18_5 Hxy Hy1). cbn. lia. }
  destruct (lt x f_18_5); [cbn; destruct (lt y f_25); cbn; lia|].
  destruct (lt y f_25) eqn:Hy2.
  { rewrite (le_lt_trans x y f_25 Hxy Hy2). cbn. lia. }
  destruct (lt x f_25); cbn; lia.
Qed.

(** ** Witnesses *)

Lemma run_success_witness :
  exists peso altura altura' sq imc,
    parse_number (VStr (lit "58")) = Ok (Some peso) /\
    parse_number (VStr (lit "1.64")) = Ok (Some altura) /\
    normalizar_altura altura = Ok altura' /\
    le peso f_zero = false /\ le altura' f_zero = false /\
    py_sq altura' = Ok sq /\ py_div peso sq = Ok imc /\
    utterances (match run (t_imc (VStr (lit "58")) (VStr (lit "1.64"))) with
                | Ok o => o | Raise _ => say [] [] end) = [] /\
    events (match run (t_imc (VStr (lit "58")) (VStr (lit "1.64"))) with
            | Ok o => o | Raise _ => say [] [] end)
    = [SlotSet "peso" (VFloat peso); SlotSet "altura" (VFloat altura');
       SlotSet "imc" (VStr (format_2f imc));
       SlotSet "interpretacion" (VStr (interpretacion_de (clasificar imc)))].
Proof.
  apply (run_success (t_imc (VStr (lit "58")) (VStr (lit "1.64")))).
  - vm_compute. reflexivity.
  - vm_compute. discriminate.
Defined.

Lemma run_zero_division_witness :
  exists peso altura altura' sq,
    parse_number (VStr (lit "58")) = Ok (Some peso) /\
    parse_number (VStr altura_diminuta) = Ok (Some altura) /\
    normalizar_altura altura = Ok altura' /\
    le peso f_zero = false /\ le altura' f_zero = false /\
    py_sq altura' = Ok sq /\ is_zero sq = true.
Proof.
  apply (proj1 (run_zero_division (t_imc (VStr (lit "58")) (VStr altura_diminuta)))).
  vm_compute. reflexivity.
Defined.

Lemma run_ignores_sign_witness :
  run {| slots := <["peso" := VStr (lit "-" ++ lit "58")]> (<["altura" := VStr (lit "1.64")]> ∅);
         latest_intent := None |}
  = run {| slots := <["peso" := VStr (lit "58")]> (<["altura" := VStr (lit "1.64")]> ∅);
           latest_intent := None |}.
Proof. apply run_ignores_sign. apply (bool_decide_unpack _). vm_compute. reflexivity. Defined.

Lemma clasificar_monotone_witness :
  (banda_rank (clasificar (of_decimal 2499 2)) <= banda_rank (clasificar f_25))%nat.
Proof. apply clasificar_monotone. vm_compute. reflexivity. Defined.

Lemma run_nan_alto_witness :
  run (t_imc (VStr (lit "58")) (VFloat S754_nan))
  = Ok {| utterances := [];
          events := [SlotSet "peso" (VFloat (of_decimal 58 0)); SlotSet "altura" (VFloat S754_nan);
                     SlotSet "imc" (VStr (lit "nan"));
                     SlotSet "interpretacion" (VStr interp_alto)] |}.
Proof. apply run_nan_alto; vm_compute; reflexivity. Defined.


End ActionCalcularIMC.
