(* ===== verification/Conversation.v ===== *)
(** * A conversation: the dispatcher's loop over the three actions

    Rasa runs one action per turn against the conversation's tracker and
    applies the returned events; between turns the user's message sets the
    latest intent and the slots that the language understanding fills from
    entities.  [step] is that loop as a transition relation on
    [(tracker, random state)]; an action that raises leaves the tracker
    unchanged (the engine applies no event of a failed action).

    The slots the user's messages can fill are [peso], [altura], [nombre]
    and [tiempo_comida]; [plato_recomendado], [plato_confirmado], [imc] and
    [interpretacion] are written by the actions only.  (The Rasa domain
    file that declares this is not under [src/]; it is an assumption of the
    model.)

    Theorems: every reachable [plato_recomendado] is a line of one of the
    dish files ([reachable_plato_in_file], by induction on the reachability
    relation); no step clears [plato_confirmado], so once a dish is
    confirmed the flag stays set in every later state and no later
    proposal reads as unconfirmed ([confirmado_persiste]); and a state
    where the flag is set with no dish ever proposed is reachable.  For
    every meal time written with an accented vowel, a rejection answers
    that it cannot tell the menu ([normalizacion_divergente]).  Every reachable tracker is well
    typed ([reachable_typed]): floats are binary64 numbers, the index, its
    interpretation and the dish are strings, the flag is [True]; with it,
    a height between 1e-100 and 1e100 never makes the BMI action raise
    ([reachable_imc_total]).  A user's fill carries a JSON value
    ([pyval_wf]).

    The dispatcher finds an action by the string its [name()] returns
    ([accion_de_nombre]).  The specification's recommendation cycle is the
    abstract relation [paso_abstracto] on phases (waiting for a meal time,
    a dish proposed, a dish confirmed), labelled by the action and the
    user's latest intent; [fase_de] reads the phase from the two dish
    slots.  As long as no dish has been confirmed, every dish action that
    returns either writes no dish and keeps the phase, or makes one
    abstract step with its label ([accion_simula]); a message-only answer
    (asking again, an exhausted file, an unknown meal time) is a stutter
    that writes nothing.
    The cycle can always be completed: from any state, a meal time with a
    readable non-empty dish file, the proposal, an "afirmar" and the
    confirmation reach [Confirmado] of a dish of that file
    ([ciclo_completable], under [RandomSourceOk]). *)

From Stdlib Require Import String.
From stdpp Require Import base list gmap strings relations.
From Stdlib Require Import NArith.
From S2P Require Import Prelude PyStr PyFloat FloatRound PyValue ParseNumber RandomSource Rasa Catalog ActionRecomendar ActionConfirmacion ActionImc.
Import Catalog ParseNumber.

Module Conversation.

Inductive accion := CalcularIMC | RecomendarPlato | ManejarConfirmacion.

(** The name each action class gives the engine ([name()]). *)
Definition nombre_accion (a : accion) : string :=
  match a with
  | CalcularIMC => ActionCalcularIMC.name
  | RecomendarPlato => ActionRecomendarPlato.name
  | ManejarConfirmacion => ActionManejarConfirmacionPlato.name
  end.

(** The action server's registry: the engine asks for an action by name
    and the first registered action with that name runs. *)
Definition acciones : list accion := [CalcularIMC; RecomendarPlato; ManejarConfirmacion].

Definition accion_de_nombre (n : string) : option accion :=
  List.find (fun a => String.eqb (nombre_accion a) n) acciones.

(** The slots filled from the user's message. *)
Definition nlu_slots : list string := ["peso"; "altura"; "nombre"; "tiempo_comida"].

Definition intent (s : string) : option pystr := Some (lit s).

(** The slot types: every value is a JSON value (its float a binary64
    number); [imc], [interpretacion] and [plato_recomendado] hold strings
    and [plato_confirmado] holds [True]. *)
Definition slot_typed (k : string) (v : pyval) : Prop :=
  pyval_wf v /\
  ((k = "imc" \/ k = "interpretacion" \/ k = "plato_recomendado") -> exists s, v = VStr s) /\
  (k = "plato_confirmado" -> v = VBool true).

Definition event_typed (e : event) : Prop := match e with SlotSet k v => slot_typed k v end.

Definition tracker_typed (t : tracker) : Prop := map_Forall slot_typed (slots t).

Section Loop.
Context (fs : files) {R : Type} `{RandomSource R}.

Record state := { tr : tracker; rng : R }.

Definition run_action (a : accion) (t : tracker) (r : R) : res (outcome * R) :=
  match a with
  | CalcularIMC => res_map (fun o => (o, r)) (ActionCalcularIMC.run t)
  | RecomendarPlato => ActionRecomendarPlato.run fs t r
  | ManejarConfirmacion => ActionManejarConfirmacionPlato.run fs t r
  end.

Inductive step : state -> state -> Prop :=
  | step_intent s i :
      step s {| tr := {| slots := slots (tr s); latest_intent := i |}; rng := rng s |}
  | step_fill s k v :
      In k nlu_slots -> pyval_wf v ->
      step s {| tr := {| slots := <[k := v]> (slots (tr s));
                        latest_intent := latest_intent (tr s) |};
                rng := rng s |}
  | step_action s a o r' :
      run_action a (tr s) (rng s) = Ok (o, r') ->
      step s {| tr := apply_events (tr s) (events o); rng := r' |}
  | step_action_raise s a e :
      run_action a (tr s) (rng s) = Raise e ->
      step s s.

(** One turn of the engine as a function: run the action and apply its
    events, or keep the state when it raises. *)
Definition next (a : accion) (s : state) : state :=
  match run_action a (tr s) (rng s) with
  | Ok (o, r') => {| tr := apply_events (tr s) (events o); rng := r' |}
  | Raise _ => s
  end.

Definition set_intent (i : option pystr) (s : state) : state :=
  {| tr := {| slots := slots (tr s); latest_intent := i |}; rng := rng s |}.

Definition fill (k : string) (v : pyval) (s : state) : state :=
  {| tr := {| slots := <[k := v]> (slots (tr s)); latest_intent := latest_intent (tr s) |};
     rng := rng s |}.

Definition init (r : R) : state :=
  {| tr := {| slots := ∅; latest_intent := None |}; rng := r |}.

Definition reachable (r0 : R) (s : state) : Prop := rtc step (init r0) s.

(** The invariant: the proposed dish, when set, is a string read from one
    of the dish files. *)
Definition plato_ok (v : pyval) : Prop :=
  v = VNone \/
  exists p archivo platos, v = VStr p /\ load_platos fs archivo = Ok platos /\ In p platos.

End Loop.

(** ** Example conversations *)

(** "cena" is filled, a dish is proposed, the user says "afirmar", the
    confirmation sets the flag, a second dish is proposed. *)
Definition conversacion_ejemplo : @state (list nat) :=
  next fs_ejemplo RecomendarPlato
    (next fs_ejemplo ManejarConfirmacion
       (set_intent (intent "afirmar")
          (next fs_ejemplo RecomendarPlato
             (fill "tiempo_comida" (VStr (lit "cena")) (init [0; 1]))))).

(** The meal time "Cená" is filled and a dish is proposed, then the user
    says "negar". *)
Definition conversacion_cena_acento : @state (list nat) :=
  set_intent (intent "negar")
    (next fs_ejemplo RecomendarPlato
       (fill "tiempo_comida" (VStr (lit "Cená")) (init [0; 0]))).

(** The user gives the weight "58 kg" and the height "1.64". *)
Definition conversacion_imc : @state (list nat) :=
  fill "altura" (VStr (lit "1.64")) (fill "peso" (VStr (lit "58 kg")) (init [])).

(** ** The recommendation cycle of the specification (section 4.4)

    Its phases: no proposal yet, a dish proposed, a dish confirmed.  A
    step is labelled by the action run and the user's latest intent.
    Proposing picks a dish of a file from any phase but [Confirmado],
    whatever the intent; accepting ("afirmar") confirms the proposed dish;
    rejecting ("negar") proposes a dish of a file other than the last
    one.  [pa_rechazar_inicio] is the code's "negar" before any proposal,
    which proposes a dish (the specification's machine has no such
    transition; see the findings). *)
Inductive fase := EsperandoTiempo | Propuesto (p : pystr) | Confirmado (p : pystr).

Definition en_catalogo (fs : files) (p : pystr) : Prop :=
  exists archivo platos, load_platos fs archivo = Ok platos /\ In p platos.

Inductive paso_abstracto (fs : files) : accion -> option pystr -> fase -> fase -> Prop :=
  | pa_proponer i f p :
      (forall q, f <> Confirmado q) -> en_catalogo fs p ->
      paso_abstracto fs RecomendarPlato i f (Propuesto p)
  | pa_aceptar p :
      paso_abstracto fs ManejarConfirmacion (intent "afirmar") (Propuesto p) (Confirmado p)
  | pa_rechazar q p :
      p <> q -> en_catalogo fs p ->
      paso_abstracto fs ManejarConfirmacion (intent "negar") (Propuesto q) (Propuesto p)
  | pa_rechazar_inicio p :
      en_catalogo fs p ->
      paso_abstracto fs ManejarConfirmacion (intent "negar") EsperandoTiempo (Propuesto p).

(** The phase a tracker is in, read from its two slots. *)
Definition fase_de (t : tracker) : fase :=
  match get_slot t "plato_recomendado" with
  | VStr p => if bool_decide (get_slot t "plato_confirmado" = VBool true)
              then Confirmado p else Propuesto p
  | _ => EsperandoTiempo
  end.

(** The user says "afirmar" after a dinner dish was proposed. *)
Definition conversacion_afirmar : @state (list nat) :=
  set_intent (intent "afirmar")
    (next fs_ejemplo RecomendarPlato
       (fill "tiempo_comida" (VStr (lit "cena")) (init [0; 1]))).

Section Invariant.
Context (fs : files) {R : Type} `{RandomSource R}.

Local Abbreviation run_action := (run_action fs (R := R)).
Local Abbreviation step := (step fs (R := R)).
Local Abbreviation next := (next fs (R := R)).
Local Abbreviation reachable := (reachable fs (R := R)).
Local Abbreviation plato_ok := (plato_ok fs).

Lemma step_next a s : step s (next a s).
Proof.
  unfold next. destruct (run_action a (tr s) (rng s)) as [[o r']|e] eqn:E.
  - eapply step_action. exact E.
  - eapply step_action_raise. exact E.
Qed.

Lemma step_set_intent i s : step s (set_intent i s).
Proof. apply step_intent. Qed.

Lemma step_fill_nlu k v s : In k nlu_slots -> pyval_wf v -> step s (fill k v s).
Proof. apply step_fill. Qed.

(** ** What each action writes *)

Lemma imc_events_keys t o :
  ActionCalcularIMC.run t = Ok o ->
  Forall (fun e => event_key e <> "plato_recomendado" /\ event_key e <> "plato_confirmado")
         (events o).
Proof.
  intros Hr. destruct (ActionCalcularIMC.run_events t o Hr) as [-> | (p & a & a' & _ & _ & _ & He)];
    [constructor|].
  eapply Forall_impl; [exact (ActionCalcularIMC.eventos_imc_keys _ _ _ He)|].
  simpl. intros e Hk. split; intros E; rewrite E in Hk; intuition discriminate.
Qed.

Lemma recomendar_events t r o r' :
  ActionRecomendarPlato.run fs t r = Ok (o, r') ->
  events o = [] \/
  exists p archivo platos, load_platos fs archivo = Ok platos /\ In p platos /\
    events o = [SlotSet "plato_recomendado" (VStr p)].
Proof.
  intros Hr. apply ActionRecomendarPlato.run_sound in Hr.
  inversion Hr; subst; simpl; eauto 8.
Qed.

Lemma confirmacion_events t r o r' :
  ActionManejarConfirmacionPlato.run fs t r = Ok (o, r') ->
  events o = [] \/
  latest_intent t = intent "afirmar" /\ events o = [SlotSet "plato_confirmado" (VBool true)] \/
  latest_intent t = intent "negar" /\
  exists p archivo platos, load_platos fs archivo = Ok platos /\ In p platos /\
    VStr p <> get_slot t "plato_recomendado" /\
    events o = [SlotSet "plato_recomendado" (VStr p)].
Proof.
  intros Hr. apply ActionManejarConfirmacionPlato.run_Ok_spec in Hr.
  inversion Hr; subst; simpl; eauto 14.
Qed.

Lemma plato_ok_step_action a t r o r' :
  run_action a t r = Ok (o, r') ->
  plato_ok (get_slot t "plato_recomendado") ->
  plato_ok (get_slot (apply_events t (events o)) "plato_recomendado").
Proof.
  intros Hr Hok. destruct a; simpl in Hr.
  - destruct (ActionCalcularIMC.run t) as [o'|e] eqn:E; simpl in Hr; res_inv.
    apply imc_events_keys in E.
    rewrite get_slot_apply_events_other; [exact Hok|].
    eapply Forall_impl; [exact E|]. intros e [? ?]. assumption.
  - destruct (recomendar_events t r o r' Hr) as [-> | (p & archivo & platos & Hl & Hin & ->)];
      [exact Hok|].
    right. rewrite apply_events_one, get_slot_apply_same. exists p, archivo, platos; auto.
  - destruct (confirmacion_events t r o r' Hr)
      as [-> | [[_ ->] | [_ (p & archivo & platos & Hl & Hin & _ & ->)]]]; [exact Hok| |].
    + rewrite apply_events_one, get_slot_apply_other by discriminate. exact Hok.
    + right. rewrite apply_events_one, get_slot_apply_same. exists p, archivo, platos; auto.
Qed.

Lemma plato_ok_step s s' :
  step s s' -> plato_ok (get_slot (tr s) "plato_recomendado") ->
  plato_ok (get_slot (tr s') "plato_recomendado").
Proof.
  intros Hs Hok. inversion Hs as [s0 i | s0 k v Hk | s0 a o r' Hr | s0 a e Hr]; subst.
  - exact Hok.
  - unfold get_slot in *. cbn [tr slots]. rewrite lookup_insert_ne; [exact Hok|].
    intros ->. unfold nlu_slots in Hk. simpl in Hk. intuition discriminate.
  - eapply plato_ok_step_action; eauto.
  - exact Hok.
Qed.

(** Induction on reachability: a property of the tracker that holds at
    the start and that every step preserves holds in every reachable
    state. *)
Lemma reachable_inv (P : tracker -> Prop) r0 s :
  P (tr (init r0)) -> (forall s s', step s s' -> P (tr s) -> P (tr s')) ->
  reachable r0 s -> P (tr s).
Proof.
  intros H0 Hstep Hr. unfold reachable in Hr. revert H0.
  induction Hr as [|x y z Hxy _ IH]; intros Hx; [exact Hx|]. apply IH. eauto.
Qed.

(** ** Slot types *)

Lemma tracker_typed_get t k : tracker_typed t -> pyval_wf (get_slot t k).
Proof.
  unfold get_slot. intros Ht. destruct (slots t !! k) as [v|] eqn:E; [|exact I].
  exact (proj1 (Ht k v E)).
Qed.

Lemma apply_events_typed t evs :
  tracker_typed t -> Forall event_typed evs -> tracker_typed (apply_events t evs).
Proof.
  revert t. induction evs as [|[k v] evs IH]; intros t Ht Hevs; [exact Ht|].
  inversion Hevs as [|? ? He Hrest]; subst. apply IH; [|exact Hrest].
  apply map_Forall_insert_2; assumption.
Qed.

(** Discharges [slot_typed] for a literal key. *)
Ltac solve_slot_typed :=
  split; [try exact I; assumption | split; intros Hk; repeat destruct Hk as [Hk|Hk];
    first [discriminate | eauto]].

Lemma run_action_typed a t r o r' :
  tracker_typed t -> run_action a t r = Ok (o, r') -> Forall event_typed (events o).
Proof.
  intros Ht Hr. destruct a; cbn in Hr.
  - destruct (ActionCalcularIMC.run t) as [o'|e] eqn:E; cbn in Hr; res_inv.
    destruct (ActionCalcularIMC.run_events t o E)
      as [-> | (peso & altura & altura' & Hp & Ha & Hn & He)]; [constructor|].
    apply ActionCalcularIMC.eventos_imc_Ok in He as (imc & interp & ->).
    pose proof (ParseNumber.parse_number_wf _ _ (tracker_typed_get t "peso" Ht) Hp).
    pose proof (ActionCalcularIMC.normalizar_altura_wf _ _
                  (ParseNumber.parse_number_wf _ _ (tracker_typed_get t "altura" Ht) Ha) Hn).
    repeat (apply List.Forall_cons; [solve_slot_typed|]); apply List.Forall_nil.
  - destruct (recomendar_events t r o r' Hr) as [-> | (p & _ & _ & _ & _ & ->)];
      repeat (apply List.Forall_cons; [solve_slot_typed|]); apply List.Forall_nil.
  - destruct (confirmacion_events t r o r' Hr)
      as [-> | [[_ ->] | [_ (p & _ & _ & _ & _ & _ & ->)]]]; repeat (apply List.Forall_cons; [solve_slot_typed|]); apply List.Forall_nil.
Qed.

Lemma step_typed s s' : step s s' -> tracker_typed (tr s) -> tracker_typed (tr s').
Proof.
  intros Hs Ht. inversion Hs as [s0 i | s0 k v Hk Hv | s0 a o r' Hr | s0 a e Hr]; subst.
  - exact Ht.
  - apply map_Forall_insert_2; [|exact Ht].
    unfold nlu_slots in Hk. split; [exact Hv|].
    split; intros Hk'; repeat destruct Hk as [<-|Hk]; try contradiction;
      repeat destruct Hk' as [Hk'|Hk']; discriminate.
  - apply apply_events_typed; [exact Ht|]. eapply run_action_typed; eauto.
  - exact Ht.
Qed.

Lemma init_typed (r0 : R) : tracker_typed (tr (init r0)).
Proof. apply map_Forall_empty. Qed.

(** ** Simulation of the recommendation cycle *)

Lemma fase_de_other t evs :
  Forall (fun e => event_key e <> "plato_recomendado" /\ event_key e <> "plato_confirmado") evs ->
  fase_de (apply_events t evs) = fase_de t.
Proof.
  intros Hk. unfold fase_de.
  rewrite !get_slot_apply_events_other; [reflexivity| |];
    (eapply Forall_impl; [exact Hk|]); intros e [? ?]; assumption.
Qed.

Lemma fase_de_propuesto t p :
  get_slot t "plato_confirmado" <> VBool true ->
  fase_de (apply_events t [SlotSet "plato_recomendado" (VStr p)]) = Propuesto p.
Proof.
  intros Hc. unfold fase_de. rewrite apply_events_one, get_slot_apply_same.
  rewrite get_slot_apply_other by discriminate. rewrite bool_decide_eq_false_2 by exact Hc.
  reflexivity.
Qed.


(** ** Completing the cycle from any state *)

Lemma recomendar_propone `{!RandomSourceOk R} t r archivo platos :
  truthy (get_slot t "tiempo_comida") = true ->
  archivos_get (normalizar_recomendar (get_slot t "tiempo_comida")) = Some archivo ->
  load_platos fs archivo = Ok platos -> platos <> [] ->
  exists plato o r', In plato platos /\ run_action RecomendarPlato t r = Ok (o, r') /\
    events o = [SlotSet "plato_recomendado" (VStr plato)].
Proof.
  intros Ht Ea El Hne. destruct (ActionRecomendarPlato.run_total fs t r) as (o & r' & Hr).
  pose proof (ActionRecomendarPlato.run_sound fs t r o r' Hr) as Hs.
  inversion Hs as [H1|H1 H2|a e H1 H2 H3|a H1 H2 H3|a ps plato H1 H2 H3 Hin]; subst;
    try congruence.
  rewrite Ea in H2. injection H2 as <-. rewrite El in H3. injection H3 as <-.
  exists plato. do 2 eexists. split; [exact Hin | split; [exact Hr | reflexivity]].
Qed.

Lemma run_afirmar t r :
  latest_intent t = intent "afirmar" ->
  exists o, run_action ManejarConfirmacion t r = Ok (o, r) /\
    events o = [SlotSet "plato_confirmado" (VBool true)].
Proof.
  intros Hi. cbn [Conversation.run_action]. unfold ActionManejarConfirmacionPlato.run.
  rewrite Hi, bool_decide_true by reflexivity. eexists. split; reflexivity.
Qed.

Lemma fase_de_confirmado t p :
  get_slot t "plato_recomendado" = VStr p ->
  fase_de (apply_events t [SlotSet "plato_confirmado" (VBool true)]) = Confirmado p.
Proof.
  intros Hp. unfold fase_de. rewrite apply_events_one, get_slot_apply_other by discriminate.
  rewrite Hp, get_slot_apply_same, bool_decide_true by reflexivity. reflexivity.
Qed.

(** C1. Every dish the conversation holds as [plato_recomendado] is a line of
    one of the dish files, whatever the user says and whatever the actions
    return or raise. *)
Theorem reachable_plato_in_file r0 s :
  reachable r0 s -> plato_ok (get_slot (tr s) "plato_recomendado").
Proof.
  apply (reachable_inv (fun t => plato_ok (get_slot t "plato_recomendado")));
    [left; reflexivity | apply plato_ok_step].
Qed.

(** C4. Refinement of the specification's recommendation cycle, action by
    action: as long as no dish has been confirmed, a dish action that
    returns either writes no dish (and leaves the phase as it was), or its
    events are one step of the cycle labelled by the action and the
    user's latest intent: a proposal from a dish file; "afirmar" confirming
    the dish proposed; "negar" proposing a dish of a file other than the
    last one.  Once [plato_confirmado] is set the code leaves the cycle: a
    new proposal reads as confirmed. *)
Theorem accion_simula a t r o r' :
  run_action a t r = Ok (o, r') -> get_slot t "plato_confirmado" <> VBool true ->
  (fase_de (apply_events t (events o)) = fase_de t /\
   Forall (fun e => event_key e <> "plato_recomendado") (events o)) \/
  paso_abstracto fs a (latest_intent t) (fase_de t) (fase_de (apply_events t (events o))).
Proof.
  intros Hr Hc. destruct a; cbn in Hr.
  - destruct (ActionCalcularIMC.run t) as [o'|e] eqn:E; cbn in Hr; res_inv.
    apply imc_events_keys in E. left. split; [apply fase_de_other, E|].
    eapply Forall_impl; [exact E|]. intros e [? ?]. assumption.
  - destruct (recomendar_events t r o r' Hr) as [-> | (p & archivo & platos & Hl & Hin & ->)];
      [left; split; [reflexivity | constructor]|].
    right. rewrite fase_de_propuesto by exact Hc. constructor; [|exists archivo, platos; auto].
    intros q. unfold fase_de. destruct (get_slot t "plato_recomendado"); try discriminate.
    rewrite bool_decide_eq_false_2 by exact Hc. discriminate.
  - destruct (confirmacion_events t r o r' Hr)
      as [-> | [[Hi ->] | [Hi (p & archivo & platos & Hl & Hin & Hne & ->)]]];
      [left; split; [reflexivity | constructor]| |].
    + unfold fase_de. rewrite apply_events_one, get_slot_apply_other, get_slot_apply_same
        by discriminate.
      destruct (get_slot t "plato_recomendado") as [| | | |q];
        try (left; split; [reflexivity | repeat constructor; discriminate]).
      right. rewrite Hi, bool_decide_eq_false_2 by exact Hc. cbn. constructor.
    + right. rewrite Hi, fase_de_propuesto by exact Hc. unfold fase_de at 1.
      destruct (get_slot t "plato_recomendado") as [| | | |q] eqn:Eq;
        try (apply pa_rechazar_inicio; exists archivo, platos; auto).
      rewrite bool_decide_eq_false_2 by exact Hc.
      apply pa_rechazar; [congruence | exists archivo, platos; auto].
Qed.

(** C6. Slot types: in every reachable state every slot value is a JSON
    value whose float is a binary64 number, the index, its interpretation
    and the proposed dish are strings, and the confirmation flag is
    [True]; the actions and the user's messages never store anything
    else. *)
Theorem reachable_typed r0 s : reachable r0 s -> tracker_typed (tr s).
Proof. apply (reachable_inv tracker_typed); [apply init_typed | apply step_typed]. Qed.

(** C8. Bounds, in a conversation: in every reachable state whose weight
    and height have a number, a normalised height between 1e-100 and 1e100
    never makes [ActionCalcularIMC] raise. *)
Theorem reachable_imc_total r0 s peso altura altura' :
  reachable r0 s ->
  parse_number (get_slot (tr s) "peso") = Ok (Some peso) ->
  parse_number (get_slot (tr s) "altura") = Ok (Some altura) ->
  ActionCalcularIMC.normalizar_altura altura = Ok altura' ->
  le ActionCalcularIMC.altura_min altura' = true ->
  le altura' ActionCalcularIMC.altura_max = true ->
  exists o r', run_action CalcularIMC (tr s) (rng s) = Ok (o, r').
Proof.
  intros Hr Hp Ha Hn Hlo Hhi.
  assert (Ht : tracker_typed (tr s))
    by (revert Hr; apply (reachable_inv tracker_typed); [apply init_typed | apply step_typed]).
  destruct (ActionCalcularIMC.run_total_in_range (tr s) peso altura altura'
              (tracker_typed_get _ _ Ht) Hp Ha Hn Hlo Hhi) as [o Ho].
  exists o, (rng s). cbn. rewrite Ho. reflexivity.
Qed.

(** C5. Liveness of the recommendation cycle: from any state of a
    conversation, whatever happened before (errors, rejections, an earlier
    confirmation), the user can always get a dish confirmed.  Naming a
    meal time of the table whose dish file reads and is non-empty, letting
    the engine run the proposal, saying "afirmar" and letting it run the
    confirmation reaches a state whose phase is [Confirmado] of a dish of
    that file. *)
Theorem ciclo_completable `{!RandomSourceOk R} s tiempo archivo platos :
  archivos_get (normalizar_recomendar (VStr tiempo)) = Some archivo ->
  load_platos fs archivo = Ok platos -> platos <> [] ->
  exists s' plato, rtc step s s' /\ In plato platos /\ fase_de (tr s') = Confirmado plato.
Proof.
  intros Ea El Hne.
  set (s1 := fill "tiempo_comida" (VStr tiempo) s).
  assert (Hg : get_slot (tr s1) "tiempo_comida" = VStr tiempo)
    by (unfold get_slot; cbn; rewrite lookup_insert_eq; reflexivity).
  assert (Ht : truthy (VStr tiempo) = true)
    by (destruct tiempo; [vm_compute in Ea; discriminate | reflexivity]).
  destruct (recomendar_propone (tr s1) (rng s1) archivo platos) as (plato & o & r' & Hin & Hr & Ho);
    [rewrite ?Hg; assumption .. |].
  set (s2 := {| tr := apply_events (tr s1) (events o); rng := r' |}).
  destruct (run_afirmar (tr (set_intent (intent "afirmar") s2)) r') as (o' & Hr' & Ho');
    [reflexivity|].
  exists {| tr := apply_events (tr (set_intent (intent "afirmar") s2)) (events o'); rng := r' |}, plato.
  split; [|split; [exact Hin|]].
  - eapply rtc_l; [apply (step_fill_nlu "tiempo_comida" (VStr tiempo) s);
                   [right; right; right; left; reflexivity | exact I]|].
    eapply rtc_l; [eapply step_action; exact Hr|].
    eapply rtc_l; [apply step_set_intent|]. apply rtc_once. eapply step_action. exact Hr'.
  - rewrite Ho'. apply fase_de_confirmado. cbn. rewrite Ho, apply_events_one.
    apply get_slot_apply_same.
Qed.

(** ** The confirmation flag once set *)

(** No step clears [plato_confirmado]: the user's fills do not reach it,
    and the only event an action writes to it is [SlotSet ... True]. *)
Lemma step_keeps_confirmado s s' :
  step s s' -> get_slot (tr s) "plato_confirmado" = VBool true ->
  get_slot (tr s') "plato_confirmado" = VBool true.
Proof.
  intros Hs Hc. inversion Hs as [s0 i | s0 k v Hk Hv | s0 a o r' Hr | s0 a e Hr]; subst.
  - exact Hc.
  - unfold get_slot in *. cbn [tr slots]. unfold nlu_slots in Hk.
    rewrite lookup_insert_ne by (intros ->; simpl in Hk; intuition discriminate). exact Hc.
  - cbn [tr]. destruct a; cbn in Hr.
    + destruct (ActionCalcularIMC.run (tr s)) as [o'|e] eqn:E; cbn in Hr; res_inv.
      apply imc_events_keys in E. rewrite get_slot_apply_events_other; [exact Hc|].
      eapply Forall_impl; [exact E|]. intros e [? ?]. assumption.
    + destruct (recomendar_events (tr s) (rng s) o r' Hr) as [-> | (p & _ & _ & _ & _ & ->)];
        [exact Hc|].
      rewrite apply_events_one, get_slot_apply_other by discriminate. exact Hc.
    + destruct (confirmacion_events (tr s) (rng s) o r' Hr)
        as [-> | [[_ ->] | [_ (p & _ & _ & _ & _ & _ & ->)]]]; [exact Hc| |];
        rewrite apply_events_one; [apply get_slot_apply_same|].
      rewrite get_slot_apply_other by discriminate. exact Hc.
  - exact Hc.
Qed.

(** C14. The flag is never reset: once [plato_confirmado] is set, it stays
    [True] in every later state of the conversation, whatever the user
    says and the actions do, so no later proposal ever reads as a fresh,
    unconfirmed one (the specification's [Proposed(next)] after a new
    request is never reached). *)
Theorem confirmado_persiste s s' :
  rtc step s s' -> get_slot (tr s) "plato_confirmado" = VBool true ->
  get_slot (tr s') "plato_confirmado" = VBool true /\ forall p, fase_de (tr s') <> Propuesto p.
Proof.
  intros Hr Hc. assert (Hc' : get_slot (tr s') "plato_confirmado" = VBool true).
  { induction Hr as [|x y z Hxy _ IH]; [exact Hc|]. apply IH, (step_keeps_confirmado x y Hxy Hc). }
  split; [exact Hc'|]. intros p. unfold fase_de. rewrite Hc', bool_decide_true by reflexivity.
  destruct (get_slot (tr s') "plato_recomendado"); discriminate.
Qed.

(** C17. The two actions normalise the meal time differently: for every
    meal time written with an accented vowel (after lowercasing and
    stripping) that the proposal handler resolves to a dish file, a
    rejection answers "No sé qué menú usar." and proposes nothing, whatever
    the file system, the tracker and the random state. *)
Theorem normalizacion_divergente t r tiempo :
  latest_intent t = intent "negar" -> get_slot t "tiempo_comida" = VStr tiempo ->
  ~ unaccented (strip (lower tiempo)) ->
  is_Some (archivos_get (normalizar_recomendar (VStr tiempo))) ->
  run_action ManejarConfirmacion t r = Ok (say ActionManejarConfirmacionPlato.msg_no_se_menu [], r).
Proof.
  intros Hi Ht Ha _. cbn [Conversation.run_action]. unfold ActionManejarConfirmacionPlato.run.
  rewrite Hi, Ht, normalizar_confirmacion_acento by exact Ha.
  rewrite bool_decide_false by discriminate. rewrite bool_decide_true by reflexivity.
  reflexivity.
Qed.

End Invariant.

Lemma reachable_conversacion_ejemplo : reachable fs_ejemplo [0; 1] conversacion_ejemplo.
Proof.
  unfold reachable, conversacion_ejemplo.
  eapply rtc_r; [|apply step_next]. eapply rtc_r; [|apply step_next].
  eapply rtc_r; [|apply step_set_intent]. eapply rtc_r; [|apply step_next].
  apply rtc_once, step_fill_nlu; [right; right; right; left; reflexivity | exact I].
Qed.

Lemma reachable_conversacion_imc : reachable fs_ejemplo [] conversacion_imc.
Proof.
  unfold reachable, conversacion_imc.
  eapply rtc_r; [|apply step_fill_nlu; [right; left; reflexivity | exact I]].
  apply rtc_once, step_fill_nlu; [left; reflexivity | exact I].
Qed.

(** C15. The confirmation flag can be set with no dish ever proposed: an
    "afirmar" at the start of a conversation confirms nothing, yet the
    action answers "¡Perfecto...!" and sets [plato_confirmado]. *)
Theorem confirmado_sin_propuesta (fs : files) :
  exists s, reachable fs [] s /\
    get_slot (tr s) "plato_confirmado" = VBool true /\
    get_slot (tr s) "plato_recomendado" = VNone.
Proof.
  eexists. split.
  - eapply rtc_l; [apply (step_intent fs _ (intent "afirmar"))|].
    eapply rtc_l; [eapply (step_action fs _ ManejarConfirmacion); reflexivity|].
    apply rtc_refl.
  - split; reflexivity.
Qed.

(** ** Witnesses *)

Lemma reachable_plato_in_file_witness :
  plato_ok fs_ejemplo (get_slot (tr conversacion_ejemplo) "plato_recomendado").
Proof.
  apply (reachable_plato_in_file fs_ejemplo [0; 1]). exact reachable_conversacion_ejemplo.
Defined.

Lemma reachable_typed_witness : tracker_typed (tr conversacion_imc).
Proof. apply (reachable_typed fs_ejemplo []). exact reachable_conversacion_imc. Defined.

Lemma reachable_imc_total_witness :
  exists o r', run_action fs_ejemplo CalcularIMC (tr conversacion_imc) (rng conversacion_imc)
               = Ok (o, r').
Proof.
  apply (reachable_imc_total fs_ejemplo [] conversacion_imc
           (of_decimal 58 0) (of_decimal 164 2) (of_decimal 164 2));
    first [exact reachable_conversacion_imc | vm_compute; reflexivity].
Defined.


Lemma accion_simula_witness :
  exists o r', run_action fs_ejemplo ManejarConfirmacion (tr conversacion_afirmar)
                 (rng conversacion_afirmar) = Ok (o, r') /\
  ((fase_de (apply_events (tr conversacion_afirmar) (events o)) = fase_de (tr conversacion_afirmar) /\
    Forall (fun e => event_key e <> "plato_recomendado") (events o)) \/
   paso_abstracto fs_ejemplo ManejarConfirmacion (latest_intent (tr conversacion_afirmar))
     (fase_de (tr conversacion_afirmar))
     (fase_de (apply_events (tr conversacion_afirmar) (events o)))).
Proof.
  destruct (run_action fs_ejemplo ManejarConfirmacion (tr conversacion_afirmar)
              (rng conversacion_afirmar)) as [[o r']|e] eqn:E; [|vm_compute in E; discriminate].
  exists o, r'. split; [reflexivity|].
  apply (accion_simula fs_ejemplo ManejarConfirmacion _ _ o r' E). vm_compute. discriminate.
Defined.

(** After "cena" is proposed and confirmed, the flag survives the second
    proposal. *)
Lemma confirmado_persiste_witness :
  get_slot (tr conversacion_ejemplo) "plato_confirmado" = VBool true /\
  forall p, fase_de (tr conversacion_ejemplo) <> Propuesto p.
Proof.
  apply (confirmado_persiste fs_ejemplo
           (next fs_ejemplo ManejarConfirmacion
              (set_intent (intent "afirmar")
                 (next fs_ejemplo RecomendarPlato
                    (fill "tiempo_comida" (VStr (lit "cena")) (init [0; 1])))))).
  - apply rtc_once, step_next.
  - vm_compute. reflexivity.
Defined.

Lemma normalizacion_divergente_witness :
  run_action fs_ejemplo ManejarConfirmacion (tr conversacion_cena_acento) (rng conversacion_cena_acento)
  = Ok (say ActionManejarConfirmacionPlato.msg_no_se_menu [], rng conversacion_cena_acento).
Proof.
  apply (normalizacion_divergente fs_ejemplo _ _ (lit "Cená")).
  - vm_compute. reflexivity.
  - vm_compute. reflexivity.
  - intros H. apply unaccented_forallb in H. vm_compute in H. discriminate.
  - vm_compute. eexists. reflexivity.
Defined.

Lemma ciclo_completable_witness :
  exists platos, load_platos fs_ejemplo (lit "cena.txt") = Ok platos /\
  exists (s' : @state (list nat)) plato,
    rtc (step fs_ejemplo) (init [7]) s' /\ In plato platos /\ fase_de (tr s') = Confirmado plato.
Proof.
  destruct (load_platos fs_ejemplo (lit "cena.txt")) as [platos|e] eqn:E;
    vm_compute in E; [|discriminate]. injection E as <-.
  eexists. split; [vm_compute; reflexivity|].
  apply (ciclo_completable fs_ejemplo (init [7]) (lit "cena") (lit "cena.txt"));
    [vm_compute; reflexivity | vm_compute; reflexivity | discriminate].
Defined.

End Conversation.
