(* ===== verification/Gui.v ===== *)
(** * The chat window: [gui_vita_kids.py]

    [enviar_mensaje_a_rasa] (lines 12-21) posts the user's text to the Rasa
    REST webhook and joins the [text] fields of the replies with newlines;
    any [requests] exception (connection failure, timeout, an HTTP error
    status through [raise_for_status], a body that is not JSON) becomes the
    text "Error al conectarse con Rasa: " followed by the exception.
    [ChatGUI.enviar_mensaje] (lines 134-143) strips the input, ignores it
    when blank, appends the user's bubble, clears the input, and appends
    the bot's bubble; [agregar_mensaje] (lines 122-132) builds a bubble.

    The HTTP round trip is the environment: [post] gives, for the sender
    and the message, either the text of a [RequestException] or the status
    and decoded body of the response.  The window state is the list of
    paragraphs appended to the chat area and the text of the input line;
    the widgets that hold them are in [GuiLayout]. *)

From Stdlib Require Import String.
From stdpp Require Import base list.
From Stdlib Require Import ZArith NArith.
From S2P Require Import Prelude PyStr PyValue.

Module Gui.

(** One element of the webhook's JSON reply: [r.get("text")]. *)
Record bot_reply := { reply_text : option pystr }.

Inductive http_result :=
  | HttpException (error : pystr)
      (** [str(e)] of a [RequestException] raised by [post] *)
  | HttpResponse (status : Z) (reason : pystr) (body : pystr + list bot_reply).
      (** [body] is [inl m] when [response.json()] raises, [m] its text *)

Definition rasa_url : pystr := lit "http://localhost:5005/webhooks/rest/webhook".

(** [response.raise_for_status()]: the message of the [HTTPError] for a
    4xx or 5xx status. *)
Definition http_error (status : Z) (reason : pystr) : option pystr :=
  if ((400 <=? status) && (status <? 500))%Z then
    Some (int_str status ++ lit " Client Error: " ++ reason ++ lit " for url: " ++ rasa_url)
  else if ((500 <=? status) && (status <? 600))%Z then
    Some (int_str status ++ lit " Server Error: " ++ reason ++ lit " for url: " ++ rasa_url)
  else None.

(** [sep.join(l)] *)
Fixpoint join (sep : pystr) (l : list pystr) : pystr :=
  match l with
  | [] => []
  | [x] => x
  | x :: l' => x ++ sep ++ join sep l'
  end.

(** [[r["text"] for r in respuestas if "text" in r]] *)
Definition textos (rs : list bot_reply) : list pystr := omap reply_text rs.

Definition error_prefix : pystr := lit "Error al conectarse con Rasa: ".

Section Window.
Context (post : pystr -> pystr -> http_result).

(** [enviar_mensaje_a_rasa(mensaje)] with [usuario="usuario1"]. *)
Definition enviar_mensaje_a_rasa (mensaje : pystr) : pystr :=
  match post (lit "usuario1") mensaje with
  | HttpException e => error_prefix ++ e
  | HttpResponse status reason body =>
      match http_error status reason with
      | Some e => error_prefix ++ e
      | None =>
          match body with
          | inl m => error_prefix ++ m
          | inr rs => join [10%N] (textos rs)
          end
      end
  end.

Record window := { chat_area : list pystr; input_msg : pystr }.

(** [agregar_mensaje(remitente, mensaje)]: the paragraph appended. *)
Definition burbuja (remitente mensaje : pystr) : pystr :=
  let estilo := if bool_decide (remitente = lit "Bot")
                then lit "background-color:#FFE9A3;"
                else lit "background-color:#FFD3B4; text-align:right;" in
  lit "<p style='" ++ estilo ++ lit " padding:8px; border-radius:12px;'>"
  ++ lit "<b>" ++ remitente ++ lit ":</b> " ++ mensaje ++ lit "</p>".

Definition agregar_mensaje (w : window) (remitente mensaje : pystr) : window :=
  {| chat_area := chat_area w ++ [burbuja remitente mensaje]; input_msg := input_msg w |}.

(** [ChatGUI.enviar_mensaje()] *)
Definition enviar_mensaje (w : window) : window :=
  let mensaje_usuario := strip (input_msg w) in
  if bool_decide (mensaje_usuario = []) then w
  else
    let w := agregar_mensaje w (lit "Tú") mensaje_usuario in
    let w := {| chat_area := chat_area w; input_msg := [] |} in
    let respuesta := enviar_mensaje_a_rasa mensaje_usuario in
    agregar_mensaje w (lit "Bot") respuesta.

(** The window after [__init__]: the greeting bubble. *)
Definition ventana_inicial : window :=
  agregar_mensaje {| chat_area := []; input_msg := [] |} (lit "Bot")
    (lit "¡Hola! Estoy listo para ayudarte.").

End Window.

(** A Rasa server answering every message with two texts and an image
    reply, and one that is down. *)
Definition post_ejemplo (_ _ : pystr) : http_result :=
  HttpResponse 200 (lit "OK")
    (inr [{| reply_text := Some (lit "¡Hola!") |}; {| reply_text := None |};
          {| reply_text := Some (lit "¿En qué te ayudo?") |}]).

Definition post_caido (_ _ : pystr) : http_result :=
  HttpException (lit "Connection refused").

(** A server answering every message with 404. *)
Definition post_404 (_ _ : pystr) : http_result :=
  HttpResponse 404 (lit "Not Found") (inl (lit "Expecting value")).

Definition ventana_con (texto : pystr) : window :=
  {| chat_area := chat_area ventana_inicial; input_msg := texto |}.

Section Props.
Context (post : pystr -> pystr -> http_result).

(** C28. The reply shown for a message, on every outcome of the post
    but an error status (C33): the text of a [RequestException]; the text
    of a body that is not JSON after a status below 400 or from 600 on;
    and for a JSON list of replies, the [text] fields of the replies that
    have one, in order, joined by newlines. *)
Theorem enviar_mensaje_a_rasa_cases m :
  (forall e, post (lit "usuario1") m = HttpException e ->
     enviar_mensaje_a_rasa post m = error_prefix ++ e) /\
  (forall status reason body, post (lit "usuario1") m = HttpResponse status reason body ->
     ~ (400 <= status < 600)%Z ->
     enviar_mensaje_a_rasa post m =
     match body with inl e => error_prefix ++ e | inr rs => join [10%N] (omap reply_text rs) end).
Proof.
  unfold enviar_mensaje_a_rasa. split.
  - intros e ->. reflexivity.
  - intros status reason body -> Hs. unfold http_error.
    destruct ((400 <=? status) && (status <? 500))%Z eqn:E1;
      [apply andb_prop in E1 as [E1 E2]; apply Z.leb_le in E1; apply Z.ltb_lt in E2; lia|].
    destruct ((500 <=? status) && (status <? 600))%Z eqn:E3;
      [apply andb_prop in E3 as [E3 E4]; apply Z.leb_le in E3; apply Z.ltb_lt in E4; lia|].
    reflexivity.
Qed.

(** [enviar_mensaje] on its two branches: a blank input changes nothing;
    otherwise the user's bubble with the stripped text and the bot's
    bubble with the reply to that text are appended and the input is
    cleared. *)
Lemma enviar_mensaje_cases w :
  (strip (input_msg w) = [] /\ enviar_mensaje post w = w) \/
  (strip (input_msg w) <> [] /\
   enviar_mensaje post w =
   {| chat_area := chat_area w ++ [burbuja (lit "Tú") (strip (input_msg w));
                                  burbuja (lit "Bot") (enviar_mensaje_a_rasa post (strip (input_msg w)))];
      input_msg := [] |}).
Proof.
  unfold enviar_mensaje. destruct (decide (strip (input_msg w) = [])) as [Hb|Hb].
  - left. rewrite Hb. split; reflexivity.
  - right. split; [exact Hb|]. rewrite bool_decide_eq_false_2 by exact Hb.
    unfold agregar_mensaje. cbn [chat_area]. rewrite <- app_assoc. reflexivity.
Qed.

(** C29. An HTTP error status is reported, whatever the body: for a 4xx or
    5xx response [raise_for_status] raises, and the reply shown is the
    error prefix, the status, "Client Error" or "Server Error", the reason
    and the URL. *)
Theorem enviar_mensaje_a_rasa_status m status reason body :
  post (lit "usuario1") m = HttpResponse status reason body ->
  (400 <= status < 600)%Z ->
  enviar_mensaje_a_rasa post m =
  error_prefix ++ int_str status
  ++ (if (status <? 500)%Z then lit " Client Error: " else lit " Server Error: ")
  ++ reason ++ lit " for url: " ++ rasa_url.
Proof.
  intros Hp Hs. unfold enviar_mensaje_a_rasa, http_error. rewrite Hp.
  rewrite (proj2 (Z.leb_le 400 status)) by lia.
  destruct (Z.ltb_spec status 500); cbn [andb]; [reflexivity|].
  rewrite (proj2 (Z.leb_le 500 status)), (proj2 (Z.ltb_lt status 600)) by lia.
  reflexivity.
Qed.

End Props.

(** The user's paragraph and the bot's paragraph around their text. *)
Definition parrafo_usuario : pystr :=
  lit "<p style='background-color:#FFD3B4; text-align:right; padding:8px; border-radius:12px;'><b>Tú:</b> ".
Definition parrafo_bot : pystr :=
  lit "<p style='background-color:#FFE9A3; padding:8px; border-radius:12px;'><b>Bot:</b> ".

Lemma burbuja_texto (remitente m : pystr) :
  remitente = lit "Tú" \/ remitente = lit "Bot" ->
  burbuja remitente m
  = (if bool_decide (remitente = lit "Bot") then parrafo_bot else parrafo_usuario) ++ m ++ lit "</p>".
Proof.
  intros Hr. unfold burbuja. rewrite !app_assoc. f_equal. f_equal.
  destruct Hr as [-> | ->]; vm_compute; reflexivity.
Qed.

(** C31. Neither the user's text nor the bot's reply is escaped: for every
    window and every non-blank input, the two paragraphs appended hold the
    stripped input and the reply character for character inside the HTML
    of [agregar_mensaje], so markup typed by the user (or sent by the
    server) is rendered as markup. *)
Theorem texto_sin_escapar post w :
  strip (input_msg w) <> [] ->
  chat_area (enviar_mensaje post w)
  = chat_area w ++ [parrafo_usuario ++ strip (input_msg w) ++ lit "</p>";
                    parrafo_bot ++ enviar_mensaje_a_rasa post (strip (input_msg w)) ++ lit "</p>"].
Proof.
  intros Hb. destruct (enviar_mensaje_cases post w) as [[Hb' _] | [_ ->]]; [contradiction|].
  cbn [chat_area]. rewrite !burbuja_texto by auto.
  rewrite bool_decide_false, bool_decide_true by (vm_compute; congruence). reflexivity.
Qed.

Lemma texto_sin_escapar_witness :
  chat_area (enviar_mensaje post_ejemplo (ventana_con (lit " <img src=x onerror=alert(1)> ")))
  = chat_area (ventana_con (lit " <img src=x onerror=alert(1)> ")) ++
    [parrafo_usuario ++ lit "<img src=x onerror=alert(1)>" ++ lit "</p>";
     parrafo_bot ++ enviar_mensaje_a_rasa post_ejemplo (lit "<img src=x onerror=alert(1)>") ++ lit "</p>"].
Proof.
  replace (lit "<img src=x onerror=alert(1)>")
    with (strip (input_msg (ventana_con (lit " <img src=x onerror=alert(1)> "))))
    by (vm_compute; reflexivity).
  apply texto_sin_escapar. vm_compute. discriminate.
Defined.

Lemma enviar_mensaje_a_rasa_cases_witness :
  enviar_mensaje_a_rasa post_ejemplo (lit "hola")
  = join [10%N] (omap reply_text [{| reply_text := Some (lit "¡Hola!") |}; {| reply_text := None |};
                                  {| reply_text := Some (lit "¿En qué te ayudo?") |}]).
Proof.
  apply (proj2 (enviar_mensaje_a_rasa_cases post_ejemplo (lit "hola")) 200%Z (lit "OK")
           (inr [{| reply_text := Some (lit "¡Hola!") |}; {| reply_text := None |};
                 {| reply_text := Some (lit "¿En qué te ayudo?") |}])); [reflexivity|lia].
Defined.

Lemma enviar_mensaje_a_rasa_status_witness :
  enviar_mensaje_a_rasa post_404 (lit "hola") =
  error_prefix ++ int_str 404 ++ lit " Client Error: " ++ lit "Not Found" ++ lit " for url: " ++ rasa_url.
Proof. apply (enviar_mensaje_a_rasa_status post_404 _ 404 _ (inl (lit "Expecting value"))); [reflexivity | lia]. Defined.

End Gui.
