(* ===== verification/GuiLayout.v ===== *)
(** * The chat window's widgets and the user's events: [ChatGUI.__init__]

    [gui_vita_kids.py] lines 24-117 build the window: a vertical layout
    with the title, a row of three fruit pictures, the mascot, a frame
    holding the read-only chat area, and a frame holding the input line and
    the send button; [returnPressed] of the input line and [clicked] of the
    button are both connected to [enviar_mensaje].  The widget tree is data
    here, one constructor per Qt class with the properties the code sets,
    built by [chat_gui] in the order of the code.

    The user acts on the window through Qt: typing in an editable widget,
    pressing Enter in the input line, clicking the button.  [handle] gives
    the effect of each event on the window state of [Gui], reading the
    editability of the widgets and the connected slots from the tree: a
    read-only text edit ignores typing, and a signal runs the slots
    connected to it. *)

From Stdlib Require Import String.
From stdpp Require Import base list.
From Stdlib Require Import ZArith NArith.
From S2P Require Import Prelude PyStr PyValue Gui.
Import Gui.

Module GuiLayout.

Local Open Scope Z_scope.

Inductive alignment := AlignCenter.

(** [QFont(family, size)] *)
Record qfont := { font_family : pystr; point_size : Z }.

(** [QPixmap(path).scaled(w, h, Qt.KeepAspectRatio, Qt.SmoothTransformation)] *)
Record qpixmap := { pix_path : pystr; pix_w : Z; pix_h : Z }.

(** The bound methods connected to signals. *)
Inductive slot := EnviarMensaje.

Inductive widget :=
  | QLabel (text : pystr) (font : option qfont) (align : option alignment)
      (style : option pystr) (pixmap : option qpixmap)
  | QTextEdit (read_only : bool) (style : pystr) (font : qfont)
  | QLineEdit (placeholder : pystr) (style : pystr) (font : qfont) (on_return : list slot)
  | QPushButton (icon : pystr) (style : pystr) (fixed_size : Z * Z) (on_click : list slot)
  | QFrame (style : pystr) (lay : layout)
with layout :=
  | QVBoxLayout (margins : option (Z * Z * Z * Z)) (spacing : option Z) (items : list item)
  | QHBoxLayout (margins : option (Z * Z * Z * Z)) (spacing : option Z)
      (align : option alignment) (items : list item)
with item :=
  | WidgetItem (w : widget) (stretch : Z)
  | LayoutItem (l : layout).

Record chat_gui := {
  window_title : pystr;
  geometry : Z * Z * Z * Z;
  window_style : pystr;
  main_layout : layout
}.

(** ** [__init__], in the order of the code *)

Definition nl : pystr := [10%N].

Definition header : widget :=
  QLabel (lit "VitaKids") (Some {| font_family := lit "Arial Rounded MT Bold"; point_size := 32 |})
    (Some AlignCenter) (Some (lit "color: black;")) None.

Definition frutas : list pystr :=
  [lit "Imagenes/fruta1.png"; lit "Imagenes/fruta2.png"; lit "Imagenes/fruta3.png"].

(** One picture of the loop of lines 50-54. *)
Definition img_fruta (fruta : pystr) : widget :=
  QLabel [] None None None (Some {| pix_path := fruta; pix_w := 70; pix_h := 70 |}).

Definition frutas_layout : layout :=
  QHBoxLayout None (Some 40) (Some AlignCenter) (map (fun f => WidgetItem (img_fruta f) 0) frutas).

Definition mascota : widget :=
  QLabel [] None (Some AlignCenter) None
    (Some {| pix_path := lit "Imagenes/mascota_vitakids.png"; pix_w := 210; pix_h := 210 |}).

Definition arial12 : qfont := {| font_family := lit "Arial"; point_size := 12 |}.

Definition estilo_chat_frame : pystr :=
  nl ++ lit "            background-color: #FFF4CC;   /* Amarillo pálido bonito */"
  ++ nl ++ lit "            border-radius: 15px; " ++ nl ++ lit "        ".

Definition estilo_chat_area : pystr :=
  nl ++ lit "            background-color: #FFF4CC;" ++ nl ++ lit "            color: black;"
  ++ nl ++ lit "            border: none;" ++ nl ++ lit "            padding: 10px;"
  ++ nl ++ lit "        ".

Definition chat_area_widget : widget := QTextEdit true estilo_chat_area arial12.

Definition chat_frame : widget :=
  QFrame estilo_chat_frame (QVBoxLayout None None [WidgetItem chat_area_widget 0]).

Definition estilo_input : pystr :=
  nl ++ lit "            background-color: white;" ++ nl ++ lit "            border-radius: 20px;"
  ++ nl ++ lit "            padding: 5px;" ++ nl ++ lit "        ".

Definition input_msg_widget : widget :=
  QLineEdit (lit "Escribe tu mensaje...") (lit "color: black;") arial12 [EnviarMensaje].

Definition btn_enviar : widget :=
  QPushButton (lit "Imagenes/icono_enviar.png") (lit "border: none;") (45, 45) [EnviarMensaje].

Definition input_container : widget :=
  QFrame estilo_input
    (QHBoxLayout (Some (10, 10, 10, 10)) None None
       [WidgetItem input_msg_widget 0; WidgetItem btn_enviar 0]).

Definition chat_gui_init : chat_gui := {|
  window_title := lit "VitaKids - Chat Infantil Saludable";
  geometry := (100, 100, 600, 800);
  window_style := lit "background-color: #fca311;";
  main_layout :=
    QVBoxLayout (Some (20, 20, 20, 20)) (Some 10)
      [WidgetItem header 0; LayoutItem frutas_layout; WidgetItem mascota 0;
       WidgetItem chat_frame 1; WidgetItem input_container 0]
|}.

(** ** The widgets of a tree *)

Fixpoint widgets_w (w : widget) : list widget :=
  w :: match w with QFrame _ l => widgets_l l | _ => [] end
with widgets_l (l : layout) : list widget :=
  let go := fix go (its : list item) : list widget :=
    match its with
    | [] => []
    | WidgetItem w _ :: its' => widgets_w w ++ go its'
    | LayoutItem l :: its' => widgets_l l ++ go its'
    end in
  match l with
  | QVBoxLayout _ _ its => go its
  | QHBoxLayout _ _ _ its => go its
  end.

Definition widgets (g : chat_gui) : list widget := widgets_l (main_layout g).

(** The slots run by Enter in an input line, and by a click on a button. *)
Definition return_slots (w : widget) : list slot :=
  match w with QLineEdit _ _ _ sl => sl | _ => [] end.
Definition click_slots (w : widget) : list slot :=
  match w with QPushButton _ _ _ sl => sl | _ => [] end.

(** The chat area can be edited by the user when a text edit of the
    window is not read-only; the input line always can. *)
Definition chat_editable (w : widget) : bool :=
  match w with QTextEdit ro _ _ => negb ro | _ => false end.
Definition input_editable (w : widget) : bool :=
  match w with QLineEdit _ _ _ _ => true | _ => false end.

(** ** The user's events *)

Inductive user_event :=
  | Escribir (texto : pystr)          (** edit the input line to [texto] *)
  | EditarChat (area : list pystr)    (** edit the chat area's paragraphs *)
  | PulsarEnter                       (** [returnPressed] of the input line *)
  | ClicEnviar.                       (** [clicked] of the send button *)

Section Events.
Context (post : pystr -> pystr -> http_result).

Definition run_slot (w : window) (s : slot) : window :=
  match s with EnviarMensaje => enviar_mensaje post w end.

Definition run_slots (sl : list slot) (w : window) : window := fold_left run_slot sl w.

Definition handle (g : chat_gui) (w : window) (ev : user_event) : window :=
  match ev with
  | Escribir texto =>
      if existsb input_editable (widgets g)
      then {| chat_area := chat_area w; input_msg := texto |} else w
  | EditarChat area =>
      if existsb chat_editable (widgets g)
      then {| chat_area := area; input_msg := input_msg w |} else w
  | PulsarEnter => run_slots (concat (map return_slots (widgets g))) w
  | ClicEnviar => run_slots (concat (map click_slots (widgets g))) w
  end.

(** A session: the events in order, from the window after [__init__]. *)
Definition sesion (evs : list user_event) : window :=
  fold_left (handle chat_gui_init) evs ventana_inicial.

(** The chat area after the user sent the messages [us] (stripped, not
    blank): the greeting, then for each message its bubble and the bubble
    of the reply to it. *)
Definition historial (us : list pystr) : list pystr :=
  chat_area ventana_inicial ++
  concat (map (fun u => [burbuja (lit "Tú") u; burbuja (lit "Bot") (enviar_mensaje_a_rasa post u)]) us).

End Events.

Section Props.
Context (post : pystr -> pystr -> http_result).

Lemma slots_init :
  concat (map return_slots (widgets chat_gui_init)) = [EnviarMensaje] /\
  concat (map click_slots (widgets chat_gui_init)) = [EnviarMensaje] /\
  existsb chat_editable (widgets chat_gui_init) = false /\
  existsb input_editable (widgets chat_gui_init) = true.
Proof. vm_compute. repeat split. Qed.

Lemma handle_enter w : handle post chat_gui_init w PulsarEnter = enviar_mensaje post w.
Proof. unfold handle. rewrite (proj1 slots_init). reflexivity. Qed.

Lemma handle_click w : handle post chat_gui_init w ClicEnviar = enviar_mensaje post w.
Proof. unfold handle. rewrite (proj1 (proj2 slots_init)). reflexivity. Qed.

Lemma handle_editar w area : handle post chat_gui_init w (EditarChat area) = w.
Proof. unfold handle. rewrite (proj1 (proj2 (proj2 slots_init))). reflexivity. Qed.

Lemma handle_escribir w texto :
  handle post chat_gui_init w (Escribir texto) = {| chat_area := chat_area w; input_msg := texto |}.
Proof. unfold handle. rewrite (proj2 (proj2 (proj2 slots_init))). reflexivity. Qed.

Lemma historial_snoc us u :
  historial post (us ++ [u]) =
  historial post us ++ [burbuja (lit "Tú") u; burbuja (lit "Bot") (enviar_mensaje_a_rasa post u)].
Proof. unfold historial. rewrite map_app, concat_app, app_assoc. reflexivity. Qed.

(** Every event keeps the chat area a history of sent messages. *)
Lemma handle_historial w ev us :
  chat_area w = historial post us -> Forall (fun u => u <> []) us ->
  exists us', chat_area (handle post chat_gui_init w ev) = historial post us' /\
              Forall (fun u => u <> []) us'.
Proof.
  intros Hw Hus.
  assert (Hsend : forall w, chat_area w = historial post us ->
            exists us', chat_area (enviar_mensaje post w) = historial post us' /\
                        Forall (fun u => u <> []) us').
  { intros w' Hw'. destruct (enviar_mensaje_cases post w') as [[_ ->] | [Hb ->]]; [eauto|].
    exists (us ++ [strip (input_msg w')]). cbn [chat_area]. rewrite Hw', historial_snoc.
    split; [reflexivity|]. apply Forall_app; auto. }
  destruct ev; [rewrite handle_escribir | rewrite handle_editar | rewrite handle_enter
               | rewrite handle_click]; eauto.
Qed.

Lemma fold_historial evs w us :
  chat_area w = historial post us -> Forall (fun u => u <> []) us ->
  exists us', chat_area (fold_left (handle post chat_gui_init) evs w) = historial post us' /\
              Forall (fun u => u <> []) us'.
Proof.
  revert w us. induction evs as [|ev evs IH]; intros w us Hw Hus; [eauto|].
  cbn [fold_left]. destruct (handle_historial w ev us Hw Hus) as (us' & Hw' & Hus').
  eapply IH; eauto.
Qed.

(** C13. The chat history cannot be tampered with: whatever the user
    types, edits, sends or clicks, the chat area is the greeting followed,
    for each non-blank message sent, by the message's bubble and the
    bubble of the reply to that message (the chat area is read-only, and
    both signals run [enviar_mensaje]). *)
Theorem sesion_historial (evs : list user_event) :
  exists us, chat_area (sesion post evs) = historial post us /\ Forall (fun u => u <> []) us.
Proof.
  unfold sesion. apply (fold_historial evs ventana_inicial []); [|constructor].
  unfold historial. rewrite app_nil_r. reflexivity.
Qed.

(** C30. Every message is answered: typing a non-blank text and pressing
    Enter, after any session, appends exactly the user's bubble with the
    stripped text and the bubble of the reply to it. *)
Theorem enviar_respondido (evs : list user_event) (texto : pystr) :
  strip texto <> [] ->
  chat_area (sesion post (evs ++ [Escribir texto; PulsarEnter])) =
  chat_area (sesion post evs) ++
    [burbuja (lit "Tú") (strip texto); burbuja (lit "Bot") (enviar_mensaje_a_rasa post (strip texto))].
Proof.
  intros Hb. unfold sesion. rewrite fold_left_app. cbn [fold_left].
  rewrite handle_escribir, handle_enter.
  destruct (enviar_mensaje_cases post {| chat_area := chat_area (fold_left (handle post chat_gui_init) evs ventana_inicial); input_msg := texto |})
    as [[Hb' _] | [_ ->]]; [cbn in Hb'; contradiction|]. reflexivity.
Qed.

End Props.

(** ** Witnesses *)

Lemma enviar_respondido_witness :
  chat_area (sesion post_caido [EditarChat []; Escribir (lit "  hola "); PulsarEnter]) =
  chat_area (sesion post_caido [EditarChat []]) ++
    [burbuja (lit "Tú") (lit "hola");
     burbuja (lit "Bot") (enviar_mensaje_a_rasa post_caido (lit "hola"))].
Proof.
  apply (enviar_respondido post_caido [EditarChat []] (lit "  hola ")). vm_compute. discriminate.
Defined.

End GuiLayout.
